(** * Staffing directory service: people CRUD, the beach view, policy documents

    A shallow embedding of [backend/app]: the pydantic models of [models.py],
    the [people] table of [database.py], the handlers of [routers/people.py],
    [routers/beach.py] and [routers/documents.py], the service layer of
    [services.py], the allowed origins of [main.py] and the seeding of
    [seed_data.py].

    Conventions of the embedding.
    - A Python [str] is a [string]; one [ascii] stands for one code point
      below 256, so [String.length] is Python's [len].
    - A [datetime] is an instant, counted in microseconds.  The column
      [created_at] holds text, and [ORDER BY created_at] compares the texts:
      the table keeps, for each [created_at], which of the two writers'
      formats the text has ([isoformat()] with [T], the [sqlite3] adapter
      with a blank) next to the instant that it spells.  Of [updated_at],
      which no statement compares, the table keeps the instant only.
    - The clock is not part of the state: every handler that calls
      [datetime.now()] or [datetime.utcnow()] receives the reading as an
      argument, one argument per call in the source.
    - The storage engine does not fail (no I/O error, no row-id exhaustion);
      [aiosqlite] calls are modelled by their effect on the table.
    - A handler returns its HTTP outcome together with the database it
      leaves behind. *)

From Stdlib Require Import ZArith List String Ascii Bool Lia Permutation Sorted.
Import ListNotations.

Local Open Scope string_scope.
Local Open Scope Z_scope.

(** ** Python string operations used by the code *)

Module Py.

(** [str.isspace] on one code point below 256: TAB..CR, FS..US, SPACE,
    NEL (0x85) and NBSP (0xA0). *)
Definition isspace (c : ascii) : bool :=
  let n := N_of_ascii c in
  ((9 <=? n) && (n <=? 13) || (28 <=? n) && (n <=? 32)
   || (n =? 133) || (n =? 160))%N.

(** [s.lstrip()] *)
Fixpoint lstrip (s : string) : string :=
  match s with
  | EmptyString => EmptyString
  | String c s' => if isspace c then lstrip s' else s
  end.

(** [s.rstrip()] *)
Fixpoint rstrip (s : string) : string :=
  match s with
  | EmptyString => EmptyString
  | String c s' =>
      match rstrip s' with
      | EmptyString => if isspace c then EmptyString else String c EmptyString
      | r => String c r
      end
  end.

(** [s.strip()] *)
Definition strip (s : string) : string := rstrip (lstrip s).

(** [sub in s] for strings: [sub] occurs in [s] as a contiguous block. *)
Fixpoint contains (sub s : string) : bool :=
  String.prefix sub s
  || match s with
     | EmptyString => false
     | String _ s' => contains sub s'
     end.

(** [s.rfind(c)] for a one-character needle; [None] is Python's [-1]. *)
Fixpoint rfind (c : ascii) (s : string) : option nat :=
  match s with
  | EmptyString => None
  | String d s' =>
      match rfind c s' with
      | Some i => Some (S i)
      | None => if Ascii.eqb d c then Some O else None
      end
  end.

(** [s[i:]] *)
Fixpoint drop (i : nat) (s : string) : string :=
  match i, s with
  | O, _ => s
  | S i', String _ s' => drop i' s'
  | S _, EmptyString => EmptyString
  end.

(** [str.lower] on one code point below 256: A-Z, and the Latin-1 capitals
    0xC0-0xDE except the multiplication sign 0xD7. *)
Definition lower_char (c : ascii) : ascii :=
  let n := N_of_ascii c in
  if ((65 <=? n) && (n <=? 90)
      || (192 <=? n) && (n <=? 222) && negb (n =? 215))%N
  then ascii_of_N (n + 32) else c.

Fixpoint lower (s : string) : string :=
  match s with
  | EmptyString => EmptyString
  | String c s' => String (lower_char c) (lower s')
  end.

(** [x in xs] for a collection of strings. *)
Definition mem (x : string) (xs : list string) : bool :=
  existsb (String.eqb x) xs.

(** [s.split(sep)] for a one-character separator: the pieces between the
    separators, the empty string giving one empty piece. *)
Fixpoint split (sep : ascii) (s : string) : list string :=
  match s with
  | EmptyString => [EmptyString]
  | String c s' =>
      if Ascii.eqb c sep then EmptyString :: split sep s'
      else match split sep s' with
           | piece :: pieces => String c piece :: pieces
           | [] => [String c EmptyString]
           end
  end.

End Py.

(** ** models.py *)

Inductive StaffingStatus : Type := STAFFED | BENCH | AVAILABLE.

(** [StaffingStatus.X.value] *)
Definition StaffingStatus_value (s : StaffingStatus) : string :=
  match s with
  | STAFFED => "staffed"
  | BENCH => "bench"
  | AVAILABLE => "available"
  end.

(** [StaffingStatus(v)]: lookup of an enum member by value; [None] when no
    member has that value. *)
Definition StaffingStatus_of_value (v : string) : option StaffingStatus :=
  if String.eqb v "staffed" then Some STAFFED
  else if String.eqb v "bench" then Some BENCH
  else if String.eqb v "available" then Some AVAILABLE
  else None.

(** A naive [datetime], as [datetime.now()] and [datetime.utcnow()] return
    it: an instant on the time line of the calendar, counted in microseconds
    from 0001-01-01 00:00:00. *)
Definition datetime := Z.

(** The character between the date and the time in the text of a
    timestamp. *)
Inductive Separator : Type := SEP_T | SEP_BLANK.

(** The text of a timestamp, as [isoformat] writes it: the date
    [YYYY-MM-DD], the separator, the time [HH:MM:SS] and, unless it is zero,
    the fraction [.ffffff].  A text is kept as its separator and the instant
    that it spells. *)
Record IsoText : Type := mkIsoText {
  text_sep : Separator;
  text_instant : datetime
}.

(** [d.isoformat()]: the separator is [T]. *)
Definition isoformat (d : datetime) : IsoText := mkIsoText SEP_T d.

(** What [sqlite3] stores for a [datetime] bound as a parameter: its
    default adapter returns [d.isoformat(" ")]. *)
Definition adapt_datetime (d : datetime) : IsoText := mkIsoText SEP_BLANK d.

(** [datetime.fromisoformat(text)], which is also what a [datetime] field
    of a model makes of a text; either separator is read. *)
Definition fromisoformat (text : IsoText) : datetime := text_instant text.

(** [Field(..., min_length=lo, max_length=hi)] on a [str]. *)
Definition Field_length (lo hi : nat) (v : string) : option string :=
  if (Nat.leb lo (String.length v)) && (Nat.leb (String.length v) hi)
  then Some v else None.

(** [PersonBase.validate_text_fields]: rejects an empty or all-whitespace
    value, returns the value stripped. *)
Definition validate_text_fields (v : string) : option string :=
  if String.eqb v "" || String.eqb (Py.strip v) "" then None
  else Some (Py.strip v).

(** A [name], [role] or [department] field of [PersonBase]: the length
    constraint of [Field] runs first, the class validator after it. *)
Definition text_field (v : string) : option string :=
  match Field_length 1 100 v with
  | Some v' => validate_text_fields v'
  | None => None
  end.

(** The JSON body of [POST /people], every field present and a string. *)
Record CreateBody : Type := mkCreateBody {
  body_name : string;
  body_role : string;
  body_department : string;
  body_staffing_status : string
}.

Record PersonCreate : Type := mkPersonCreate {
  pc_name : string;
  pc_role : string;
  pc_department : string;
  pc_staffing_status : StaffingStatus
}.

(** Construction of [PersonCreate] from the request body; [None] is
    pydantic's validation error. *)
Definition PersonCreate_validate (b : CreateBody) : option PersonCreate :=
  match text_field (body_name b), text_field (body_role b),
        text_field (body_department b),
        StaffingStatus_of_value (body_staffing_status b) with
  | Some n, Some r, Some d, Some s => Some (mkPersonCreate n r d s)
  | _, _, _, _ => None
  end.

(** [PersonUpdate]: every field optional, [None] for an absent or null one. *)
Record PersonUpdate : Type := mkPersonUpdate {
  pu_name : option string;
  pu_role : option string;
  pu_department : option string;
  pu_staffing_status : option StaffingStatus
}.

(** The JSON body of [PUT /people/{id}]. *)
Record UpdateBody : Type := mkUpdateBody {
  ubody_name : option string;
  ubody_role : option string;
  ubody_department : option string;
  ubody_staffing_status : option string
}.

(** An optional text field of [PersonUpdate]: [Some None] is a field left
    out, [None] a validation error. *)
Definition optional_text_field (v : option string) : option (option string) :=
  match v with
  | None => Some None
  | Some s => match text_field s with
              | Some s' => Some (Some s')
              | None => None
              end
  end.

Definition optional_status (v : option string)
  : option (option StaffingStatus) :=
  match v with
  | None => Some None
  | Some s => match StaffingStatus_of_value s with
              | Some st => Some (Some st)
              | None => None
              end
  end.

Definition PersonUpdate_validate (b : UpdateBody) : option PersonUpdate :=
  match optional_text_field (ubody_name b), optional_text_field (ubody_role b),
        optional_text_field (ubody_department b),
        optional_status (ubody_staffing_status b) with
  | Some n, Some r, Some d, Some s => Some (mkPersonUpdate n r d s)
  | _, _, _, _ => None
  end.

Record Person : Type := mkPerson {
  id : Z;
  name : string;
  role : string;
  department : string;
  staffing_status : StaffingStatus;
  created_at : datetime;
  updated_at : datetime
}.

(** ** database.py: the [people] table *)

(** One row of [people].  The column [staffing_status] carries the CHECK
    constraint [IN ('staffed', 'bench', 'available')], so a stored status is
    one of the three members; the text columns are unconstrained.
    [created_at] is the text as it was written.  [updated_at] is the instant
    that its text spells: no statement of the code compares, orders or
    selects by that column, and every reader turns its text into the
    instant. *)
Record Row : Type := mkRow {
  row_id : Z;
  row_name : string;
  row_role : string;
  row_department : string;
  row_staffing_status : StaffingStatus;
  row_created_at : IsoText;
  row_updated_at : datetime
}.

(** The table in row-id order, and the AUTOINCREMENT counter that SQLite
    keeps for it in [sqlite_sequence]. *)
Record Database : Type := mkDatabase {
  people_table : list Row;
  sqlite_sequence : Z
}.

Module Sql.

(** [SELECT ... FROM people WHERE id = ?] followed by [fetchone()]. *)
Definition select_by_id (person_id : Z) (rows : list Row) : option Row :=
  find (fun r => row_id r =? person_id) rows.

Definition MICROSECONDS_PER_DAY : Z := 86400000000.

(** The first ten characters of a timestamp text, [YYYY-MM-DD]: year, month
    and day are zero-padded decimals of fixed width, so two dates compare,
    byte by byte, as the days that they name. *)
Definition date_part (text : IsoText) : Z :=
  text_instant text / MICROSECONDS_PER_DAY.

(** The characters after the separator, [HH:MM:SS] or [HH:MM:SS.ffffff]:
    two of them compare as the times of day that they name, a text without
    fraction being a proper prefix of the texts of the same second that have
    one. *)
Definition time_part (text : IsoText) : Z :=
  text_instant text mod MICROSECONDS_PER_DAY.

(** The byte of the separator. *)
Definition separator_byte (sep : Separator) : Z :=
  match sep with
  | SEP_BLANK => 32
  | SEP_T => 84
  end.

(** [a < b] for two timestamp texts in the BINARY collation, which is how
    [ORDER BY] compares a text column: byte by byte from the left, so by the
    date first, by the separator next and by the time of day last. *)
Definition text_ltb (a b : IsoText) : bool :=
  (date_part a <? date_part b)
  || (date_part a =? date_part b)
     && ((separator_byte (text_sep a) <? separator_byte (text_sep b))
         || (separator_byte (text_sep a) =? separator_byte (text_sep b))
            && (time_part a <? time_part b)).

(** [ORDER BY created_at DESC]: rows with the greater text first, rows with
    equal texts in the order of the scan. *)
Fixpoint insert_desc (r : Row) (sorted : list Row) : list Row :=
  match sorted with
  | [] => [r]
  | r' :: rest =>
      if text_ltb (row_created_at r) (row_created_at r')
      then r' :: insert_desc r rest
      else r :: sorted
  end.

Fixpoint order_by_created_at_desc (rows : list Row) : list Row :=
  match rows with
  | [] => []
  | r :: rest => insert_desc r (order_by_created_at_desc rest)
  end.

(** [WHERE staffing_status IN ('bench', 'available')] *)
Definition status_in_bench_available (r : Row) : bool :=
  Py.mem (StaffingStatus_value (row_staffing_status r)) ["bench"; "available"].

(** The row id that an INSERT without explicit id receives under
    AUTOINCREMENT: one more than the largest id in the table (1 for an empty
    table), and more than every id handed out before. *)
Definition new_rowid (db : Database) : Z :=
  let v := match people_table db with
           | [] => 1
           | r :: rest => fold_right (fun r' m => Z.max (row_id r') m)
                                     (row_id r) rest + 1
           end in
  Z.max v (sqlite_sequence db + 1).

(** [INSERT INTO people (name, role, department, staffing_status,
    created_at, updated_at) VALUES (?, ?, ?, ?, ?, ?)] and [commit];
    returns [cursor.lastrowid] with the new database.  [c] and [u] are the
    two timestamp texts that are bound. *)
Definition insert (n r d : string) (s : StaffingStatus) (c u : IsoText)
    (db : Database) : Z * Database :=
  let i := new_rowid db in
  (i, mkDatabase
        (people_table db ++ [mkRow i n r d s c (fromisoformat u)])%list i).

(** One [column = ?] of a dynamically built [UPDATE people SET ...]. *)
Inductive Assignment : Type :=
| Set_name (v : string)
| Set_role (v : string)
| Set_department (v : string)
| Set_staffing_status (v : StaffingStatus)
| Set_updated_at (v : IsoText).

Definition assign (r : Row) (a : Assignment) : Row :=
  match a with
  | Set_name v =>
      mkRow (row_id r) v (row_role r) (row_department r)
            (row_staffing_status r) (row_created_at r) (row_updated_at r)
  | Set_role v =>
      mkRow (row_id r) (row_name r) v (row_department r)
            (row_staffing_status r) (row_created_at r) (row_updated_at r)
  | Set_department v =>
      mkRow (row_id r) (row_name r) (row_role r) v
            (row_staffing_status r) (row_created_at r) (row_updated_at r)
  | Set_staffing_status v =>
      mkRow (row_id r) (row_name r) (row_role r) (row_department r)
            v (row_created_at r) (row_updated_at r)
  | Set_updated_at v =>
      mkRow (row_id r) (row_name r) (row_role r) (row_department r)
            (row_staffing_status r) (row_created_at r) (fromisoformat v)
  end.

(** [UPDATE people SET <update_fields> WHERE id = ?] and [commit]. *)
Definition update_by_id (update_fields : list Assignment) (person_id : Z)
    (db : Database) : Database :=
  mkDatabase
    (map (fun r => if row_id r =? person_id
                   then fold_left assign update_fields r else r)
         (people_table db))
    (sqlite_sequence db).

(** [DELETE FROM people WHERE id = ?] and [commit]. *)
Definition delete_by_id (person_id : Z) (db : Database) : Database :=
  mkDatabase
    (filter (fun r => negb (row_id r =? person_id)) (people_table db))
    (sqlite_sequence db).

(** [SELECT COUNT( * ) ... WHERE ...] *)
Definition count_where (p : Row -> bool) (rows : list Row) : Z :=
  Z.of_nat (List.length (filter p rows)).

End Sql.

(** ** Building the response models from rows *)

(** [Person(id=row['id'], name=row['name'], ...)]: the constructor runs the
    validators of [PersonBase] on the three text fields; [None] is the
    validation error it raises.  [created_at] is read from its text, by
    [datetime.fromisoformat] in the routers and by the model's [datetime]
    field in the services. *)
Definition Person_from_row (row : Row) : option Person :=
  match text_field (row_name row), text_field (row_role row),
        text_field (row_department row) with
  | Some n, Some r, Some d =>
      Some (mkPerson (row_id row) n r d (row_staffing_status row)
                     (fromisoformat (row_created_at row)) (row_updated_at row))
  | _, _, _ => None
  end.

(** [[Person(...) for row in rows]] *)
Fixpoint Persons_from_rows (rows : list Row) : option (list Person) :=
  match rows with
  | [] => Some []
  | row :: rest =>
      match Person_from_row row with
      | None => None
      | Some p =>
          match Persons_from_rows rest with
          | None => None
          | Some ps => Some (p :: ps)
          end
      end
  end.

(** The fields that a [PersonUpdate] supplies, as [update_fields] and
    [update_values] of both [update_person] functions collect them. *)
Definition supplied_fields (person_data : PersonUpdate) : list Sql.Assignment :=
  let update_fields : list Sql.Assignment := [] in
  let update_fields :=
    match pu_name person_data with
    | Some v => (update_fields ++ [Sql.Set_name v])%list
    | None => update_fields
    end in
  let update_fields :=
    match pu_role person_data with
    | Some v => (update_fields ++ [Sql.Set_role v])%list
    | None => update_fields
    end in
  let update_fields :=
    match pu_department person_data with
    | Some v => (update_fields ++ [Sql.Set_department v])%list
    | None => update_fields
    end in
  let update_fields :=
    match pu_staffing_status person_data with
    | Some v => (update_fields ++ [Sql.Set_staffing_status v])%list
    | None => update_fields
    end in
  update_fields.

(** ** HTTP outcomes *)

Definition HTTP_200_OK : Z := 200.
Definition HTTP_201_CREATED : Z := 201.
Definition HTTP_400_BAD_REQUEST : Z := 400.
Definition HTTP_403_FORBIDDEN : Z := 403.
Definition HTTP_404_NOT_FOUND : Z := 404.
Definition HTTP_500_INTERNAL_SERVER_ERROR : Z := 500.

(** What a route answers: the success envelope with its payload, an
    [HTTPException] raised by the handler, or the rejection of the request
    body by the model before the handler runs. *)
Inductive Response (A : Type) : Type :=
| Success (status_code : Z) (payload : A)
| HTTPException (status_code : Z)
| RequestValidationError.

Arguments Success {A} status_code payload.
Arguments HTTPException {A} status_code.
Arguments RequestValidationError {A}.

(** ** routers/people.py *)

Module people.

(** [GET /people]: the people and [total_count]. *)
Definition get_all_people (db : Database) : Response (list Person * Z) :=
  let rows := Sql.order_by_created_at_desc (people_table db) in
  match Persons_from_rows rows with
  | Some people => Success HTTP_200_OK (people, Z.of_nat (List.length people))
  | None => HTTPException HTTP_500_INTERNAL_SERVER_ERROR
  end.

(** The handler of [POST /people]; [now] is the one reading of
    [datetime.now()], and [current_time] its [isoformat()] text, bound for
    both columns.  The table is committed before the row is read back, so
    the [rollback] of the [except] branch undoes nothing. *)
Definition create_person (now : datetime) (person_data : PersonCreate)
    (db : Database) : Response Person * Database :=
  let current_time := isoformat now in
  let '(person_id, db') :=
    Sql.insert (pc_name person_data) (pc_role person_data)
               (pc_department person_data) (pc_staffing_status person_data)
               current_time current_time db in
  match Sql.select_by_id person_id (people_table db') with
  | None => (HTTPException HTTP_500_INTERNAL_SERVER_ERROR, db')
  | Some row =>
      match Person_from_row row with
      | Some created_person => (Success HTTP_201_CREATED created_person, db')
      | None => (HTTPException HTTP_500_INTERNAL_SERVER_ERROR, db')
      end
  end.

(** [GET /people/{person_id}] *)
Definition get_person_by_id (person_id : Z) (db : Database) : Response Person :=
  match Sql.select_by_id person_id (people_table db) with
  | None => HTTPException HTTP_404_NOT_FOUND
  | Some row =>
      match Person_from_row row with
      | Some person => Success HTTP_200_OK person
      | None => HTTPException HTTP_500_INTERNAL_SERVER_ERROR
      end
  end.

(** The handler of [PUT /people/{person_id}]; [now] is the reading of
    [datetime.now()], appended to the values as its [isoformat()] text. *)
Definition update_person (now : datetime) (person_id : Z)
    (person_data : PersonUpdate) (db : Database)
    : Response Person * Database :=
  match Sql.select_by_id person_id (people_table db) with
  | None => (HTTPException HTTP_404_NOT_FOUND, db)
  | Some _ =>
      let update_fields := supplied_fields person_data in
      match update_fields with
      | [] => (HTTPException HTTP_400_BAD_REQUEST, db)
      | _ :: _ =>
          let update_fields :=
            (update_fields ++ [Sql.Set_updated_at (isoformat now)])%list in
          let db' := Sql.update_by_id update_fields person_id db in
          match Sql.select_by_id person_id (people_table db') with
          | None => (HTTPException HTTP_500_INTERNAL_SERVER_ERROR, db')
          | Some row =>
              match Person_from_row row with
              | Some updated_person => (Success HTTP_200_OK updated_person, db')
              | None => (HTTPException HTTP_500_INTERNAL_SERVER_ERROR, db')
              end
          end
      end
  end.

(** [DELETE /people/{person_id}]: the row is read and turned into the
    response model first, and deleted after. *)
Definition delete_person (person_id : Z) (db : Database)
    : Response Person * Database :=
  match Sql.select_by_id person_id (people_table db) with
  | None => (HTTPException HTTP_404_NOT_FOUND, db)
  | Some row =>
      match Person_from_row row with
      | None => (HTTPException HTTP_500_INTERNAL_SERVER_ERROR, db)
      | Some deleted_person =>
          (Success HTTP_200_OK deleted_person, Sql.delete_by_id person_id db)
      end
  end.

(** The route [POST /people]: the body is validated into a [PersonCreate]
    before the handler is entered. *)
Definition POST_people (now : datetime) (body : CreateBody)
    (db : Database) : Response Person * Database :=
  match PersonCreate_validate body with
  | None => (RequestValidationError, db)
  | Some person_data => create_person now person_data db
  end.

(** The route [PUT /people/{person_id}]. *)
Definition PUT_people (now : datetime) (person_id : Z) (body : UpdateBody)
    (db : Database) : Response Person * Database :=
  match PersonUpdate_validate body with
  | None => (RequestValidationError, db)
  | Some person_data => update_person now person_id person_data db
  end.

End people.

(** ** services.py *)

(** What a service function does: it returns a value or raises. *)
Inductive Outcome (A : Type) : Type :=
| Returns (value : A)
| Raises.

Arguments Returns {A} value.
Arguments Raises {A}.

Module PeopleService.

Definition get_person_by_id (person_id : Z) (db : Database)
    : Outcome (option Person) :=
  match Sql.select_by_id person_id (people_table db) with
  | Some row =>
      match Person_from_row row with
      | Some person => Returns (Some person)
      | None => Raises
      end
  | None => Returns None
  end.

(** [created_at] and [updated_at] come from two calls of
    [datetime.utcnow()], in this order: [utcnow_1] and [utcnow_2].  The two
    [datetime] values are bound as they are, so [sqlite3] adapts them. *)
Definition create_person (utcnow_1 utcnow_2 : datetime)
    (person_data : PersonCreate) (db : Database)
    : Outcome (option Person) * Database :=
  let '(person_id, db') :=
    Sql.insert (pc_name person_data) (pc_role person_data)
               (pc_department person_data) (pc_staffing_status person_data)
               (adapt_datetime utcnow_1) (adapt_datetime utcnow_2) db in
  (get_person_by_id person_id db', db').

Definition get_all_people (db : Database) : Outcome (list Person) :=
  let rows := Sql.order_by_created_at_desc (people_table db) in
  match Persons_from_rows rows with
  | Some people => Returns people
  | None => Raises
  end.

Definition update_person (utcnow : datetime) (person_id : Z)
    (person_data : PersonUpdate) (db : Database)
    : Outcome (option Person) * Database :=
  match get_person_by_id person_id db with
  | Raises => (Raises, db)
  | Returns None => (Returns None, db)
  | Returns (Some existing_person) =>
      let update_fields :=
        (supplied_fields person_data
         ++ [Sql.Set_updated_at (adapt_datetime utcnow)])%list in
      let db' := Sql.update_by_id update_fields person_id db in
      (get_person_by_id person_id db', db')
  end.

(** Returns [cursor.rowcount > 0]. *)
Definition delete_person (person_id : Z) (db : Database) : bool * Database :=
  let rowcount :=
    Z.of_nat (List.length (filter (fun r => row_id r =? person_id)
                                  (people_table db))) in
  (0 <? rowcount, Sql.delete_by_id person_id db).

(** [status] is the text bound to [WHERE staffing_status = ?]. *)
Definition get_people_by_staffing_status (status : string) (db : Database)
    : Outcome (list Person) :=
  let rows :=
    Sql.order_by_created_at_desc
      (filter (fun r => String.eqb (StaffingStatus_value
                                      (row_staffing_status r)) status)
              (people_table db)) in
  match Persons_from_rows rows with
  | Some people => Returns people
  | None => Raises
  end.

Definition get_people_count (db : Database) : Z :=
  Sql.count_where (fun _ => true) (people_table db).

End PeopleService.

Module BeachService.

Definition get_people_on_beach (db : Database) : Outcome (list Person) :=
  let rows :=
    Sql.order_by_created_at_desc
      (filter Sql.status_in_bench_available (people_table db)) in
  match Persons_from_rows rows with
  | Some people => Returns people
  | None => Raises
  end.

Definition get_beach_count (db : Database) : Z :=
  Sql.count_where Sql.status_in_bench_available (people_table db).

End BeachService.

(** ** routers/beach.py *)

Module beach.

(** [GET /beach]: [people_on_beach], [total_count] and [last_updated]. *)
Definition get_people_on_beach (utcnow : datetime) (db : Database)
    : Response (list Person * Z * datetime) :=
  match BeachService.get_people_on_beach db with
  | Returns people_on_beach =>
      Success HTTP_200_OK
        (people_on_beach, Z.of_nat (List.length people_on_beach), utcnow)
  | Raises => HTTPException HTTP_500_INTERNAL_SERVER_ERROR
  end.

End beach.

(** ** routers/documents.py *)

Module documents.

(** The file system as the handlers see it.  Each observation is about
    [POLICIES_DIR / filename] and is indexed by [filename]. *)
Record FileSystem : Type := mkFileSystem {
  (** [file_path.exists()] *)
  path_exists : string -> bool;
  (** [file_path.is_file()] *)
  path_is_file : string -> bool;
  (** [file_path.resolve().relative_to(POLICIES_DIR.resolve())] does not
      raise [ValueError] *)
  resolves_under_policies_dir : string -> bool;
  (** [file_path.stat()]: [st_size] and [st_mtime] *)
  path_stat : string -> Z * Z
}.

(** The file-system calls a handler makes, in order. *)
Inductive FsCall : Type :=
| Call_exists (filename : string)
| Call_is_file (filename : string)
| Call_resolve (filename : string)
| Call_stat (filename : string).

Definition ALLOWED_EXTENSIONS : list string :=
  [".md"; ".txt"; ".pdf"; ".doc"; ".docx"].

Definition AVAILABLE_DOCUMENTS : list (string * string) :=
  [("employee-handbook.md",
    "Employee Handbook - Company policies and procedures");
   ("code-of-conduct.md",
    "Code of Conduct - Ethical standards and behavioral expectations");
   ("security-policy.md",
    "Security Policy - Information security guidelines and requirements")].

(** [key in d] and [d[key]] for a dict written as its item list. *)
Definition dict_get (key : string) (d : list (string * string))
    : option string :=
  match find (fun kv => String.eqb (fst kv) key) d with
  | Some kv => Some (snd kv)
  | None => None
  end.

Definition dict_mem (key : string) (d : list (string * string)) : bool :=
  match dict_get key d with Some _ => true | None => false end.

(** [PurePath.suffix] of a path that is a single component: the part of
    the name from its last dot, when that dot is neither the first nor the
    last character.  It is applied after the separator check, where
    [Path(filename).name] is [filename] itself (or empty, for a lone dot,
    which has no suffix either way). *)
Definition suffix (name : string) : string :=
  match Py.rfind "."%char name with
  | Some i =>
      if (Nat.ltb 0 i) && (Nat.ltb i (String.length name - 1))
      then Py.drop i name else ""
  | None => ""
  end.

(** [".." in filename or "/" in filename or "\\" in filename] *)
Definition path_traversal (filename : string) : bool :=
  Py.contains ".." filename || Py.contains "/" filename
  || Py.contains "\" filename.

Definition media_type_map : list (string * string) :=
  [(".md", "text/markdown");
   (".txt", "text/plain");
   (".pdf", "application/pdf");
   (".doc", "application/msword");
   (".docx",
    "application/vnd.openxmlformats-officedocument.wordprocessingml.document")].

(** The [FileResponse]: the file served and its media type. *)
Record FileResponse : Type := mkFileResponse {
  response_filename : string;
  media_type : string
}.

(** [GET /docs/{filename}]: the outcome and the file-system calls made. *)
Definition get_document (fs : FileSystem) (filename : string)
    : Response FileResponse * list FsCall :=
  if path_traversal filename then
    (HTTPException HTTP_400_BAD_REQUEST, [])
  else
    let file_extension := Py.lower (suffix filename) in
    if negb (Py.mem file_extension ALLOWED_EXTENSIONS) then
      (HTTPException HTTP_403_FORBIDDEN, [])
    else if negb (dict_mem filename AVAILABLE_DOCUMENTS) then
      (HTTPException HTTP_404_NOT_FOUND, [])
    else if negb (path_exists fs filename) then
      (HTTPException HTTP_404_NOT_FOUND, [Call_exists filename])
    else if negb (path_is_file fs filename) then
      (HTTPException HTTP_403_FORBIDDEN,
       [Call_exists filename; Call_is_file filename])
    else if negb (resolves_under_policies_dir fs filename) then
      (HTTPException HTTP_403_FORBIDDEN,
       [Call_exists filename; Call_is_file filename; Call_resolve filename])
    else
      let media_type :=
        match dict_get file_extension media_type_map with
        | Some m => m
        | None => "application/octet-stream"
        end in
      (Success HTTP_200_OK (mkFileResponse filename media_type),
       [Call_exists filename; Call_is_file filename; Call_resolve filename]).

(** The dict that [get_document_info] returns. *)
Record DocumentInfo : Type := mkDocumentInfo {
  info_filename : string;
  info_description : string;
  info_size_bytes : Z;
  info_modified_at : Z;
  info_extension : string
}.

(** [GET /docs/{filename}/info] *)
Definition get_document_info (fs : FileSystem) (filename : string)
    : Response DocumentInfo * list FsCall :=
  if path_traversal filename then
    (HTTPException HTTP_400_BAD_REQUEST, [])
  else
    match dict_get filename AVAILABLE_DOCUMENTS with
    | None => (HTTPException HTTP_404_NOT_FOUND, [])
    | Some description =>
        if negb (path_exists fs filename) then
          (HTTPException HTTP_404_NOT_FOUND, [Call_exists filename])
        else
          let '(st_size, st_mtime) := path_stat fs filename in
          (Success HTTP_200_OK
             (mkDocumentInfo filename description st_size st_mtime
                             (suffix filename)),
           [Call_exists filename; Call_stat filename])
    end.

(** [GET /docs].  [policies_dir] is what the handler sees of
    [POLICIES_DIR]: [None] when it does not exist, otherwise the names that
    [iterdir()] yields; whether an entry is a file is asked of [fs].  The
    payload is the [documents] dict, as its item list. *)
Definition list_available_documents (policies_dir : option (list string))
    (fs : FileSystem) : Response (list (string * string)) :=
  match policies_dir with
  | None => HTTPException HTTP_500_INTERNAL_SERVER_ERROR
  | Some entries =>
      let actual_files :=
        filter (fun name => path_is_file fs name
                            && negb (String.eqb name ".gitkeep")) entries in
      let available_docs :=
        filter (fun kv => Py.mem (fst kv) actual_files) AVAILABLE_DOCUMENTS in
      Success HTTP_200_OK available_docs
  end.

End documents.

(** ** main.py *)

Module main.

(** [allowed_origins] as the module builds it; [ALLOWED_ORIGINS] is the
    environment variable, [None] when unset. *)
Definition allowed_origins (ALLOWED_ORIGINS : option string) : list string :=
  let allowed_origins :=
    ["http://localhost:3000"; "http://127.0.0.1:3000";
     "http://localhost:3001"] in
  let production_origins :=
    Py.split ","%char
      match ALLOWED_ORIGINS with Some v => v | None => "" end in
  match production_origins with
  | first :: _ =>
      if String.eqb first "" then allowed_origins
      else (allowed_origins ++ map Py.strip production_origins)%list
  | [] => allowed_origins
  end.

End main.

(** ** seed_data.py *)

Module seed_data.

Definition SAMPLE_PEOPLE : list (string * string * string * StaffingStatus) :=
  [("Alice Johnson", "Senior Software Engineer", "Engineering", STAFFED);
   ("Bob Chen", "Frontend Developer", "Engineering", BENCH);
   ("Carol Martinez", "DevOps Engineer", "Engineering", AVAILABLE);
   ("David Kim", "Full Stack Developer", "Engineering", STAFFED);
   ("Eva Rodriguez", "Backend Engineer", "Engineering", BENCH);
   ("Frank Wilson", "Product Manager", "Product", STAFFED);
   ("Grace Lee", "UX Designer", "Product", AVAILABLE);
   ("Henry Thompson", "Product Analyst", "Product", BENCH);
   ("Iris Patel", "Data Scientist", "Data Science", STAFFED);
   ("Jack Brown", "ML Engineer", "Data Science", AVAILABLE);
   ("Kate Singh", "Data Analyst", "Data Science", BENCH);
   ("Liam Davis", "Marketing Manager", "Marketing", STAFFED);
   ("Maya Gonzalez", "Content Strategist", "Marketing", AVAILABLE);
   ("Noah Miller", "Sales Representative", "Sales", STAFFED);
   ("Olivia Taylor", "Account Manager", "Sales", BENCH);
   ("Paul Anderson", "HR Business Partner", "Human Resources", STAFFED);
   ("Quinn White", "Recruiter", "Human Resources", AVAILABLE);
   ("Rachel Green", "Financial Analyst", "Finance", STAFFED);
   ("Sam Cooper", "Accounting Specialist", "Finance", BENCH);
   ("Tina Clark", "Operations Manager", "Operations", STAFFED)].

(** [DELETE FROM people] and [commit]: the rows go, the AUTOINCREMENT
    counter stays. *)
Definition clear_existing_data (db : Database) : Database :=
  mkDatabase [] (sqlite_sequence db).

(** One INSERT of the loop of [seed_people_data]. *)
Definition insert_sample (current_time : IsoText) (db : Database)
    (person_data : string * string * string * StaffingStatus) : Database :=
  let '(n, r, d, s) := person_data in
  snd (Sql.insert n r d s current_time current_time db).

(** The loop over [SAMPLE_PEOPLE]; [now] is the one reading of
    [datetime.now()] taken before it, [current_time] its [isoformat()]
    text. *)
Definition seed_people_data (now : datetime) (db : Database) : Database :=
  let current_time := isoformat now in
  fold_left (insert_sample current_time) SAMPLE_PEOPLE db.

(** [seed_database(clear_existing)] on an initialised database. *)
Definition seed_database (clear_existing : bool) (now : datetime)
    (db : Database) : Database :=
  let db := if clear_existing then clear_existing_data db else db in
  seed_people_data now db.

End seed_data.

(** * Vocabulary of the properties *)

(** ** Text values *)

(** A string that does not begin with white space. *)
Definition no_leading_space (s : string) : Prop :=
  match s with
  | EmptyString => True
  | String c _ => Py.isspace c = false
  end.

(** A string of white space only, the empty string included. *)
Fixpoint whitespace_only (s : string) : bool :=
  match s with
  | EmptyString => true
  | String c s' => Py.isspace c && whitespace_only s'
  end.

(** A value that the validator returns unchanged: non-empty, stripped and
    at most 100 characters long. *)
Definition text_ok (s : string) : Prop := text_field s = Some s.

(** A text value as the data model wants it: not empty, trimmed, and at
    most 100 characters long. *)
Definition valid_text (s : string) : Prop :=
  s <> "" /\ Py.strip s = s /\ (String.length s <= 100)%nat.

(** A text value that the data model rules out: empty, white space only, or
    longer than 100 characters. *)
Definition invalid_text (s : string) : Prop :=
  s = "" \/ whitespace_only s = true \/ (100 < String.length s)%nat.

(** A status value that is none of the three enumerated ones. *)
Definition unsupported_status (s : string) : Prop :=
  s <> "staffed" /\ s <> "bench" /\ s <> "available".

(** [sub] occurs in [s]. *)
Definition has_substring (sub s : string) : Prop :=
  exists before after, s = (before ++ sub ++ after)%string.

(** ** Rows, requests and outcomes *)

(** The data-model invariant of a stored person: each text column holds a
    value that [PersonBase] accepts and returns unchanged. *)
Definition row_valid (r : Row) : Prop :=
  text_ok (row_name r) /\ text_ok (row_role r) /\ text_ok (row_department r).

(** Every stored row satisfies the invariant. *)
Definition db_valid (db : Database) : Prop :=
  Forall row_valid (people_table db).

(** The row read as a [Person], field by field. *)
Definition Person_of_row (r : Row) : Person :=
  mkPerson (row_id r) (row_name r) (row_role r) (row_department r)
           (row_staffing_status r) (fromisoformat (row_created_at r))
           (row_updated_at r).

(** A validated [PersonCreate] holds valid text. *)
Definition PersonCreate_ok (pd : PersonCreate) : Prop :=
  text_ok (pc_name pd) /\ text_ok (pc_role pd) /\ text_ok (pc_department pd).

(** Every text field that the request supplies went through the validator
    of [PersonUpdate]. *)
Definition PersonUpdate_ok (person_data : PersonUpdate) : Prop :=
  (forall v, pu_name person_data = Some v -> text_ok v) /\
  (forall v, pu_role person_data = Some v -> text_ok v) /\
  (forall v, pu_department person_data = Some v -> text_ok v).

(** The request supplies none of the four fields. *)
Definition supplies_nothing (person_data : PersonUpdate) : Prop :=
  pu_name person_data = None /\ pu_role person_data = None /\
  pu_department person_data = None /\ pu_staffing_status person_data = None.

(** [row'] differs from [row] at most in the supplied fields, which hold
    the supplied values, and in [updated_at]. *)
Definition only_supplied_fields_changed
    (person_data : PersonUpdate) (row row' : Row) : Prop :=
  row_id row' = row_id row /\
  row_created_at row' = row_created_at row /\
  row_name row'
  = match pu_name person_data with Some v => v | None => row_name row end /\
  row_role row'
  = match pu_role person_data with Some v => v | None => row_role row end /\
  row_department row'
  = match pu_department person_data with
    | Some v => v
    | None => row_department row
    end /\
  row_staffing_status row'
  = match pu_staffing_status person_data with
    | Some v => v
    | None => row_staffing_status row
    end.

(** A person is on the beach: the status is [bench] or [available]. *)
Definition on_beach (p : Person) : bool :=
  match staffing_status p with
  | BENCH | AVAILABLE => true
  | STAFFED => false
  end.

(** Instants in descending order. *)
Definition descending (ts : list datetime) : Prop :=
  StronglySorted (fun a b => b <= a) ts.

(** Timestamp texts in descending order of the BINARY collation: no text is
    less than a later one. *)
Definition descending_text (texts : list IsoText) : Prop :=
  StronglySorted (fun a b => Sql.text_ltb a b = false) texts.

(** A number that orders like the text: the date counts first, the
    separator next, the time of day last. *)
Definition collation_key (text : IsoText) : Z :=
  (2 * Sql.date_part text
   + match text_sep text with SEP_BLANK => 0 | SEP_T => 1 end)
  * Sql.MICROSECONDS_PER_DAY
  + Sql.time_part text.

(** The key of the [created_at] text of a row. *)
Definition created_at_key (r : Row) : Z := collation_key (row_created_at r).

(** All [created_at] texts of the rows have the same separator, as when
    one create function wrote them all. *)
Definition one_separator (rows : list Row) : Prop :=
  forall r r', In r rows -> In r' rows ->
    text_sep (row_created_at r) = text_sep (row_created_at r').

(** Every [created_at] text of the table has the separator [T]: the rows
    were written by [create_person] of the router or by the seeding. *)
Definition written_with_T (db : Database) : Prop :=
  Forall (fun r => text_sep (row_created_at r) = SEP_T) (people_table db).

(** The status code of an outcome; 422 is what the framework answers to a
    request that fails validation. *)
Definition status_code_of {A : Type} (r : Response A) : Z :=
  match r with
  | Success c _ => c
  | HTTPException c => c
  | RequestValidationError => 422
  end.

(** ** Concrete tables, requests and directories *)

(** A small valid table used to run the theorems below: one person staffed,
    two on the beach, the two oldest created at the same instant. *)
Definition example_rows : list Row :=
  [mkRow 1 "Alice Johnson" "Senior Software Engineer" "Engineering"
         STAFFED (isoformat 100) 100;
   mkRow 2 "Bob Chen" "Frontend Developer" "Engineering" BENCH
         (isoformat 100) 140;
   mkRow 3 "Carol Martinez" "DevOps Engineer" "Engineering" AVAILABLE
         (isoformat 120) 120].

(** The table with its AUTOINCREMENT counter. *)
Definition example_db : Database := mkDatabase example_rows 3.

(** Bob Chen's row in [example_db]. *)
Definition example_row_2 : Row :=
  mkRow 2 "Bob Chen" "Frontend Developer" "Engineering" BENCH
        (isoformat 100) 140.

(** A request that changes the role only. *)
Definition example_update : PersonUpdate :=
  mkPersonUpdate None (Some "Senior Frontend Developer") None None.

(** A request that supplies no field. *)
Definition empty_update : PersonUpdate := mkPersonUpdate None None None None.

(** The valid create request of the spec's worked example. *)
Definition ann_lee : PersonCreate :=
  mkPersonCreate "Ann Lee" "Engineer" "Eng" AVAILABLE.

(** A policies directory in which no allow-listed file can be reached and
    every path resolves outside the directory, as when each entry is a
    symbolic link to a missing file elsewhere. *)
Definition dangling_links : documents.FileSystem :=
  documents.mkFileSystem (fun _ => false) (fun _ => false) (fun _ => false)
                         (fun _ => (0, 0)).

(** A policies directory in which every path is a regular file that
    resolves outside the directory, as when each entry is a symbolic link to
    a file elsewhere. *)
Definition links_to_outside : documents.FileSystem :=
  documents.mkFileSystem (fun _ => true) (fun _ => true) (fun _ => false)
                         (fun _ => (2048, 1700000000)).

(** A policies directory that holds every file asked for. *)
Definition plain_files : documents.FileSystem :=
  documents.mkFileSystem (fun _ => true) (fun _ => true) (fun _ => true)
                         (fun _ => (2048, 1700000000)).

(** ** More text values, tables and requests *)

(** The string begins with white space. *)
Definition first_isspace (s : string) : bool :=
  match s with
  | EmptyString => false
  | String c _ => Py.isspace c
  end.

(** The string ends with white space. *)
Fixpoint last_isspace (s : string) : bool :=
  match s with
  | EmptyString => false
  | String c EmptyString => Py.isspace c
  | String _ s' => last_isspace s'
  end.

(** A text value that the models accept: 1 to 100 characters, not all of
    them white space. *)
Definition acceptable_text (s : string) : Prop :=
  (1 <= String.length s <= 100)%nat /\ whitespace_only s = false.

(** No two rows share an id: the PRIMARY KEY constraint. *)
Definition ids_unique (db : Database) : Prop :=
  NoDup (map row_id (people_table db)).

(** [",".join(pieces)] *)
Fixpoint join_comma (pieces : list string) : string :=
  match pieces with
  | [] => ""
  | [piece] => piece
  | piece :: rest => (piece ++ "," ++ join_comma rest)%string
  end.

(** A create request with white space around two of its fields. *)
Definition padded_body : CreateBody :=
  mkCreateBody "  Ann Lee " "Engineer" " Eng" "available".

(** A second valid create request. *)
Definition raj_rao : PersonCreate :=
  mkPersonCreate "Raj Rao" "Designer" "Product" BENCH.

(** A table that both create functions have written on one day: Raj Rao
    through [create_person] of the router, 500 microseconds after midnight,
    and Ann Lee through [PeopleService.create_person], 1000 and 1001
    microseconds after midnight. *)
Definition two_writers_db : Database :=
  snd (PeopleService.create_person 1000 1001 ann_lee
         (snd (people.create_person 500 raj_rao (mkDatabase [] 0)))).

(** A request that moves a person to a project. *)
Definition staff_update : PersonUpdate :=
  mkPersonUpdate None None None (Some STAFFED).

(** A policies directory that holds two of the three documents, a
    placeholder, a stray file and a sub-directory. *)
Definition example_entries : list string :=
  [".gitkeep"; "security-policy.md"; "notes.txt"; "archive";
   "employee-handbook.md"].

Definition example_dir : documents.FileSystem :=
  documents.mkFileSystem
    (fun _ => true)
    (fun name => negb (String.eqb name "archive"))
    (fun _ => true)
    (fun _ => (2048, 1700000000)).

(** The file that a file-system call is about. *)
Definition call_filename (c : documents.FsCall) : string :=
  match c with
  | documents.Call_exists f | documents.Call_is_file f
  | documents.Call_resolve f | documents.Call_stat f => f
  end.

(** The rows of the given people, numbered from [first_id] on, all
    created and updated at [t], with [T] in the text of [created_at]. *)
Fixpoint numbered_rows (first_id : Z) (t : datetime)
    (samples : list (string * string * string * StaffingStatus))
    : list Row :=
  match samples with
  | [] => []
  | (n, r, d, s) :: rest =>
      mkRow first_id n r d s (isoformat t) t
      :: numbered_rows (first_id + 1) t rest
  end.

(** A table in which the row of id 2 holds a name of white space only, as
    a direct INSERT can leave it. *)
Definition blank_name_row : Row :=
  mkRow 2 "   " "Frontend Developer" "Engineering" BENCH (isoformat 100) 140.

Definition blank_name_db : Database :=
  mkDatabase
    [mkRow 1 "Alice Johnson" "Senior Software Engineer" "Engineering"
           STAFFED (isoformat 100) 100;
     blank_name_row] 2.

(** * Properties *)

(** ** Stripping and the text-field validator *)

Section TextFields.

Local Open Scope nat_scope.

Lemma lstrip_length (s : string) :
  String.length (Py.lstrip s) <= String.length s.
Proof.
  induction s as [|c s IH]; simpl; [lia|].
  destruct (Py.isspace c); simpl; lia.
Qed.

Lemma rstrip_length (s : string) :
  String.length (Py.rstrip s) <= String.length s.
Proof.
  induction s as [|c s IH]; simpl; [lia|].
  destruct (Py.rstrip s) as [|d r]; simpl in *.
  - destruct (Py.isspace c); simpl; lia.
  - lia.
Qed.

Lemma strip_length (s : string) :
  String.length (Py.strip s) <= String.length s.
Proof.
  unfold Py.strip.
  pose proof (rstrip_length (Py.lstrip s)).
  pose proof (lstrip_length s). lia.
Qed.

Lemma rstrip_idempotent (s : string) :
  Py.rstrip (Py.rstrip s) = Py.rstrip s.
Proof.
  induction s as [|c s IH]; simpl; [reflexivity|].
  destruct (Py.rstrip s) as [|d r] eqn:E.
  - destruct (Py.isspace c) eqn:Ec; simpl; [reflexivity|].
    now rewrite Ec.
  - change (Py.rstrip (String c (String d r))) with
      (match Py.rstrip (String d r) with
       | EmptyString =>
           if Py.isspace c then EmptyString else String c EmptyString
       | r' => String c r'
       end).
    now rewrite IH.
Qed.

Lemma lstrip_no_leading_space (s : string) : no_leading_space (Py.lstrip s).
Proof.
  induction s as [|c s IH]; simpl; [exact I|].
  destruct (Py.isspace c) eqn:Ec; [exact IH | exact Ec].
Qed.

Lemma rstrip_no_leading_space (s : string) :
  no_leading_space s -> no_leading_space (Py.rstrip s).
Proof.
  destruct s as [|c s]; simpl; [trivial|]. intros Hc.
  destruct (Py.rstrip s); [rewrite Hc|]; exact Hc.
Qed.

Lemma lstrip_fixed (s : string) : no_leading_space s -> Py.lstrip s = s.
Proof.
  destruct s as [|c s]; simpl; [reflexivity|]. now intros ->.
Qed.

Lemma strip_idempotent (s : string) : Py.strip (Py.strip s) = Py.strip s.
Proof.
  unfold Py.strip.
  rewrite (lstrip_fixed (Py.rstrip (Py.lstrip s))).
  - apply rstrip_idempotent.
  - apply rstrip_no_leading_space, lstrip_no_leading_space.
Qed.

Lemma lstrip_whitespace_only (s : string) :
  whitespace_only s = true -> Py.lstrip s = "".
Proof.
  induction s as [|c s IH]; simpl; [reflexivity|].
  intros H. apply andb_true_iff in H as [Hc Hs]. rewrite Hc. auto.
Qed.

Lemma strip_whitespace_only (s : string) :
  whitespace_only s = true -> Py.strip s = "".
Proof.
  intros H. unfold Py.strip. now rewrite lstrip_whitespace_only.
Qed.

(** What the validator accepts, spelled out. *)
Lemma text_field_Some (v s : string) :
  text_field v = Some s <->
  1 <= String.length v <= 100 /\ Py.strip v <> "" /\ s = Py.strip v.
Proof.
  unfold text_field, Field_length, validate_text_fields.
  destruct (Nat.leb_spec 1 (String.length v)) as [Hlo|Hlo];
    [destruct (Nat.leb_spec (String.length v) 100) as [Hhi|Hhi]|];
    cbn [andb];
    try (split; [discriminate | intros [? _]; lia]).
  destruct (String.eqb_spec v "") as [Ev|Ev]; cbn [orb].
  - subst v. simpl in Hlo. lia.
  - destruct (String.eqb_spec (Py.strip v) "") as [Es|Es].
    + split; [discriminate | intros (_ & Hne & _); contradiction].
    + split.
      * intros [= <-]. repeat split; auto.
      * intros (_ & _ & ->). reflexivity.
Qed.

Lemma text_field_ok (v s : string) : text_field v = Some s -> text_ok s.
Proof.
  intros H. apply text_field_Some in H as (Hlen & Hne & ->).
  apply text_field_Some. rewrite strip_idempotent.
  repeat split; auto.
  - destruct (Py.strip v) eqn:E; [contradiction | simpl; lia].
  - pose proof (strip_length v). lia.
Qed.

Lemma text_ok_iff (s : string) :
  text_ok s <-> s <> "" /\ Py.strip s = s /\ String.length s <= 100.
Proof.
  unfold text_ok. rewrite text_field_Some. split.
  - intros (Hlen & Hne & Hs). rewrite <- Hs. repeat split; auto; try lia.
    congruence.
  - intros (Hne & Hs & Hlen). rewrite Hs. repeat split; auto.
    destruct s; [contradiction | simpl; lia].
Qed.

End TextFields.

(** ** Rows that the response model accepts *)

Lemma Person_from_row_valid (r : Row) :
  row_valid r -> Person_from_row r = Some (Person_of_row r).
Proof.
  intros (Hn & Hr & Hd). unfold Person_from_row.
  now rewrite Hn, Hr, Hd.
Qed.

Lemma Person_from_row_fields (r : Row) (p : Person) :
  Person_from_row r = Some p ->
  id p = row_id r /\ staffing_status p = row_staffing_status r /\
  created_at p = fromisoformat (row_created_at r) /\
  updated_at p = row_updated_at r /\
  text_field (row_name r) = Some (name p) /\
  text_field (row_role r) = Some (role p) /\
  text_field (row_department r) = Some (department p).
Proof.
  unfold Person_from_row.
  destruct (text_field (row_name r)); [|discriminate].
  destruct (text_field (row_role r)); [|discriminate].
  destruct (text_field (row_department r)); [|discriminate].
  intros [= <-]. simpl. repeat split; reflexivity.
Qed.

Lemma Persons_from_rows_valid (rows : list Row) :
  Forall row_valid rows ->
  Persons_from_rows rows = Some (map Person_of_row rows).
Proof.
  induction 1 as [|r rows Hr _ IH]; simpl; [reflexivity|].
  now rewrite (Person_from_row_valid r Hr), IH.
Qed.

Lemma Persons_from_rows_cons (r : Row) (rows : list Row) (ps : list Person) :
  Persons_from_rows (r :: rows) = Some ps ->
  exists p ps', ps = p :: ps' /\ Person_from_row r = Some p /\
                Persons_from_rows rows = Some ps'.
Proof.
  simpl. destruct (Person_from_row r) as [p|]; [|discriminate].
  destruct (Persons_from_rows rows) as [ps'|]; [|discriminate].
  intros [= <-]. now exists p, ps'.
Qed.

Lemma Persons_from_rows_length (rows : list Row) (ps : list Person) :
  Persons_from_rows rows = Some ps -> List.length ps = List.length rows.
Proof.
  revert ps. induction rows as [|r rows IH]; intros ps H.
  - injection H as <-. reflexivity.
  - apply Persons_from_rows_cons in H as (p & ps' & -> & _ & H).
    simpl. f_equal. auto.
Qed.

Lemma Persons_from_rows_created_at (rows : list Row) (ps : list Person) :
  Persons_from_rows rows = Some ps ->
  map created_at ps = map (fun r => fromisoformat (row_created_at r)) rows.
Proof.
  revert ps. induction rows as [|r rows IH]; intros ps H.
  - injection H as <-. reflexivity.
  - apply Persons_from_rows_cons in H as (p & ps' & -> & Hp & H).
    apply Person_from_row_fields in Hp as (_ & _ & Hc & _).
    simpl. rewrite Hc. f_equal. auto.
Qed.

(** ** The beach predicate, on rows and on persons *)

Lemma status_in_bench_available_spec (r : Row) (p : Person) :
  Person_from_row r = Some p ->
  Sql.status_in_bench_available r = on_beach p.
Proof.
  intros H. apply Person_from_row_fields in H as (_ & Hs & _).
  unfold Sql.status_in_bench_available, on_beach. rewrite Hs.
  now destruct (row_staffing_status r).
Qed.

Lemma Persons_from_rows_filter (rows : list Row) (ps : list Person) :
  Persons_from_rows rows = Some ps ->
  Persons_from_rows (filter Sql.status_in_bench_available rows)
  = Some (filter on_beach ps).
Proof.
  revert ps. induction rows as [|r rows IH]; intros ps H.
  - injection H as <-. reflexivity.
  - apply Persons_from_rows_cons in H as (p & ps' & -> & Hp & H).
    simpl. rewrite (status_in_bench_available_spec r p Hp).
    destruct (on_beach p); simpl; rewrite ?Hp, (IH ps' H); reflexivity.
Qed.

(** ** ORDER BY created_at DESC *)

Section OrderBy.

(** The collation of two texts is the order of their keys. *)
Lemma text_ltb_key (a b : IsoText) :
  Sql.text_ltb a b = (collation_key a <? collation_key b).
Proof.
  unfold Sql.text_ltb, collation_key, Sql.date_part, Sql.time_part,
    Sql.MICROSECONDS_PER_DAY.
  pose proof (Z.mod_pos_bound (text_instant a) 86400000000 eq_refl) as Ha.
  pose proof (Z.mod_pos_bound (text_instant b) 86400000000 eq_refl) as Hb.
  generalize dependent (text_instant a mod 86400000000).
  generalize dependent (text_instant b mod 86400000000).
  generalize (text_instant a / 86400000000) (text_instant b / 86400000000).
  intros da db tb Hb ta Ha.
  apply Bool.eq_iff_eq_true.
  rewrite !Bool.orb_true_iff, !Bool.andb_true_iff, !Z.ltb_lt, !Z.eqb_eq.
  destruct (text_sep a), (text_sep b); cbn [Sql.separator_byte]; lia.
Qed.

(** Among texts with the same separator the keys order like the
    instants. *)
Lemma collation_key_same_separator (a b : IsoText) :
  text_sep a = text_sep b ->
  (collation_key a <= collation_key b <-> text_instant a <= text_instant b).
Proof.
  intros Hsep.
  unfold collation_key, Sql.date_part, Sql.time_part,
    Sql.MICROSECONDS_PER_DAY.
  rewrite Hsep.
  pose proof (Z.mod_pos_bound (text_instant a) 86400000000 eq_refl) as Ha.
  pose proof (Z.mod_pos_bound (text_instant b) 86400000000 eq_refl) as Hb.
  rewrite (Z.div_mod (text_instant a) 86400000000) at 3 by discriminate.
  rewrite (Z.div_mod (text_instant b) 86400000000) at 3 by discriminate.
  generalize dependent (text_instant a mod 86400000000).
  generalize dependent (text_instant b mod 86400000000).
  generalize (text_instant a / 86400000000) (text_instant b / 86400000000).
  intros da db tb Hb ta Ha.
  destruct (text_sep b); lia.
Qed.

(** A text written with [T] is greater than every text of an earlier
    instant, whatever the separator of that text. *)
Lemma collation_key_later_T (a : IsoText) (now : datetime) :
  text_instant a < now -> collation_key a < collation_key (isoformat now).
Proof.
  unfold collation_key, Sql.date_part, Sql.time_part,
    Sql.MICROSECONDS_PER_DAY, isoformat. cbn [text_instant text_sep].
  pose proof (Z.mod_pos_bound (text_instant a) 86400000000 eq_refl) as Ha.
  pose proof (Z.mod_pos_bound now 86400000000 eq_refl) as Hb.
  rewrite (Z.div_mod (text_instant a) 86400000000) at 1 by discriminate.
  rewrite (Z.div_mod now 86400000000) at 1 by discriminate.
  generalize dependent (text_instant a mod 86400000000).
  generalize dependent (now mod 86400000000).
  generalize (text_instant a / 86400000000) (now / 86400000000).
  intros da db tb Hb ta Ha.
  destruct (text_sep a); lia.
Qed.

Lemma insert_desc_perm (r : Row) (l : list Row) :
  Permutation (Sql.insert_desc r l) (r :: l).
Proof.
  induction l as [|r' l IH]; simpl; [reflexivity|].
  destruct (Sql.text_ltb (row_created_at r) (row_created_at r'));
    [|reflexivity].
  rewrite IH. apply perm_swap.
Qed.

Lemma order_by_perm (l : list Row) :
  Permutation (Sql.order_by_created_at_desc l) l.
Proof.
  induction l as [|r l IH]; simpl; [reflexivity|].
  rewrite insert_desc_perm. now constructor.
Qed.

Lemma order_by_length (l : list Row) :
  List.length (Sql.order_by_created_at_desc l) = List.length l.
Proof. apply Permutation_length, order_by_perm. Qed.

Lemma insert_desc_sorted (r : Row) (l : list Row) :
  descending (map created_at_key l) ->
  descending (map created_at_key (Sql.insert_desc r l)).
Proof.
  unfold descending, created_at_key.
  induction l as [|r' l IH]; simpl; intros H.
  - repeat constructor.
  - inversion H as [|? ? Hl Hall]; subst.
    rewrite text_ltb_key.
    destruct (Z.ltb_spec (collation_key (row_created_at r))
                         (collation_key (row_created_at r'))) as [Hlt|Hge];
      simpl.
    + constructor; [auto|].
      apply Forall_forall. intros t Ht.
      apply in_map_iff in Ht as (x & <- & Hx).
      apply (Permutation_in _ (insert_desc_perm r l)) in Hx as [<-|Hx];
        [lia|].
      rewrite Forall_forall in Hall. apply Hall.
      now apply (in_map (fun r => collation_key (row_created_at r))).
    + constructor; [exact H|].
      constructor; [lia|].
      eapply Forall_impl; [|exact Hall]. simpl. intros; lia.
Qed.

Lemma order_by_sorted (l : list Row) :
  descending (map created_at_key (Sql.order_by_created_at_desc l)).
Proof.
  induction l as [|r l IH]; simpl.
  - constructor.
  - now apply insert_desc_sorted.
Qed.

(** Rows in descending order of their keys hold texts in descending
    order of the collation. *)
Lemma descending_keys_texts (rows : list Row) :
  descending (map created_at_key rows) ->
  descending_text (map row_created_at rows).
Proof.
  unfold descending, descending_text, created_at_key.
  induction rows as [|r rows IH]; simpl; intros H; [constructor|].
  inversion H as [|? ? Hl Hall]; subst.
  constructor; [auto|].
  rewrite Forall_map in *. eapply Forall_impl; [|exact Hall].
  intros x Hx. rewrite text_ltb_key. apply Z.ltb_ge. exact Hx.
Qed.

(** When all texts have the same separator, rows in descending order of
    their keys are in descending order of their instants. *)
Lemma descending_keys_instants (rows : list Row) :
  one_separator rows ->
  descending (map created_at_key rows) ->
  descending (map (fun r => fromisoformat (row_created_at r)) rows).
Proof.
  unfold descending, created_at_key, fromisoformat.
  induction rows as [|r rows IH]; simpl; intros Hsep H; [constructor|].
  inversion H as [|? ? Hl Hall]; subst.
  constructor.
  - apply IH; [|exact Hl].
    intros x y Hx Hy. apply Hsep; now right.
  - rewrite Forall_map in *. rewrite Forall_forall in *.
    intros x Hx.
    apply (collation_key_same_separator (row_created_at x)
                                        (row_created_at r));
      [apply Hsep; [now right | now left] | now apply Hall].
Qed.

Lemma order_by_sorted_text (l : list Row) :
  descending_text (map row_created_at (Sql.order_by_created_at_desc l)).
Proof. apply descending_keys_texts, order_by_sorted. Qed.

Lemma order_by_sorted_instants (l : list Row) :
  one_separator l ->
  descending (map (fun r => fromisoformat (row_created_at r))
                  (Sql.order_by_created_at_desc l)).
Proof.
  intros H. apply descending_keys_instants; [|apply order_by_sorted].
  intros x y Hx Hy.
  apply H; eapply Permutation_in; try apply order_by_perm; assumption.
Qed.

(** A row whose text is not less than that of any row of the list goes in
    front. *)
Lemma insert_desc_front (r : Row) (l : list Row) :
  Forall (fun x => created_at_key x <= created_at_key r) l ->
  Sql.insert_desc r l = r :: l.
Proof.
  unfold created_at_key.
  destruct l as [|r' l]; simpl; [reflexivity|].
  intros H. inversion H; subst. rewrite text_ltb_key.
  destruct (Z.ltb_spec (collation_key (row_created_at r))
                       (collation_key (row_created_at r')));
    [lia | reflexivity].
Qed.

Lemma filter_insert_desc (p : Row -> bool) (r : Row) (l : list Row) :
  descending (map created_at_key l) ->
  filter p (Sql.insert_desc r l)
  = if p r then Sql.insert_desc r (filter p l) else filter p l.
Proof.
  unfold descending.
  induction l as [|r' l IH]; simpl; intros H.
  - now destruct (p r).
  - inversion H as [|? ? Hl Hall]; subst.
    destruct (Sql.text_ltb (row_created_at r) (row_created_at r')) eqn:Hlt;
      simpl.
    + rewrite (IH Hl).
      destruct (p r'), (p r); simpl; try reflexivity.
      now rewrite Hlt.
    + destruct (p r) eqn:Hr; [|reflexivity].
      symmetry. apply (insert_desc_front r (filter p (r' :: l))).
      rewrite text_ltb_key in Hlt. apply Z.ltb_ge in Hlt.
      apply Forall_forall. intros x Hx.
      apply filter_In in Hx as [[<-|Hx] _]; [exact Hlt|].
      rewrite Forall_forall in Hall.
      specialize (Hall (created_at_key x) (in_map _ _ _ Hx)). simpl in Hall.
      unfold created_at_key in *. lia.
Qed.

(** Selecting before or after the ordering gives the same sequence. *)
Lemma filter_order_by (p : Row -> bool) (l : list Row) :
  filter p (Sql.order_by_created_at_desc l)
  = Sql.order_by_created_at_desc (filter p l).
Proof.
  induction l as [|r l IH]; simpl; [reflexivity|].
  rewrite filter_insert_desc by apply order_by_sorted.
  rewrite IH. now destruct (p r).
Qed.

End OrderBy.

(** ** The beach view against the full list *)

Lemma example_db_valid : db_valid example_db.
Proof. repeat constructor. Qed.

Lemma get_all_people_valid (db : Database) :
  db_valid db ->
  PeopleService.get_all_people db
  = Returns (map Person_of_row
               (Sql.order_by_created_at_desc (people_table db))).
Proof.
  intros H. unfold PeopleService.get_all_people.
  rewrite Persons_from_rows_valid; [reflexivity|].
  apply Forall_forall. intros r Hr.
  apply (Permutation_in _ (order_by_perm _)) in Hr.
  unfold db_valid in H. rewrite Forall_forall in H. auto.
Qed.

Lemma get_people_on_beach_valid (db : Database) :
  db_valid db ->
  BeachService.get_people_on_beach db
  = Returns (map Person_of_row
               (Sql.order_by_created_at_desc
                  (filter Sql.status_in_bench_available (people_table db)))).
Proof.
  intros H. unfold BeachService.get_people_on_beach.
  rewrite Persons_from_rows_valid; [reflexivity|].
  apply Forall_forall. intros r Hr.
  apply (Permutation_in _ (order_by_perm _)) in Hr.
  apply filter_In in Hr as [Hr _].
  unfold db_valid in H. rewrite Forall_forall in H. auto.
Qed.

Lemma filter_perm {A : Type} (p : A -> bool) (l l' : list A) :
  Permutation l l' -> Permutation (filter p l) (filter p l').
Proof.
  induction 1 as [|x l l' _ IH|x y l|l l' l'' _ IH1 _ IH2]; simpl.
  - constructor.
  - destruct (p x); [now constructor | exact IH].
  - destruct (p x), (p y); try reflexivity. apply perm_swap.
  - now transitivity (filter p l').
Qed.

(** Whatever order each query gives to rows of equal [created_at], the
    beach query selects a rearrangement of the beach rows of the full
    query. *)
Lemma selection_of_any_ordering
    (order_all order_beach : list Row -> list Row) (rows : list Row) :
  (forall l, Permutation (order_all l) l) ->
  (forall l, Permutation (order_beach l) l) ->
  Permutation (order_beach (filter Sql.status_in_bench_available rows))
              (filter Sql.status_in_bench_available (order_all rows)).
Proof.
  intros Hall Hbeach. rewrite Hbeach.
  apply filter_perm. symmetry. apply Hall.
Qed.

(** With the tie rule of [Sql.order_by_created_at_desc] the beach list is
    the full list with the staffed people left out, in the same order. *)
Lemma beach_is_filter_of_list (db : Database) (people : list Person) :
  PeopleService.get_all_people db = Returns people ->
  BeachService.get_people_on_beach db = Returns (filter on_beach people).
Proof.
  unfold PeopleService.get_all_people, BeachService.get_people_on_beach.
  destruct (Persons_from_rows _) as [ps|] eqn:Hps; [|discriminate].
  intros [= <-].
  pose proof (Persons_from_rows_filter _ _ Hps) as Hf.
  rewrite filter_order_by in Hf. now rewrite Hf.
Qed.

(** Whatever the table holds, a list that the beach query returns holds no
    staffed person, and it is the reading of rows that are the bench and
    available rows of the table in descending order of their [created_at]
    texts. *)
Lemma beach_list_sorted_and_unstaffed (db : Database) (l : list Person) :
  BeachService.get_people_on_beach db = Returns l ->
  Forall (fun p => staffing_status p <> STAFFED) l /\
  exists rows,
    Permutation rows
      (filter Sql.status_in_bench_available (people_table db)) /\
    Persons_from_rows rows = Some l /\
    descending_text (map row_created_at rows) /\
    (one_separator (people_table db) -> descending (map created_at l)).
Proof.
  unfold BeachService.get_people_on_beach.
  destruct (Persons_from_rows _) as [ps|] eqn:Hps; [|discriminate].
  intros [= <-]. split.
  - assert (Hrows : Forall (fun r => row_staffing_status r <> STAFFED)
                      (Sql.order_by_created_at_desc
                         (filter Sql.status_in_bench_available
                                 (people_table db)))).
    { apply Forall_forall. intros r Hr.
      apply (Permutation_in _ (order_by_perm _)) in Hr.
      apply filter_In in Hr as [_ Hr].
      unfold Sql.status_in_bench_available in Hr.
      destruct (row_staffing_status r); [discriminate | congruence ..]. }
    revert ps Hps.
    induction Hrows as [|r rows Hr _ IH]; intros ps Hps.
    + injection Hps as <-. constructor.
    + apply Persons_from_rows_cons in Hps as (p & ps' & -> & Hp & Hps).
      apply Person_from_row_fields in Hp as (_ & Hs & _).
      constructor; [congruence | auto].
  - eexists. split; [apply order_by_perm|]. split; [exact Hps|].
    split; [apply order_by_sorted_text|].
    intros Hsep. rewrite (Persons_from_rows_created_at _ _ Hps).
    apply order_by_sorted_instants.
    intros x y Hx Hy. apply filter_In in Hx as [Hx _].
    apply filter_In in Hy as [Hy _]. now apply Hsep.
Qed.

(** C1.  A table that both create functions have written on one day:
    [create_person] of the router stores Raj Rao with [created_at] 500, as
    [isoformat()] text, and [PeopleService.create_person] stores Ann Lee
    afterwards with [created_at] 1000, as the text of the [sqlite3]
    adapter.  [BeachService.get_people_on_beach] and
    [PeopleService.get_all_people] return Raj Rao before Ann Lee: the list is
    in descending order of the stored texts and not of [created_at]. *)
Theorem beach_list_of_two_writers_is_not_newest_first :
  two_writers_db
  = mkDatabase
      [mkRow 1 "Raj Rao" "Designer" "Product" BENCH (isoformat 500) 500;
       mkRow 2 "Ann Lee" "Engineer" "Eng" AVAILABLE (adapt_datetime 1000) 1001]
      2 /\
  BeachService.get_people_on_beach two_writers_db
  = Returns [mkPerson 1 "Raj Rao" "Designer" "Product" BENCH 500 500;
             mkPerson 2 "Ann Lee" "Engineer" "Eng" AVAILABLE 1000 1001] /\
  PeopleService.get_all_people two_writers_db
  = Returns [mkPerson 1 "Raj Rao" "Designer" "Product" BENCH 500 500;
             mkPerson 2 "Ann Lee" "Engineer" "Eng" AVAILABLE 1000 1001] /\
  ~ descending [500; 1000] /\
  descending_text [isoformat 500; adapt_datetime 1000].
Proof.
  split; [reflexivity|]. split; [reflexivity|]. split; [reflexivity|].
  split.
  - intros H. inversion H as [|? ? _ Hall]; subst.
    inversion Hall as [|? ? Hle _]; subst. lia.
  - repeat constructor.
Qed.

(** X28.  On a table of valid rows [PeopleService.get_all_people] returns a
    list.  Whenever it returns a list, [BeachService.get_people_on_beach]
    returns a list that holds exactly the members of the full list whose
    status is [bench] or [available], each as often as the full list holds
    it.  Whatever the table, a list that [get_people_on_beach] returns holds
    no [staffed] person and reads the bench and available rows in descending
    order of their [created_at] texts; it is in descending order of
    [created_at] when all texts of the table have the same separator. *)
Theorem beach_is_unstaffed_part_of_list (db : Database) :
  (db_valid db ->
   exists people, PeopleService.get_all_people db = Returns people) /\
  (forall people,
     PeopleService.get_all_people db = Returns people ->
     exists people_on_beach,
       BeachService.get_people_on_beach db = Returns people_on_beach /\
       Permutation people_on_beach (filter on_beach people) /\
       (forall p, In p people_on_beach <->
                  In p people /\
                  (staffing_status p = BENCH \/ staffing_status p = AVAILABLE)))
  /\
  (forall people_on_beach,
     BeachService.get_people_on_beach db = Returns people_on_beach ->
     Forall (fun p => staffing_status p <> STAFFED) people_on_beach /\
     exists rows,
       Permutation rows
         (filter Sql.status_in_bench_available (people_table db)) /\
       Persons_from_rows rows = Some people_on_beach /\
       descending_text (map row_created_at rows) /\
       (one_separator (people_table db) ->
        descending (map created_at people_on_beach))).
Proof.
  split; [|split].
  - intros H. eexists. now apply get_all_people_valid.
  - intros people H.
    exists (filter on_beach people).
    split; [now apply beach_is_filter_of_list|]. split; [reflexivity|].
    intros p. rewrite filter_In. unfold on_beach.
    destruct (staffing_status p); intuition discriminate.
  - apply beach_list_sorted_and_unstaffed.
Qed.

Lemma beach_is_unstaffed_part_of_list_witness :
  db_valid example_db /\
  (exists people, PeopleService.get_all_people example_db = Returns people) /\
  PeopleService.get_all_people example_db
  = Returns [mkPerson 3 "Carol Martinez" "DevOps Engineer" "Engineering"
                      AVAILABLE 120 120;
             mkPerson 1 "Alice Johnson" "Senior Software Engineer"
                      "Engineering" STAFFED 100 100;
             mkPerson 2 "Bob Chen" "Frontend Developer" "Engineering"
                      BENCH 100 140] /\
  (exists people_on_beach,
     BeachService.get_people_on_beach example_db = Returns people_on_beach /\
     Permutation people_on_beach
       (filter on_beach
          [mkPerson 3 "Carol Martinez" "DevOps Engineer" "Engineering"
                    AVAILABLE 120 120;
           mkPerson 1 "Alice Johnson" "Senior Software Engineer"
                    "Engineering" STAFFED 100 100;
           mkPerson 2 "Bob Chen" "Frontend Developer" "Engineering"
                    BENCH 100 140])) /\
  BeachService.get_people_on_beach example_db
  = Returns [mkPerson 3 "Carol Martinez" "DevOps Engineer" "Engineering"
                      AVAILABLE 120 120;
             mkPerson 2 "Bob Chen" "Frontend Developer" "Engineering"
                      BENCH 100 140] /\
  one_separator (people_table example_db) /\
  descending [120; 100] /\
  Forall (fun p => staffing_status p <> STAFFED)
         [mkPerson 3 "Carol Martinez" "DevOps Engineer" "Engineering"
                   AVAILABLE 120 120;
          mkPerson 2 "Bob Chen" "Frontend Developer" "Engineering"
                   BENCH 100 140].
Proof.
  assert (Hsep : one_separator (people_table example_db)).
  { intros r r' Hr Hr'. simpl in Hr, Hr'.
    destruct Hr as [<-|[<-|[<-|[]]]], Hr' as [<-|[<-|[<-|[]]]]; reflexivity. }
  split; [exact example_db_valid|].
  split; [exact (proj1 (beach_is_unstaffed_part_of_list example_db)
                       example_db_valid)|].
  split; [reflexivity|].
  split.
  - destruct (proj1 (proj2 (beach_is_unstaffed_part_of_list example_db))
                    _ eq_refl)
      as (people_on_beach & Hb & Hperm & _).
    exists people_on_beach. auto.
  - split; [reflexivity|]. split; [exact Hsep|].
    destruct (proj2 (proj2 (beach_is_unstaffed_part_of_list example_db))
                    _ eq_refl) as (Hunstaffed & rows & _ & _ & _ & Hdesc).
    split; [exact (Hdesc Hsep) | exact Hunstaffed].
Defined.

(** C10.  Whenever [BeachService.get_people_on_beach] returns a list,
    [BeachService.get_beach_count] is the length of that list; and on a
    table of valid rows it does return one. *)
Theorem beach_count_is_length_of_beach_list (db : Database) :
  (db_valid db ->
   exists people_on_beach,
     BeachService.get_people_on_beach db = Returns people_on_beach) /\
  (forall people_on_beach,
     BeachService.get_people_on_beach db = Returns people_on_beach ->
     BeachService.get_beach_count db
     = Z.of_nat (List.length people_on_beach)).
Proof.
  split.
  - intros H. eexists. now apply get_people_on_beach_valid.
  - intros l H. unfold BeachService.get_people_on_beach in H.
    destruct (Persons_from_rows _) as [ps|] eqn:Hps; [|discriminate].
    injection H as <-.
    unfold BeachService.get_beach_count, Sql.count_where.
    now rewrite (Persons_from_rows_length _ _ Hps), order_by_length.
Qed.

Lemma beach_count_is_length_of_beach_list_witness :
  db_valid example_db /\
  (exists people_on_beach,
     BeachService.get_people_on_beach example_db = Returns people_on_beach) /\
  BeachService.get_people_on_beach example_db
  = Returns [mkPerson 3 "Carol Martinez" "DevOps Engineer" "Engineering"
                      AVAILABLE 120 120;
             mkPerson 2 "Bob Chen" "Frontend Developer" "Engineering"
                      BENCH 100 140] /\
  BeachService.get_beach_count example_db = 2.
Proof.
  split; [exact example_db_valid|].
  split; [exact (proj1 (beach_count_is_length_of_beach_list example_db)
                       example_db_valid)|].
  split; [reflexivity|].
  exact (proj2 (beach_count_is_length_of_beach_list example_db) _ eq_refl).
Defined.

(** ** Partial update *)

Section Update.

Lemma supplied_fields_nil (person_data : PersonUpdate) :
  supplied_fields person_data = [] <-> supplies_nothing person_data.
Proof.
  unfold supplies_nothing.
  destruct person_data as [[n|] [r|] [d|] [s|]]; simpl;
    (split; [try discriminate; auto | intros (? & ? & ? & ?);
                                      try discriminate; reflexivity]).
Qed.

Lemma PersonUpdate_validate_ok (body : UpdateBody) (pd : PersonUpdate) :
  PersonUpdate_validate body = Some pd -> PersonUpdate_ok pd.
Proof.
  unfold PersonUpdate_validate, optional_text_field.
  destruct body as [n r d s]; simpl.
  destruct n as [n|]; [destruct (text_field n) as [n'|] eqn:Hn|];
    [| discriminate |];
    (destruct r as [r|]; [destruct (text_field r) as [r'|] eqn:Hr|];
     [| discriminate |]);
    (destruct d as [d|]; [destruct (text_field d) as [d'|] eqn:Hd|];
     [| discriminate |]);
    (destruct (optional_status s); [|discriminate]);
    intros [= <-]; simpl;
    (repeat split; intros v [= <-]; eapply text_field_ok; eassumption).
Qed.

Lemma fold_assign_id (sets : list Sql.Assignment) (r : Row) :
  row_id (fold_left Sql.assign sets r) = row_id r.
Proof.
  revert r. induction sets as [|a sets IH]; intros r; simpl; [reflexivity|].
  rewrite IH. now destruct a.
Qed.

Lemma select_after_update (sets : list Sql.Assignment) (i j : Z)
    (db : Database) :
  Sql.select_by_id i (people_table (Sql.update_by_id sets j db))
  = option_map (fun r => if row_id r =? j
                         then fold_left Sql.assign sets r else r)
               (Sql.select_by_id i (people_table db)).
Proof.
  unfold Sql.select_by_id, Sql.update_by_id. simpl.
  induction (people_table db) as [|r rows IH]; simpl; [reflexivity|].
  replace (row_id (if row_id r =? j
                   then fold_left Sql.assign sets r else r))
    with (row_id r)
    by (destruct (row_id r =? j); [now rewrite fold_assign_id | reflexivity]).
  destruct (row_id r =? i); [reflexivity | exact IH].
Qed.

Lemma select_by_id_id (i : Z) (rows : list Row) (r : Row) :
  Sql.select_by_id i rows = Some r -> row_id r = i.
Proof.
  intros H. apply find_some in H as [_ H]. now apply Z.eqb_eq.
Qed.

Lemma select_updated (sets : list Sql.Assignment) (i : Z) (db : Database)
    (row : Row) :
  Sql.select_by_id i (people_table db) = Some row ->
  Sql.select_by_id i (people_table (Sql.update_by_id sets i db))
  = Some (fold_left Sql.assign sets row).
Proof.
  intros H. rewrite select_after_update, H. simpl.
  apply select_by_id_id in H. now rewrite H, Z.eqb_refl.
Qed.

Lemma select_other_after_update (sets : list Sql.Assignment) (i j : Z)
    (db : Database) :
  i <> j ->
  Sql.select_by_id i (people_table (Sql.update_by_id sets j db))
  = Sql.select_by_id i (people_table db).
Proof.
  intros Hij. rewrite select_after_update.
  destruct (Sql.select_by_id i (people_table db)) as [r|] eqn:H;
    [|reflexivity].
  simpl. apply select_by_id_id in H.
  destruct (Z.eqb_spec (row_id r) j); [congruence | reflexivity].
Qed.

(** The row that the dynamically built statement leaves behind. *)
Lemma assign_supplied_fields (text : IsoText) (pd : PersonUpdate) (r : Row) :
  fold_left Sql.assign (supplied_fields pd ++ [Sql.Set_updated_at text])%list r
  = mkRow (row_id r)
          match pu_name pd with Some v => v | None => row_name r end
          match pu_role pd with Some v => v | None => row_role r end
          match pu_department pd with Some v => v | None => row_department r end
          match pu_staffing_status pd with
          | Some v => v
          | None => row_staffing_status r
          end
          (row_created_at r) (fromisoformat text).
Proof.
  destruct pd as [[n|] [ro|] [d|] [s|]]; destruct r; reflexivity.
Qed.

Lemma updated_row_valid (text : IsoText) (pd : PersonUpdate) (r : Row) :
  row_valid r -> PersonUpdate_ok pd ->
  row_valid
    (fold_left Sql.assign
               (supplied_fields pd ++ [Sql.Set_updated_at text])%list r).
Proof.
  intros (Hn & Hr & Hd) (Pn & Pr & Pd). rewrite assign_supplied_fields.
  unfold row_valid; simpl.
  destruct (pu_name pd), (pu_role pd), (pu_department pd); auto.
Qed.

End Update.

Lemma router_update_person_applied (now : datetime) (person_id : Z)
    (pd : PersonUpdate) (db : Database) (row : Row) :
  Sql.select_by_id person_id (people_table db) = Some row ->
  ~ supplies_nothing pd ->
  let update_fields :=
    (supplied_fields pd ++ [Sql.Set_updated_at (isoformat now)])%list in
  let db' := Sql.update_by_id update_fields person_id db in
  people.update_person now person_id pd db
  = (match Person_from_row (fold_left Sql.assign update_fields row) with
     | Some updated_person => Success HTTP_200_OK updated_person
     | None => HTTPException HTTP_500_INTERNAL_SERVER_ERROR
     end, db').
Proof.
  intros Hsel Hsup. unfold people.update_person. rewrite Hsel.
  destruct (supplied_fields pd) as [|a l] eqn:E.
  - apply supplied_fields_nil in E. contradiction.
  - cbv zeta. rewrite (select_updated _ _ _ _ Hsel).
    now destruct (Person_from_row _).
Qed.

Lemma router_update_person_rejected (now : datetime) (person_id : Z)
    (pd : PersonUpdate) (db : Database) (row : Row) :
  Sql.select_by_id person_id (people_table db) = Some row ->
  supplies_nothing pd ->
  people.update_person now person_id pd db
  = (HTTPException HTTP_400_BAD_REQUEST, db).
Proof.
  intros Hsel Hsup. unfold people.update_person. rewrite Hsel.
  apply supplied_fields_nil in Hsup. now rewrite Hsup.
Qed.

Lemma service_update_person_applied (utcnow : datetime) (person_id : Z)
    (pd : PersonUpdate) (db : Database) (row : Row) (p : Person) :
  Sql.select_by_id person_id (people_table db) = Some row ->
  Person_from_row row = Some p ->
  let update_fields :=
    (supplied_fields pd ++ [Sql.Set_updated_at (adapt_datetime utcnow)])%list in
  let db' := Sql.update_by_id update_fields person_id db in
  PeopleService.update_person utcnow person_id pd db
  = (match Person_from_row (fold_left Sql.assign update_fields row) with
     | Some updated_person => Returns (Some updated_person)
     | None => Raises
     end, db').
Proof.
  intros Hsel Hp. unfold PeopleService.update_person.
  unfold PeopleService.get_person_by_id at 1. rewrite Hsel, Hp.
  cbv zeta. unfold PeopleService.get_person_by_id.
  now rewrite (select_updated _ _ _ _ Hsel).
Qed.

Lemma only_supplied_fields_changed_refl (pd : PersonUpdate) (row : Row) :
  supplies_nothing pd -> only_supplied_fields_changed pd row row.
Proof.
  unfold only_supplied_fields_changed. intros (Hn & Hr & Hd & Hs).
  rewrite Hn, Hr, Hd, Hs. repeat split.
Qed.

Lemma only_supplied_fields_changed_assign (text : IsoText)
    (pd : PersonUpdate) (row : Row) :
  only_supplied_fields_changed pd row
    (fold_left Sql.assign
               (supplied_fields pd ++ [Sql.Set_updated_at text])%list row) /\
  row_updated_at
    (fold_left Sql.assign
               (supplied_fields pd ++ [Sql.Set_updated_at text])%list row)
  = fromisoformat text.
Proof.
  rewrite assign_supplied_fields. repeat split.
Qed.

Lemma supplies_nothing_dec (pd : PersonUpdate) :
  supplies_nothing pd \/ ~ supplies_nothing pd.
Proof.
  unfold supplies_nothing.
  destruct pd as [[n|] [r|] [d|] [s|]]; simpl;
    try (right; intros (? & ? & ? & ?); discriminate).
  left. repeat split.
Qed.

(** C2, as amended.  Let [row] be the stored row of [person_id].  When the
    request supplies at least one field, [update_person] of the router
    leaves a row with the same [id] and [created_at], in which each supplied
    field holds the supplied value and each field not supplied its prior
    value, and whose [updated_at] is the clock reading [now], whatever the
    prior [updated_at] was: it is no earlier than before exactly when the
    reading is no earlier; the answer is 200 with the updated person if the
    prior row and the supplied values are valid.  When the request supplies
    no field the router answers 400 and leaves the database as it was.  No
    other row changes.  [PeopleService.update_person], on a valid prior row,
    leaves the same frame for every request and sets [updated_at] to its
    clock reading, and changes no other row either. *)
Theorem update_changes_only_supplied_fields
    (now : datetime) (person_id : Z) (person_data : PersonUpdate)
    (db : Database) (row : Row) :
  Sql.select_by_id person_id (people_table db) = Some row ->
  (~ supplies_nothing person_data ->
   exists row',
     Sql.select_by_id person_id
       (people_table (snd (people.update_person now person_id person_data db)))
     = Some row' /\
     only_supplied_fields_changed person_data row row' /\
     row_updated_at row' = now /\
     (row_updated_at row <= row_updated_at row' <-> row_updated_at row <= now)
     /\
     (row_valid row -> PersonUpdate_ok person_data ->
      fst (people.update_person now person_id person_data db)
      = Success HTTP_200_OK (Person_of_row row'))) /\
  (supplies_nothing person_data ->
   people.update_person now person_id person_data db
   = (HTTPException HTTP_400_BAD_REQUEST, db)) /\
  (forall other, other <> person_id ->
     Sql.select_by_id other
       (people_table (snd (people.update_person now person_id person_data db)))
     = Sql.select_by_id other (people_table db)) /\
  (row_valid row ->
   exists row',
     Sql.select_by_id person_id
       (people_table
          (snd (PeopleService.update_person now person_id person_data db)))
     = Some row' /\
     only_supplied_fields_changed person_data row row' /\
     row_updated_at row' = now /\
     (row_updated_at row <= row_updated_at row' <-> row_updated_at row <= now)
     /\
     (PersonUpdate_ok person_data ->
      fst (PeopleService.update_person now person_id person_data db)
      = Returns (Some (Person_of_row row')))) /\
  (forall other, other <> person_id ->
     Sql.select_by_id other
       (people_table
          (snd (PeopleService.update_person now person_id person_data db)))
     = Sql.select_by_id other (people_table db)).
Proof.
  intros Hsel.
  split; [|split; [|split; [|split]]].
  - intros Hsome.
    destruct (only_supplied_fields_changed_assign
                (isoformat now) person_data row) as [Hframe Hupd].
    rewrite (router_update_person_applied _ _ _ _ _ Hsel Hsome). simpl.
    eexists. split; [apply (select_updated _ _ _ _ Hsel)|].
    split; [exact Hframe|]. split; [exact Hupd|].
    split; [rewrite Hupd; reflexivity|]. intros Hv Hok.
    now rewrite (Person_from_row_valid _ (updated_row_valid _ _ _ Hv Hok)).
  - intros Hno. exact (router_update_person_rejected _ _ _ _ _ Hsel Hno).
  - intros other Hother.
    destruct (supplies_nothing_dec person_data) as [Hno|Hsome].
    + now rewrite (router_update_person_rejected _ _ _ _ _ Hsel Hno).
    + rewrite (router_update_person_applied _ _ _ _ _ Hsel Hsome). simpl.
      now apply select_other_after_update.
  - intros Hv.
    destruct (only_supplied_fields_changed_assign
                (adapt_datetime now) person_data row) as [Hframe Hupd].
    rewrite (service_update_person_applied _ _ _ _ _ _ Hsel
               (Person_from_row_valid _ Hv)). simpl.
    eexists. split; [apply (select_updated _ _ _ _ Hsel)|].
    split; [exact Hframe|]. split; [exact Hupd|].
    split; [rewrite Hupd; reflexivity|]. intros Hok.
    now rewrite (Person_from_row_valid _ (updated_row_valid _ _ _ Hv Hok)).
  - intros other Hother.
    unfold PeopleService.update_person, PeopleService.get_person_by_id.
    rewrite Hsel. destruct (Person_from_row row); simpl; [|reflexivity].
    now apply select_other_after_update.
Qed.

Lemma update_changes_only_supplied_fields_witness :
  Sql.select_by_id 2 (people_table example_db) = Some example_row_2 /\
  ~ supplies_nothing example_update /\
  people.update_person 200 2 example_update example_db
  = (Success HTTP_200_OK
       (mkPerson 2 "Bob Chen" "Senior Frontend Developer" "Engineering"
                 BENCH 100 200),
     mkDatabase
       [mkRow 1 "Alice Johnson" "Senior Software Engineer" "Engineering"
              STAFFED (isoformat 100) 100;
        mkRow 2 "Bob Chen" "Senior Frontend Developer" "Engineering"
              BENCH (isoformat 100) 200;
        mkRow 3 "Carol Martinez" "DevOps Engineer" "Engineering"
              AVAILABLE (isoformat 120) 120] 3) /\
  (exists row',
     Sql.select_by_id 2
       (people_table (snd (people.update_person 200 2 example_update
                                                example_db)))
     = Some row' /\
     only_supplied_fields_changed example_update example_row_2 row' /\
     row_updated_at row' = 200) /\
  people.update_person 200 2 empty_update example_db
  = (HTTPException HTTP_400_BAD_REQUEST, example_db) /\
  (forall other, other <> 2 ->
     Sql.select_by_id other
       (people_table (snd (people.update_person 200 2 example_update
                                                example_db)))
     = Sql.select_by_id other (people_table example_db)).
Proof.
  assert (Hsome : ~ supplies_nothing example_update)
    by (intros (_ & H & _); discriminate).
  assert (Hno : supplies_nothing empty_update) by (repeat split).
  split; [reflexivity|]. split; [exact Hsome|]. split; [reflexivity|].
  destruct (update_changes_only_supplied_fields
              200 2 example_update example_db example_row_2 eq_refl)
    as (Hrouter & _ & Hother & _).
  destruct (Hrouter Hsome) as (row' & Hsel & Hframe & Hupd & _).
  split; [exists row'; auto|].
  split; [|exact Hother].
  exact (proj1 (proj2 (update_changes_only_supplied_fields
                         200 2 empty_update example_db example_row_2 eq_refl))
               Hno).
Defined.

(** C2, as stated, fails twice on the row of Bob Chen, whose [updated_at]
    is 140.  At a clock reading of 50 both update functions answer with
    success and leave [updated_at] at 50, earlier than before.  And a
    request without fields is answered 400 by the router, which leaves
    [updated_at] as it was, whatever the clock reads. *)
Lemma update_can_set_updated_at_back :
  Sql.select_by_id 2 (people_table example_db) = Some example_row_2 /\
  row_updated_at example_row_2 = 140 /\
  fst (people.update_person 50 2 example_update example_db)
  = Success HTTP_200_OK
      (mkPerson 2 "Bob Chen" "Senior Frontend Developer" "Engineering"
                BENCH 100 50) /\
  ~ (exists row',
       Sql.select_by_id 2
         (people_table (snd (people.update_person 50 2 example_update
                                                  example_db)))
       = Some row' /\
       row_updated_at example_row_2 <= row_updated_at row') /\
  fst (PeopleService.update_person 50 2 example_update example_db)
  = Returns (Some (mkPerson 2 "Bob Chen" "Senior Frontend Developer"
                            "Engineering" BENCH 100 50)) /\
  ~ (exists row',
       Sql.select_by_id 2
         (people_table (snd (PeopleService.update_person 50 2 example_update
                                                         example_db)))
       = Some row' /\
       row_updated_at example_row_2 <= row_updated_at row') /\
  people.update_person 200 2 empty_update example_db
  = (HTTPException HTTP_400_BAD_REQUEST, example_db) /\
  ~ (exists row',
       Sql.select_by_id 2
         (people_table (snd (people.update_person 200 2 empty_update
                                                  example_db)))
       = Some row' /\
       row_updated_at row' = 200).
Proof.
  split; [reflexivity|]. split; [reflexivity|]. split; [reflexivity|].
  split; [intros (row' & [= <-] & H); simpl in H; lia|].
  split; [reflexivity|].
  split; [intros (row' & [= <-] & H); simpl in H; lia|].
  split; [reflexivity|].
  intros (row' & [= <-] & H). discriminate H.
Qed.

(** ** Failures of the update endpoint *)






(** ** Delete *)

Section Delete.

Lemma select_after_delete (i j : Z) (db : Database) :
  Sql.select_by_id i (people_table (Sql.delete_by_id j db))
  = if i =? j then None else Sql.select_by_id i (people_table db).
Proof.
  unfold Sql.select_by_id, Sql.delete_by_id. simpl.
  induction (people_table db) as [|r rows IH]; simpl.
  - now destruct (i =? j).
  - destruct (Z.eqb_spec (row_id r) j) as [Hj|Hj]; simpl.
    + rewrite IH. destruct (Z.eqb_spec i j) as [Hi|Hi]; [reflexivity|].
      destruct (Z.eqb_spec (row_id r) i); [congruence | reflexivity].
    + destruct (Z.eqb_spec (row_id r) i) as [Hi|Hi]; [|exact IH].
      destruct (Z.eqb_spec i j); [congruence | reflexivity].
Qed.

Lemma In_after_delete (j : Z) (db : Database) (r : Row) :
  In r (people_table (Sql.delete_by_id j db)) <->
  In r (people_table db) /\ row_id r <> j.
Proof.
  unfold Sql.delete_by_id. simpl. rewrite filter_In.
  destruct (Z.eqb_spec (row_id r) j); simpl; intuition congruence.
Qed.

End Delete.



(** ** Create *)

Section Create.

Lemma max_rowid_bound (r0 : Z) (rows : list Row) :
  r0 <= fold_right (fun r' m => Z.max (row_id r') m) r0 rows /\
  Forall (fun r => row_id r
                   <= fold_right (fun r' m => Z.max (row_id r') m) r0 rows)
         rows.
Proof.
  induction rows as [|r rows [IH0 IH]]; simpl.
  - split; [lia | constructor].
  - split; [lia|]. constructor; [lia|].
    eapply Forall_impl; [|exact IH]. simpl. intros; lia.
Qed.

(** The id of a new row is larger than the id of every stored row. *)
Lemma new_rowid_fresh (db : Database) :
  Forall (fun r => row_id r < Sql.new_rowid db) (people_table db).
Proof.
  unfold Sql.new_rowid. destruct (people_table db) as [|r rows]; [constructor|].
  destruct (max_rowid_bound (row_id r) rows) as [H0 H].
  constructor; [lia|].
  eapply Forall_impl; [|exact H]. simpl. intros; lia.
Qed.

Lemma select_by_id_app (i : Z) (rows rows' : list Row) :
  Sql.select_by_id i (rows ++ rows')
  = match Sql.select_by_id i rows with
    | Some r => Some r
    | None => Sql.select_by_id i rows'
    end.
Proof.
  unfold Sql.select_by_id.
  induction rows as [|r rows IH]; simpl; [reflexivity|].
  now destruct (row_id r =? i).
Qed.

Lemma select_new_rowid (db : Database) :
  Sql.select_by_id (Sql.new_rowid db) (people_table db) = None.
Proof.
  destruct (Sql.select_by_id _ _) as [r|] eqn:H; [|reflexivity].
  pose proof (select_by_id_id _ _ _ H) as Hid.
  apply find_some in H as [Hin _].
  pose proof (new_rowid_fresh db) as Hf. rewrite Forall_forall in Hf.
  specialize (Hf r Hin). lia.
Qed.

(** The row that an INSERT adds is the row that a SELECT of its id finds,
    and every other id selects what it selected before. *)
Lemma select_after_insert (n r d : string) (s : StaffingStatus)
    (c u : IsoText) (db : Database) :
  let '(person_id, db') := Sql.insert n r d s c u db in
  Sql.select_by_id person_id (people_table db')
  = Some (mkRow person_id n r d s c (fromisoformat u)) /\
  forall other, other <> person_id ->
    Sql.select_by_id other (people_table db')
    = Sql.select_by_id other (people_table db).
Proof.
  unfold Sql.insert. cbn [people_table]. split.
  - rewrite select_by_id_app, select_new_rowid.
    unfold Sql.select_by_id. simpl. now rewrite Z.eqb_refl.
  - intros other Hother. rewrite select_by_id_app.
    destruct (Sql.select_by_id other (people_table db)); [reflexivity|].
    unfold Sql.select_by_id. simpl.
    destruct (Z.eqb_spec (Sql.new_rowid db) other); [congruence|reflexivity].
Qed.

Lemma PersonCreate_validate_Some (body : CreateBody) (pd : PersonCreate) :
  PersonCreate_validate body = Some pd ->
  text_field (body_name body) = Some (pc_name pd) /\
  text_field (body_role body) = Some (pc_role pd) /\
  text_field (body_department body) = Some (pc_department pd) /\
  StaffingStatus_of_value (body_staffing_status body)
  = Some (pc_staffing_status pd).
Proof.
  unfold PersonCreate_validate.
  destruct (text_field (body_name body)); [|discriminate].
  destruct (text_field (body_role body)); [|discriminate].
  destruct (text_field (body_department body)); [|discriminate].
  destruct (StaffingStatus_of_value _); [|discriminate].
  intros [= <-]. repeat split.
Qed.

Lemma PersonCreate_validate_ok (body : CreateBody) (pd : PersonCreate) :
  PersonCreate_validate body = Some pd -> PersonCreate_ok pd.
Proof.
  intros H. apply PersonCreate_validate_Some in H as (Hn & Hr & Hd & _).
  repeat split; eapply text_field_ok; eassumption.
Qed.

(** The handler of the router on a validated request: the inserted row,
    read back. *)
Lemma router_create_person_ok (current_time : datetime) (pd : PersonCreate)
    (db : Database) :
  PersonCreate_ok pd ->
  let person_id := Sql.new_rowid db in
  let row := mkRow person_id (pc_name pd) (pc_role pd) (pc_department pd)
                   (pc_staffing_status pd) (isoformat current_time)
                   current_time in
  people.create_person current_time pd db
  = (Success HTTP_201_CREATED (Person_of_row row),
     mkDatabase (people_table db ++ [row]) person_id).
Proof.
  intros Hok. cbv zeta. unfold people.create_person.
  pose proof (select_after_insert (pc_name pd) (pc_role pd)
                (pc_department pd) (pc_staffing_status pd)
                (isoformat current_time) (isoformat current_time) db) as H.
  unfold Sql.insert in *. destruct H as [H _]. rewrite H.
  now rewrite Person_from_row_valid.
Qed.

End Create.

(** Create through the router, then fetch by the returned id.  For a body
    whose three text fields are valid and whose status names one of the
    three members, [POST /people] answers 201 with a person that has the
    same name, role, department and status and equal [created_at] and
    [updated_at], and [GET /people/{id}] on its id answers 200 with the same
    person. *)
Lemma router_create_then_get (current_time : datetime) (body : CreateBody)
    (db : Database) (s : StaffingStatus) :
  valid_text (body_name body) ->
  valid_text (body_role body) ->
  valid_text (body_department body) ->
  body_staffing_status body = StaffingStatus_value s ->
  exists person db',
    people.POST_people current_time body db
    = (Success HTTP_201_CREATED person, db') /\
    name person = body_name body /\
    role person = body_role body /\
    department person = body_department body /\
    staffing_status person = s /\
    created_at person = updated_at person /\
    people.get_person_by_id (id person) db' = Success HTTP_200_OK person.
Proof.
  intros Hn Hr Hd Hs.
  apply text_ok_iff in Hn, Hr, Hd.
  assert (Hv : PersonCreate_validate body
               = Some (mkPersonCreate (body_name body) (body_role body)
                                      (body_department body) s)).
  { unfold PersonCreate_validate. rewrite Hn, Hr, Hd, Hs.
    now destruct s. }
  unfold people.POST_people. rewrite Hv.
  rewrite router_create_person_ok by (repeat split; assumption).
  cbn [pc_name pc_role pc_department pc_staffing_status].
  eexists. eexists. split; [reflexivity|].
  cbn [Person_of_row name role department staffing_status created_at
       updated_at id row_id row_name row_role row_department
       row_staffing_status row_created_at row_updated_at].
  repeat (split; [reflexivity|]).
  unfold people.get_person_by_id. cbn [people_table].
  rewrite select_by_id_app, select_new_rowid.
  unfold Sql.select_by_id. cbn [find row_id]. rewrite Z.eqb_refl.
  rewrite Person_from_row_valid; [reflexivity|].
  repeat split; assumption.
Qed.

(** [PeopleService.create_person] on a validated request: the inserted row
    carries the first clock reading as [created_at] and the second as
    [updated_at]. *)
Lemma service_create_person_ok (utcnow_1 utcnow_2 : datetime)
    (pd : PersonCreate) (db : Database) :
  PersonCreate_ok pd ->
  let person_id := Sql.new_rowid db in
  let row := mkRow person_id (pc_name pd) (pc_role pd) (pc_department pd)
                   (pc_staffing_status pd) (adapt_datetime utcnow_1)
                   utcnow_2 in
  PeopleService.create_person utcnow_1 utcnow_2 pd db
  = (Returns (Some (Person_of_row row)),
     mkDatabase (people_table db ++ [row]) person_id).
Proof.
  intros Hok. cbv zeta.
  unfold PeopleService.create_person, PeopleService.get_person_by_id.
  pose proof (select_after_insert (pc_name pd) (pc_role pd)
                (pc_department pd) (pc_staffing_status pd)
                (adapt_datetime utcnow_1) (adapt_datetime utcnow_2) db) as H.
  unfold Sql.insert in *. destruct H as [H _]. rewrite H.
  now rewrite Person_from_row_valid.
Qed.

(** C5, on [PeopleService.create_person].  The request of the spec's
    example is valid; when the clock advances between the two calls of
    [datetime.utcnow()] the created person, which [get_person_by_id] returns
    for its id with the requested name, role, department and status, has a
    [created_at] that differs from its [updated_at]. *)
Theorem service_create_person_timestamps_differ :
  PersonCreate_validate (mkCreateBody "Ann Lee" "Engineer" "Eng" "available")
  = Some ann_lee /\
  exists person db',
    PeopleService.create_person 1000 1001 ann_lee (mkDatabase [] 0)
    = (Returns (Some person), db') /\
    PeopleService.get_person_by_id (id person) db' = Returns (Some person) /\
    name person = "Ann Lee" /\ role person = "Engineer" /\
    department person = "Eng" /\ staffing_status person = AVAILABLE /\
    created_at person = 1000 /\ updated_at person = 1001 /\
    created_at person <> updated_at person.
Proof.
  split; [reflexivity|].
  eexists. eexists. split; [reflexivity|].
  repeat (split; [reflexivity|]). discriminate.
Qed.

(** ** Rejected create requests *)

Lemma text_field_invalid (s : string) : invalid_text s -> text_field s = None.
Proof.
  intros H. destruct (text_field s) as [t|] eqn:E; [|reflexivity].
  apply text_field_Some in E as (Hlen & Hne & _).
  destruct H as [-> | [H | H]].
  - simpl in Hlen. lia.
  - now apply strip_whitespace_only in H.
  - lia.
Qed.

Lemma StaffingStatus_of_value_unsupported (s : string) :
  unsupported_status s -> StaffingStatus_of_value s = None.
Proof.
  intros (H1 & H2 & H3). unfold StaffingStatus_of_value.
  destruct (String.eqb_spec s "staffed"); [contradiction|].
  destruct (String.eqb_spec s "bench"); [contradiction|].
  destruct (String.eqb_spec s "available"); [contradiction|].
  reflexivity.
Qed.

(** C6.  When the name, the role or the department of the body is empty,
    white space only or longer than 100 characters, or the status is none of
    [staffed], [bench], [available], [POST /people] is rejected by the
    validation of the request and the database is left as it was: no row is
    added. *)
Theorem create_rejects_invalid_input
    (current_time : datetime) (body : CreateBody) (db : Database) :
  invalid_text (body_name body) \/ invalid_text (body_role body) \/
  invalid_text (body_department body) \/
  unsupported_status (body_staffing_status body) ->
  people.POST_people current_time body db = (RequestValidationError, db).
Proof.
  intros H. unfold people.POST_people.
  assert (Hv : PersonCreate_validate body = None).
  { unfold PersonCreate_validate.
    destruct H as [H | [H | [H | H]]].
    - now rewrite (text_field_invalid _ H).
    - rewrite (text_field_invalid _ H).
      now destruct (text_field (body_name body)).
    - rewrite (text_field_invalid _ H).
      now destruct (text_field (body_name body)),
                   (text_field (body_role body)).
    - rewrite (StaffingStatus_of_value_unsupported _ H).
      now destruct (text_field (body_name body)),
                   (text_field (body_role body)),
                   (text_field (body_department body)). }
  now rewrite Hv.
Qed.

Lemma create_rejects_invalid_input_witness :
  (invalid_text (body_name (mkCreateBody "   " "Engineer" "Eng" "available"))
   /\ people.POST_people 5 (mkCreateBody "   " "Engineer" "Eng" "available")
                         example_db
      = (RequestValidationError, example_db)) /\
  (unsupported_status
     (body_staffing_status (mkCreateBody "Ann Lee" "Engineer" "Eng"
                                         "vacation"))
   /\ people.POST_people 5 (mkCreateBody "Ann Lee" "Engineer" "Eng"
                                         "vacation") example_db
      = (RequestValidationError, example_db)).
Proof.
  split.
  - split; [right; left; reflexivity|].
    apply create_rejects_invalid_input.
    left. right. left. reflexivity.
  - split; [repeat split; discriminate|].
    apply create_rejects_invalid_input.
    right. right. right. repeat split; discriminate.
Defined.

(** ** The routes and the service layer *)

Section Layers.

(** [GET /people] answers with the list of [PeopleService.get_all_people]
    and its length. *)
Lemma router_get_all_people_agrees (db : Database) :
  people.get_all_people db
  = match PeopleService.get_all_people db with
    | Returns l => Success HTTP_200_OK (l, Z.of_nat (List.length l))
    | Raises => HTTPException HTTP_500_INTERNAL_SERVER_ERROR
    end.
Proof.
  unfold people.get_all_people, PeopleService.get_all_people.
  now destruct (Persons_from_rows _).
Qed.

(** [GET /people/{id}] answers 404 exactly where the service returns
    [None]. *)
Lemma router_get_person_by_id_agrees (person_id : Z) (db : Database) :
  people.get_person_by_id person_id db
  = match PeopleService.get_person_by_id person_id db with
    | Returns (Some p) => Success HTTP_200_OK p
    | Returns None => HTTPException HTTP_404_NOT_FOUND
    | Raises => HTTPException HTTP_500_INTERNAL_SERVER_ERROR
    end.
Proof.
  unfold people.get_person_by_id, PeopleService.get_person_by_id.
  destruct (Sql.select_by_id _ _) as [row|]; [|reflexivity].
  now destruct (Person_from_row row).
Qed.

(** [PeopleService.delete_person] deletes the same rows as the route and
    tells by its boolean whether a row had the id. *)
Lemma service_delete_person_spec (person_id : Z) (db : Database) :
  snd (PeopleService.delete_person person_id db)
  = Sql.delete_by_id person_id db /\
  (fst (PeopleService.delete_person person_id db) = true <->
   Sql.select_by_id person_id (people_table db) <> None).
Proof.
  unfold PeopleService.delete_person, Sql.select_by_id. cbn [fst snd].
  split; [reflexivity|].
  induction (people_table db) as [|r rows IH]; simpl.
  - split; [discriminate | congruence].
  - destruct (row_id r =? person_id); simpl.
    + split; [discriminate | intros _].
      apply Z.ltb_lt. lia.
    + exact IH.
Qed.

(** [GET /beach]: the list of the service, its length as [total_count], and
    the clock reading. *)
Lemma beach_route_total_count (utcnow : datetime) (db : Database)
    (l : list Person) (n : Z) (t : datetime) :
  beach.get_people_on_beach utcnow db = Success HTTP_200_OK (l, n, t) ->
  BeachService.get_people_on_beach db = Returns l /\
  n = Z.of_nat (List.length l) /\ t = utcnow.
Proof.
  unfold beach.get_people_on_beach.
  destruct (BeachService.get_people_on_beach db); [|discriminate].
  now intros [= <- <- <-].
Qed.

End Layers.

(** ** The data-model invariant is kept by every route

    The theorems above that speak of valid rows apply to every table that
    the routes can build from the empty one. *)

Section Invariant.

Lemma empty_db_valid : db_valid (mkDatabase [] 0).
Proof. constructor. Qed.

Lemma POST_people_keeps_valid (current_time : datetime) (body : CreateBody)
    (db : Database) :
  db_valid db -> db_valid (snd (people.POST_people current_time body db)).
Proof.
  intros Hdb. unfold people.POST_people.
  destruct (PersonCreate_validate body) as [pd|] eqn:Hv; [|exact Hdb].
  pose proof (PersonCreate_validate_ok _ _ Hv) as Hok.
  rewrite (router_create_person_ok _ _ _ Hok). cbn [snd].
  unfold db_valid in *. cbn [people_table].
  apply Forall_app. split; [exact Hdb|].
  constructor; [exact Hok | constructor].
Qed.

Lemma update_by_id_keeps_valid (text : IsoText) (person_id : Z)
    (pd : PersonUpdate) (db : Database) :
  PersonUpdate_ok pd -> db_valid db ->
  db_valid (Sql.update_by_id
              (supplied_fields pd ++ [Sql.Set_updated_at text])%list
              person_id db).
Proof.
  intros Hok Hdb. unfold db_valid, Sql.update_by_id in *.
  cbn [people_table]. apply Forall_map.
  eapply Forall_impl; [|exact Hdb]. intros r Hr.
  destruct (row_id r =? person_id); [|exact Hr].
  now apply updated_row_valid.
Qed.

Lemma PUT_people_keeps_valid (now : datetime) (person_id : Z)
    (body : UpdateBody) (db : Database) :
  db_valid db -> db_valid (snd (people.PUT_people now person_id body db)).
Proof.
  intros Hdb. unfold people.PUT_people.
  destruct (PersonUpdate_validate body) as [pd|] eqn:Hv; [|exact Hdb].
  pose proof (PersonUpdate_validate_ok _ _ Hv) as Hok.
  destruct (Sql.select_by_id person_id (people_table db)) as [row|] eqn:Hsel.
  - destruct (supplies_nothing_dec pd) as [Hno|Hsome].
    + now rewrite (router_update_person_rejected _ _ _ _ _ Hsel Hno).
    + rewrite (router_update_person_applied _ _ _ _ _ Hsel Hsome).
      cbn [snd]. now apply update_by_id_keeps_valid.
  - unfold people.update_person. now rewrite Hsel.
Qed.

Lemma delete_person_keeps_valid (person_id : Z) (db : Database) :
  db_valid db -> db_valid (snd (people.delete_person person_id db)).
Proof.
  intros Hdb. unfold people.delete_person.
  destruct (Sql.select_by_id person_id (people_table db)); [|exact Hdb].
  destruct (Person_from_row r); [|exact Hdb].
  cbn [snd]. unfold db_valid in *. apply Forall_forall. intros x Hx.
  apply In_after_delete in Hx as [Hx _].
  rewrite Forall_forall in Hdb. auto.
Qed.

(** The routes write [created_at] with [T] and never rewrite it: a table
    in which every [created_at] text has [T] stays one. *)
Lemma POST_people_keeps_T (now : datetime) (body : CreateBody)
    (db : Database) :
  written_with_T db -> written_with_T (snd (people.POST_people now body db)).
Proof.
  intros Hdb. unfold people.POST_people.
  destruct (PersonCreate_validate body) as [pd|] eqn:Hv; [|exact Hdb].
  rewrite (router_create_person_ok _ _ _ (PersonCreate_validate_ok _ _ Hv)).
  cbn [snd]. unfold written_with_T in *. cbn [people_table].
  apply Forall_app. split; [exact Hdb|]. now repeat constructor.
Qed.

Lemma update_by_id_keeps_T (text : IsoText) (person_id : Z)
    (pd : PersonUpdate) (db : Database) :
  written_with_T db ->
  written_with_T (Sql.update_by_id
                    (supplied_fields pd ++ [Sql.Set_updated_at text])%list
                    person_id db).
Proof.
  intros Hdb. unfold written_with_T, Sql.update_by_id in *.
  cbn [people_table]. apply Forall_map.
  eapply Forall_impl; [|exact Hdb]. intros r Hr.
  destruct (row_id r =? person_id); [|exact Hr].
  now rewrite assign_supplied_fields.
Qed.

Lemma PUT_people_keeps_T (now : datetime) (person_id : Z)
    (body : UpdateBody) (db : Database) :
  written_with_T db ->
  written_with_T (snd (people.PUT_people now person_id body db)).
Proof.
  intros Hdb. unfold people.PUT_people.
  destruct (PersonUpdate_validate body) as [pd|] eqn:Hv; [|exact Hdb].
  destruct (Sql.select_by_id person_id (people_table db)) as [row|] eqn:Hsel.
  - destruct (supplies_nothing_dec pd) as [Hno|Hsome].
    + now rewrite (router_update_person_rejected _ _ _ _ _ Hsel Hno).
    + rewrite (router_update_person_applied _ _ _ _ _ Hsel Hsome).
      cbn [snd]. now apply update_by_id_keeps_T.
  - unfold people.update_person. now rewrite Hsel.
Qed.

Lemma delete_person_keeps_T (person_id : Z) (db : Database) :
  written_with_T db -> written_with_T (snd (people.delete_person person_id db)).
Proof.
  intros Hdb. unfold people.delete_person.
  destruct (Sql.select_by_id person_id (people_table db)); [|exact Hdb].
  destruct (Person_from_row r); [|exact Hdb].
  cbn [snd]. unfold written_with_T in *. apply Forall_forall. intros x Hx.
  apply In_after_delete in Hx as [Hx _].
  rewrite Forall_forall in Hdb. auto.
Qed.

End Invariant.

(** ** Policy documents *)

Section Documents.

Import documents.

Lemma prefix_iff (sub s : string) :
  String.prefix sub s = true <-> exists after, s = (sub ++ after)%string.
Proof.
  revert s. induction sub as [|c sub IH]; intros s; simpl.
  - split; [intros _; now exists s | intros _; now destruct s].
  - destruct s as [|d s]; simpl.
    + split; [discriminate | intros [? [=]]].
    + destruct (Ascii.ascii_dec c d) as [->|Hcd].
      * rewrite IH. split; intros [after H]; exists after; congruence.
      * split; [discriminate | intros [? [= ? _]]; congruence].
Qed.

Lemma contains_iff (sub s : string) :
  Py.contains sub s = true <-> has_substring sub s.
Proof.
  unfold has_substring. induction s as [|c s IH]; cbn [Py.contains].
  - rewrite orb_false_r, prefix_iff. split.
    + intros [after H]. now exists "", after.
    + intros (before & after & H). exists after.
      destruct before; [exact H|discriminate].
  - rewrite orb_true_iff, prefix_iff, IH. split.
    + intros [[after H] | (before & after & H)].
      * now exists "", after.
      * exists (String c before), after. simpl. now rewrite H.
    + intros (before & after & H). destruct before as [|d before].
      * left. now exists after.
      * right. simpl in H. injection H as _ H. now exists before, after.
Qed.

Lemma path_traversal_iff (filename : string) :
  path_traversal filename = true <->
  has_substring ".." filename \/ has_substring "/" filename \/
  has_substring "\" filename.
Proof.
  unfold path_traversal.
  rewrite !orb_true_iff, !contains_iff. tauto.
Qed.

(** The keys of the allow-list. *)
Lemma dict_mem_AVAILABLE_DOCUMENTS (filename : string) :
  dict_mem filename AVAILABLE_DOCUMENTS = true <->
  filename = "employee-handbook.md" \/ filename = "code-of-conduct.md" \/
  filename = "security-policy.md".
Proof.
  unfold dict_mem, dict_get, AVAILABLE_DOCUMENTS. cbn [find fst snd].
  destruct (String.eqb_spec "employee-handbook.md" filename) as [<-|H1];
    [tauto|].
  destruct (String.eqb_spec "code-of-conduct.md" filename) as [<-|H2];
    [tauto|].
  destruct (String.eqb_spec "security-policy.md" filename) as [<-|H3];
    [tauto|].
  split; [discriminate | intros [?|[?|?]]; congruence].
Qed.

(** Every allow-listed name passes the separator check and carries an
    allow-listed extension. *)
Lemma AVAILABLE_DOCUMENTS_pass_checks (filename : string) :
  dict_mem filename AVAILABLE_DOCUMENTS = true ->
  path_traversal filename = false /\
  Py.mem (Py.lower (suffix filename)) ALLOWED_EXTENSIONS = true.
Proof.
  intros H. apply dict_mem_AVAILABLE_DOCUMENTS in H as [-> | [-> | ->]];
    split; reflexivity.
Qed.

End Documents.

(** C7, as amended.  [get_document] checks in this order:
    - a filename that contains [..], [/] or [\] is answered 400, and no
      file-system call is made;
    - otherwise an extension outside the allowed set is answered 403, again
      without a file-system call;
    - otherwise a name that is no key of the allow-list is answered 404,
      again without a file-system call;
    - otherwise a file missing on disk is answered 404;
    - otherwise a path that is no regular file is answered 403;
    - otherwise a path that resolves outside the policies directory is
      answered 403.
    So an allow-listed file that exists and resolves outside the directory
    is always answered 403. *)
Theorem get_document_validation_order
    (fs : documents.FileSystem) (filename : string) :
  (has_substring ".." filename \/ has_substring "/" filename \/
   has_substring "\" filename ->
   documents.get_document fs filename
   = (HTTPException HTTP_400_BAD_REQUEST, [])) /\
  (documents.path_traversal filename = false ->
   Py.mem (Py.lower (documents.suffix filename)) documents.ALLOWED_EXTENSIONS
   = false ->
   documents.get_document fs filename
   = (HTTPException HTTP_403_FORBIDDEN, [])) /\
  (documents.path_traversal filename = false ->
   Py.mem (Py.lower (documents.suffix filename)) documents.ALLOWED_EXTENSIONS
   = true ->
   documents.dict_mem filename documents.AVAILABLE_DOCUMENTS = false ->
   documents.get_document fs filename
   = (HTTPException HTTP_404_NOT_FOUND, [])) /\
  (documents.dict_mem filename documents.AVAILABLE_DOCUMENTS = true ->
   documents.path_exists fs filename = false ->
   fst (documents.get_document fs filename)
   = HTTPException HTTP_404_NOT_FOUND) /\
  (documents.dict_mem filename documents.AVAILABLE_DOCUMENTS = true ->
   documents.path_exists fs filename = true ->
   documents.path_is_file fs filename = false ->
   fst (documents.get_document fs filename)
   = HTTPException HTTP_403_FORBIDDEN) /\
  (documents.dict_mem filename documents.AVAILABLE_DOCUMENTS = true ->
   documents.path_exists fs filename = true ->
   documents.resolves_under_policies_dir fs filename = false ->
   fst (documents.get_document fs filename)
   = HTTPException HTTP_403_FORBIDDEN).
Proof.
  unfold documents.get_document.
  split; [|split; [|split; [|split; [|split]]]].
  - intros H. apply path_traversal_iff in H. now rewrite H.
  - intros Ht He. now rewrite Ht, He.
  - intros Ht He Hd. now rewrite Ht, He, Hd.
  - intros Hd Hx.
    destruct (AVAILABLE_DOCUMENTS_pass_checks _ Hd) as [Ht He].
    now rewrite Ht, He, Hd, Hx.
  - intros Hd Hx Hf.
    destruct (AVAILABLE_DOCUMENTS_pass_checks _ Hd) as [Ht He].
    now rewrite Ht, He, Hd, Hx, Hf.
  - intros Hd Hx Hr.
    destruct (AVAILABLE_DOCUMENTS_pass_checks _ Hd) as [Ht He].
    rewrite Ht, He, Hd, Hx, Hr. cbn [negb].
    now destruct (documents.path_is_file fs filename).
Qed.

Lemma get_document_validation_order_witness :
  (has_substring ".." "../../etc/passwd" /\
   documents.get_document plain_files "../../etc/passwd"
   = (HTTPException HTTP_400_BAD_REQUEST, [])) /\
  (documents.path_traversal "notes.exe" = false /\
   documents.get_document plain_files "notes.exe"
   = (HTTPException HTTP_403_FORBIDDEN, [])) /\
  (documents.path_traversal "notes.md" = false /\
   documents.get_document plain_files "notes.md"
   = (HTTPException HTTP_404_NOT_FOUND, [])) /\
  (documents.path_exists dangling_links "security-policy.md" = false /\
   fst (documents.get_document dangling_links "security-policy.md")
   = HTTPException HTTP_404_NOT_FOUND) /\
  (documents.path_exists links_to_outside "security-policy.md" = true /\
   documents.resolves_under_policies_dir links_to_outside
     "security-policy.md" = false /\
   fst (documents.get_document links_to_outside "security-policy.md")
   = HTTPException HTTP_403_FORBIDDEN).
Proof.
  split; [|split; [|split; [|split]]].
  - split; [now exists "", "/../etc/passwd"|].
    apply (proj1 (get_document_validation_order plain_files
                    "../../etc/passwd")).
    left. now exists "", "/../etc/passwd".
  - split; [reflexivity|].
    now apply (proj1 (proj2 (get_document_validation_order plain_files
                               "notes.exe"))).
  - split; [reflexivity|].
    now apply (proj1 (proj2 (proj2 (get_document_validation_order
                                      plain_files "notes.md")))).
  - split; [reflexivity|].
    now apply (proj1 (proj2 (proj2 (proj2 (get_document_validation_order
                                             dangling_links
                                             "security-policy.md"))))).
  - split; [reflexivity|]. split; [reflexivity|].
    now apply (proj2 (proj2 (proj2 (proj2 (proj2
                 (get_document_validation_order links_to_outside
                    "security-policy.md")))))).
Defined.

(** C7, as stated, fails in its last step: an allow-listed name with an
    allowed extension and no separator, whose path resolves outside the
    policies directory but does not exist, is answered 404 and not 403. *)
Lemma get_document_of_missing_escaping_path_is_404 :
  documents.path_traversal "employee-handbook.md" = false /\
  Py.mem (Py.lower (documents.suffix "employee-handbook.md"))
         documents.ALLOWED_EXTENSIONS = true /\
  documents.dict_mem "employee-handbook.md" documents.AVAILABLE_DOCUMENTS
  = true /\
  documents.resolves_under_policies_dir dangling_links "employee-handbook.md"
  = false /\
  documents.get_document dangling_links "employee-handbook.md"
  = (HTTPException HTTP_404_NOT_FOUND,
     [documents.Call_exists "employee-handbook.md"]) /\
  fst (documents.get_document dangling_links "employee-handbook.md")
  <> HTTPException HTTP_403_FORBIDDEN.
Proof.
  repeat (split; [reflexivity|]). discriminate.
Qed.

(** C8, as amended.  [get_document_info] makes the separator check (400)
    and the allow-list check (404) of [get_document], then checks that the
    file exists (404); it has no extension check, no regular-file check and
    no check of the resolved path.  Its status is that of [get_document]
    whenever [get_document] does not answer 403; a name outside the
    allow-list is answered 404 whatever its extension, and an allow-listed
    file that exists is answered 200 whatever it is and wherever it
    resolves. *)
Theorem get_document_info_validation
    (fs : documents.FileSystem) (filename : string) :
  (has_substring ".." filename \/ has_substring "/" filename \/
   has_substring "\" filename ->
   documents.get_document_info fs filename
   = (HTTPException HTTP_400_BAD_REQUEST, [])) /\
  (documents.path_traversal filename = false ->
   documents.dict_mem filename documents.AVAILABLE_DOCUMENTS = false ->
   documents.get_document_info fs filename
   = (HTTPException HTTP_404_NOT_FOUND, [])) /\
  (documents.dict_mem filename documents.AVAILABLE_DOCUMENTS = true ->
   documents.path_exists fs filename = false ->
   fst (documents.get_document_info fs filename)
   = HTTPException HTTP_404_NOT_FOUND) /\
  (documents.dict_mem filename documents.AVAILABLE_DOCUMENTS = true ->
   documents.path_exists fs filename = true ->
   status_code_of (fst (documents.get_document_info fs filename))
   = HTTP_200_OK) /\
  (status_code_of (fst (documents.get_document fs filename))
   <> HTTP_403_FORBIDDEN ->
   status_code_of (fst (documents.get_document_info fs filename))
   = status_code_of (fst (documents.get_document fs filename))).
Proof.
  unfold documents.get_document_info, documents.get_document,
    documents.dict_mem.
  split; [|split; [|split; [|split]]].
  - intros H. apply path_traversal_iff in H. now rewrite H.
  - intros Ht Hd. rewrite Ht.
    now destruct (documents.dict_get filename documents.AVAILABLE_DOCUMENTS).
  - intros Hd Hx.
    destruct (AVAILABLE_DOCUMENTS_pass_checks filename) as [Ht _].
    { exact Hd. }
    rewrite Ht, Hx.
    now destruct (documents.dict_get filename documents.AVAILABLE_DOCUMENTS).
  - intros Hd Hx.
    destruct (AVAILABLE_DOCUMENTS_pass_checks filename) as [Ht _].
    { exact Hd. }
    rewrite Ht, Hx.
    destruct (documents.dict_get filename documents.AVAILABLE_DOCUMENTS);
      [|discriminate].
    cbn [negb]. now destruct (documents.path_stat fs filename).
  - destruct (documents.path_traversal filename); [reflexivity|].
    destruct (Py.mem _ documents.ALLOWED_EXTENSIONS); cbn [negb];
      [|intros H; now contradiction H].
    destruct (documents.dict_get filename documents.AVAILABLE_DOCUMENTS);
      cbn [negb]; [|reflexivity].
    destruct (documents.path_exists fs filename); cbn [negb]; [|reflexivity].
    destruct (documents.path_is_file fs filename); cbn [negb];
      [|intros H; now contradiction H].
    destruct (documents.resolves_under_policies_dir fs filename); cbn [negb];
      [|intros H; now contradiction H].
    now destruct (documents.path_stat fs filename).
Qed.

Lemma get_document_info_validation_witness :
  (has_substring "/" "../../etc/passwd" /\
   documents.get_document_info plain_files "../../etc/passwd"
   = (HTTPException HTTP_400_BAD_REQUEST, [])) /\
  (documents.path_traversal "notes.exe" = false /\
   documents.dict_mem "notes.exe" documents.AVAILABLE_DOCUMENTS = false /\
   documents.get_document_info plain_files "notes.exe"
   = (HTTPException HTTP_404_NOT_FOUND, [])) /\
  (documents.path_exists dangling_links "code-of-conduct.md" = false /\
   fst (documents.get_document_info dangling_links "code-of-conduct.md")
   = HTTPException HTTP_404_NOT_FOUND) /\
  (documents.path_exists links_to_outside "code-of-conduct.md" = true /\
   status_code_of
     (fst (documents.get_document_info links_to_outside "code-of-conduct.md"))
   = HTTP_200_OK) /\
  (status_code_of (fst (documents.get_document plain_files "notes.md"))
   <> HTTP_403_FORBIDDEN /\
   status_code_of (fst (documents.get_document_info plain_files "notes.md"))
   = status_code_of (fst (documents.get_document plain_files "notes.md"))).
Proof.
  split; [|split; [|split; [|split]]].
  - split; [now exists "..", "../etc/passwd"|].
    apply (proj1 (get_document_info_validation plain_files
                    "../../etc/passwd")).
    right. left. now exists "..", "../etc/passwd".
  - split; [reflexivity|]. split; [reflexivity|].
    now apply (proj1 (proj2 (get_document_info_validation plain_files
                               "notes.exe"))).
  - split; [reflexivity|].
    now apply (proj1 (proj2 (proj2 (get_document_info_validation
                                      dangling_links "code-of-conduct.md")))).
  - split; [reflexivity|].
    now apply (proj1 (proj2 (proj2 (proj2 (get_document_info_validation
                                             links_to_outside
                                             "code-of-conduct.md"))))).
  - split; [discriminate|].
    apply (proj2 (proj2 (proj2 (proj2 (get_document_info_validation
                                         plain_files "notes.md"))))).
    discriminate.
Defined.

(** C8, as stated, fails: for a name with a disallowed extension
    [get_document] answers 403 and [get_document_info] 404, and for an
    allow-listed file that resolves outside the policies directory
    [get_document] answers 403 and [get_document_info] 200. *)
Lemma get_document_info_differs_from_get_document :
  (documents.path_traversal "notes.exe" = false /\
   documents.get_document plain_files "notes.exe"
   = (HTTPException HTTP_403_FORBIDDEN, []) /\
   documents.get_document_info plain_files "notes.exe"
   = (HTTPException HTTP_404_NOT_FOUND, []) /\
   status_code_of (fst (documents.get_document_info plain_files "notes.exe"))
   <> status_code_of (fst (documents.get_document plain_files "notes.exe")))
  /\
  (documents.resolves_under_policies_dir links_to_outside
     "employee-handbook.md" = false /\
   fst (documents.get_document links_to_outside "employee-handbook.md")
   = HTTPException HTTP_403_FORBIDDEN /\
   fst (documents.get_document_info links_to_outside "employee-handbook.md")
   = Success HTTP_200_OK
       (documents.mkDocumentInfo
          "employee-handbook.md"
          "Employee Handbook - Company policies and procedures"
          2048 1700000000 ".md")).
Proof.
  split.
  - repeat (split; [reflexivity|]). discriminate.
  - repeat split.
Qed.

(** * Further properties of the code *)

(** ** The text validator *)

Section Trimming.

Lemma lstrip_decompose (s : string) :
  exists l, s = (l ++ Py.lstrip s)%string /\ whitespace_only l = true.
Proof.
  induction s as [|c s (l & Hs & Hl)]; simpl.
  - now exists "".
  - destruct (Py.isspace c) eqn:Hc.
    + exists (String c l). simpl. rewrite Hc, Hl. split; [congruence|auto].
    + now exists "".
Qed.

Lemma rstrip_empty (s : string) :
  Py.rstrip s = "" -> whitespace_only s = true.
Proof.
  induction s as [|c s IH]; simpl; [reflexivity|].
  destruct (Py.rstrip s); [|discriminate].
  destruct (Py.isspace c); [|discriminate].
  intros _. now rewrite IH.
Qed.

Lemma rstrip_decompose (s : string) :
  exists r, s = (Py.rstrip s ++ r)%string /\ whitespace_only r = true.
Proof.
  induction s as [|c s (r & Hs & Hr)]; simpl.
  - now exists "".
  - destruct (Py.rstrip s) as [|d t] eqn:E.
    + simpl in Hs. subst r. destruct (Py.isspace c) eqn:Hc.
      * exists (String c s). simpl. now rewrite Hc, Hr.
      * exists s. now simpl.
    + exists r. simpl. split; [|exact Hr]. f_equal. exact Hs.
Qed.

Lemma last_isspace_rstrip (s : string) : last_isspace (Py.rstrip s) = false.
Proof.
  induction s as [|c s IH]; simpl; [reflexivity|].
  destruct (Py.rstrip s) as [|d t] eqn:E.
  - destruct (Py.isspace c) eqn:Hc; simpl; [reflexivity | exact Hc].
  - exact IH.
Qed.

Lemma first_isspace_strip (s : string) : first_isspace (Py.strip s) = false.
Proof.
  pose proof (rstrip_no_leading_space _ (lstrip_no_leading_space s)) as H.
  unfold Py.strip. now destruct (Py.rstrip (Py.lstrip s)).
Qed.

Lemma whitespace_only_app (a b : string) :
  whitespace_only (a ++ b) = whitespace_only a && whitespace_only b.
Proof.
  induction a as [|c a IH]; simpl; [reflexivity|].
  now rewrite IH, andb_assoc.
Qed.

Lemma strip_empty_iff (s : string) :
  Py.strip s = "" <-> whitespace_only s = true.
Proof.
  split; [|apply strip_whitespace_only].
  unfold Py.strip. intros H.
  destruct (lstrip_decompose s) as (l & Hs & Hl).
  apply rstrip_empty in H.
  rewrite Hs, whitespace_only_app, Hl. exact H.
Qed.

Lemma acceptable_text_field (s : string) :
  acceptable_text s <-> text_field s = Some (Py.strip s).
Proof.
  rewrite text_field_Some. unfold acceptable_text. split.
  - intros [Hlen Hw]. repeat split; try apply Hlen.
    intros H. apply strip_empty_iff in H. congruence.
  - intros (Hlen & Hne & _). split; [exact Hlen|].
    destruct (whitespace_only s) eqn:Hw; [|reflexivity].
    apply strip_empty_iff in Hw. contradiction.
Qed.

End Trimming.

(** X1.  A value that a text field of [PersonBase] or [PersonUpdate]
    accepts comes back as the input without the white space at its two ends
    and with nothing else changed: the result is not empty, neither begins
    nor ends with white space, is at most 100 characters long, and is
    accepted unchanged when validated again. *)
Theorem validator_trims_only_the_ends (v s : string) :
  text_field v = Some s ->
  exists l r,
    v = (l ++ s ++ r)%string /\
    whitespace_only l = true /\ whitespace_only r = true /\
    s <> "" /\ first_isspace s = false /\ last_isspace s = false /\
    (String.length s <= 100)%nat /\ text_field s = Some s.
Proof.
  intros H. pose proof (text_field_ok _ _ H) as Hok.
  apply text_field_Some in H as (Hlen & Hne & ->).
  destruct (lstrip_decompose v) as (l & Hl & Hwl).
  destruct (rstrip_decompose (Py.lstrip v)) as (r & Hr & Hwr).
  exists l, r. split; [|split; [exact Hwl|split; [exact Hwr|]]].
  - rewrite Hl at 1. f_equal. exact Hr.
  - split; [exact Hne|]. split; [apply first_isspace_strip|].
    split; [apply last_isspace_rstrip|]. split; [|exact Hok].
    pose proof (strip_length v). lia.
Qed.

Lemma validator_trims_only_the_ends_witness :
  text_field "  Ann Lee " = Some "Ann Lee" /\
  exists l r,
    "  Ann Lee " = (l ++ "Ann Lee" ++ r)%string /\
    whitespace_only l = true /\ whitespace_only r = true /\
    "Ann Lee" <> "" /\ first_isspace "Ann Lee" = false /\
    last_isspace "Ann Lee" = false /\
    (String.length "Ann Lee" <= 100)%nat /\
    text_field "Ann Lee" = Some "Ann Lee".
Proof.
  split; [reflexivity|].
  exact (validator_trims_only_the_ends "  Ann Lee " "Ann Lee" eq_refl).
Defined.

(** ** Create, read back, and ids *)

Lemma get_person_by_id_valid (person_id : Z) (db : Database) (row : Row) :
  Sql.select_by_id person_id (people_table db) = Some row ->
  row_valid row ->
  people.get_person_by_id person_id db = Success HTTP_200_OK (Person_of_row row).
Proof.
  intros Hsel Hv. unfold people.get_person_by_id.
  now rewrite Hsel, (Person_from_row_valid _ Hv).
Qed.

(** X2.  A body whose name, role and department each hold 1 to 100
    characters, not all white space, and whose status is the value of a
    member, is accepted by [POST /people]: the answer is 201 with a person
    that carries the next row id, each text field stripped of the white
    space at its ends, the member, and the one clock reading as both
    [created_at] and [updated_at]; the row is appended to the table, and
    [GET /people/{id}] on the new id answers 200 with the same person. *)
Theorem create_trims_and_round_trips
    (current_time : datetime) (body : CreateBody) (db : Database)
    (s : StaffingStatus) :
  acceptable_text (body_name body) ->
  acceptable_text (body_role body) ->
  acceptable_text (body_department body) ->
  StaffingStatus_of_value (body_staffing_status body) = Some s ->
  let row := mkRow (Sql.new_rowid db) (Py.strip (body_name body))
                   (Py.strip (body_role body))
                   (Py.strip (body_department body)) s
                   (isoformat current_time) current_time in
  let db' := mkDatabase (people_table db ++ [row]) (Sql.new_rowid db) in
  people.POST_people current_time body db
  = (Success HTTP_201_CREATED (Person_of_row row), db') /\
  people.get_person_by_id (Sql.new_rowid db) db'
  = Success HTTP_200_OK (Person_of_row row).
Proof.
  intros Hn Hr Hd Hs row db'.
  apply acceptable_text_field in Hn, Hr, Hd.
  assert (Hv : PersonCreate_validate body
               = Some (mkPersonCreate (Py.strip (body_name body))
                                      (Py.strip (body_role body))
                                      (Py.strip (body_department body)) s)).
  { unfold PersonCreate_validate. now rewrite Hn, Hr, Hd, Hs. }
  pose proof (PersonCreate_validate_ok _ _ Hv) as Hok.
  split.
  - unfold people.POST_people. rewrite Hv.
    now rewrite (router_create_person_ok _ _ _ Hok).
  - apply get_person_by_id_valid; [|exact Hok].
    subst db'. cbn [people_table].
    rewrite select_by_id_app, select_new_rowid.
    unfold Sql.select_by_id. subst row. cbn [find row_id].
    now rewrite Z.eqb_refl.
Qed.

Lemma create_trims_and_round_trips_witness :
  acceptable_text (body_name padded_body) /\
  acceptable_text (body_role padded_body) /\
  acceptable_text (body_department padded_body) /\
  StaffingStatus_of_value (body_staffing_status padded_body)
  = Some AVAILABLE /\
  people.POST_people 500 padded_body example_db
  = (Success HTTP_201_CREATED
       (mkPerson 4 "Ann Lee" "Engineer" "Eng" AVAILABLE 500 500),
     mkDatabase
       (example_rows
        ++ [mkRow 4 "Ann Lee" "Engineer" "Eng" AVAILABLE (isoformat 500) 500])
       4) /\
  people.get_person_by_id 4
    (mkDatabase
       (example_rows
        ++ [mkRow 4 "Ann Lee" "Engineer" "Eng" AVAILABLE (isoformat 500) 500])
       4)
  = Success HTTP_200_OK
      (mkPerson 4 "Ann Lee" "Engineer" "Eng" AVAILABLE 500 500).
Proof.
  assert (H1 : acceptable_text (body_name padded_body))
    by (split; [simpl; lia | reflexivity]).
  assert (H2 : acceptable_text (body_role padded_body))
    by (split; [simpl; lia | reflexivity]).
  assert (H3 : acceptable_text (body_department padded_body))
    by (split; [simpl; lia | reflexivity]).
  split; [exact H1|]. split; [exact H2|]. split; [exact H3|].
  split; [reflexivity|].
  exact (create_trims_and_round_trips 500 padded_body example_db AVAILABLE
           H1 H2 H3 eq_refl).
Defined.

(** X3.  [create_person] of the router, on a validated request, hands out
    an id that is larger than the id of every stored row and larger than
    the AUTOINCREMENT counter, which it then sets to that id; the table
    grows by one row, and every other id selects, and is answered by
    [GET /people/{id}] with, what it was before. *)
Theorem create_takes_fresh_id_and_keeps_rows
    (current_time : datetime) (person_data : PersonCreate) (db : Database) :
  PersonCreate_ok person_data ->
  let new_id := Sql.new_rowid db in
  let db' := snd (people.create_person current_time person_data db) in
  (exists person,
     fst (people.create_person current_time person_data db)
     = Success HTTP_201_CREATED person /\ id person = new_id) /\
  Forall (fun r => row_id r < new_id) (people_table db) /\
  sqlite_sequence db < new_id /\
  sqlite_sequence db' = new_id /\
  List.length (people_table db') = S (List.length (people_table db)) /\
  (forall other, other <> new_id ->
     Sql.select_by_id other (people_table db')
     = Sql.select_by_id other (people_table db) /\
     people.get_person_by_id other db' = people.get_person_by_id other db).
Proof.
  intros Hok new_id db'. subst new_id db'.
  rewrite (router_create_person_ok _ _ _ Hok). cbn [fst snd].
  split; [eexists; split; reflexivity|].
  split; [apply new_rowid_fresh|].
  split; [unfold Sql.new_rowid; lia|].
  split; [reflexivity|].
  split; [cbn [people_table]; rewrite length_app; simpl; lia|].
  intros other Hother.
  assert (Hsel : Sql.select_by_id other
                   (people_table db ++
                    [mkRow (Sql.new_rowid db) (pc_name person_data)
                           (pc_role person_data) (pc_department person_data)
                           (pc_staffing_status person_data)
                           (isoformat current_time) current_time])
                 = Sql.select_by_id other (people_table db)).
  { rewrite select_by_id_app.
    destruct (Sql.select_by_id other (people_table db)); [reflexivity|].
    unfold Sql.select_by_id. cbn [find row_id].
    destruct (Z.eqb_spec (Sql.new_rowid db) other); [congruence|reflexivity]. }
  split; [exact Hsel|].
  unfold people.get_person_by_id. cbn [people_table]. now rewrite Hsel.
Qed.

Lemma example_PersonCreate_ok :
  PersonCreate_ok ann_lee /\ PersonCreate_ok raj_rao.
Proof. repeat split. Qed.

Lemma create_takes_fresh_id_and_keeps_rows_witness :
  PersonCreate_ok ann_lee /\
  people.create_person 500 ann_lee example_db
  = (Success HTTP_201_CREATED
       (mkPerson 4 "Ann Lee" "Engineer" "Eng" AVAILABLE 500 500),
     mkDatabase
       (example_rows
        ++ [mkRow 4 "Ann Lee" "Engineer" "Eng" AVAILABLE (isoformat 500) 500])
       4) /\
  Forall (fun r => row_id r < Sql.new_rowid example_db)
         (people_table example_db) /\
  sqlite_sequence example_db < Sql.new_rowid example_db /\
  List.length
    (people_table (snd (people.create_person 500 ann_lee example_db)))
  = S (List.length (people_table example_db)).
Proof.
  split; [exact (proj1 example_PersonCreate_ok)|].
  split; [reflexivity|].
  destruct (create_takes_fresh_id_and_keeps_rows
              500 ann_lee example_db (proj1 example_PersonCreate_ok))
    as (_ & Hfresh & Hseq & _ & Hlen & _).
  split; [exact Hfresh|]. split; [exact Hseq | exact Hlen].
Defined.

Lemma filter_all_true {A : Type} (p : A -> bool) (l : list A) :
  Forall (fun x => p x = true) l -> filter p l = l.
Proof.
  induction 1 as [|x l Hx _ IH]; simpl; [reflexivity|].
  now rewrite Hx, IH.
Qed.

Lemma delete_new_row (n r d : string) (s : StaffingStatus) (c u : IsoText)
    (db : Database) :
  Sql.delete_by_id (Sql.new_rowid db) (snd (Sql.insert n r d s c u db))
  = mkDatabase (people_table db) (Sql.new_rowid db).
Proof.
  unfold Sql.delete_by_id, Sql.insert. cbn [snd people_table sqlite_sequence].
  f_equal. rewrite filter_app. cbn [filter row_id].
  rewrite Z.eqb_refl. cbn [negb]. rewrite app_nil_r.
  apply filter_all_true.
  eapply Forall_impl; [|apply new_rowid_fresh]. cbn beta. intros x Hx.
  destruct (Z.eqb_spec (row_id x) (Sql.new_rowid db)); [lia|reflexivity].
Qed.

(** X4.  The id of a deleted person is not handed out again.  After
    [create_person] and [delete_person] of the new id, both of the router,
    the table holds the rows it held before, and the next [create_person]
    answers 201 with a person whose id is larger than the deleted one. *)
Theorem deleted_id_is_not_reused
    (time_1 time_2 : datetime) (first second : PersonCreate)
    (db : Database) :
  PersonCreate_ok first -> PersonCreate_ok second ->
  let id_1 := Sql.new_rowid db in
  let db_1 := snd (people.create_person time_1 first db) in
  let db_2 := snd (people.delete_person id_1 db_1) in
  (exists deleted,
     fst (people.delete_person id_1 db_1) = Success HTTP_200_OK deleted /\
     id deleted = id_1) /\
  people_table db_2 = people_table db /\
  exists person,
    fst (people.create_person time_2 second db_2)
    = Success HTTP_201_CREATED person /\
    id_1 < id person.
Proof.
  intros H1 H2 id_1 db_1 db_2. subst id_1 db_1 db_2.
  rewrite (router_create_person_ok _ _ _ H1). cbn [snd].
  set (row := mkRow (Sql.new_rowid db) (pc_name first) (pc_role first)
                    (pc_department first) (pc_staffing_status first)
                    (isoformat time_1) time_1).
  assert (Hsel : Sql.select_by_id (Sql.new_rowid db) (people_table db ++ [row])
                 = Some row).
  { rewrite select_by_id_app, select_new_rowid.
    unfold Sql.select_by_id. cbn [find row row_id]. now rewrite Z.eqb_refl. }
  assert (Hdel : people.delete_person (Sql.new_rowid db)
                   (mkDatabase (people_table db ++ [row]) (Sql.new_rowid db))
                 = (Success HTTP_200_OK (Person_of_row row),
                    mkDatabase (people_table db) (Sql.new_rowid db))).
  { unfold people.delete_person. cbn [people_table]. rewrite Hsel.
    rewrite (Person_from_row_valid row H1). f_equal.
    exact (delete_new_row (pc_name first) (pc_role first)
             (pc_department first) (pc_staffing_status first)
             (isoformat time_1) (isoformat time_1) db). }
  rewrite Hdel. cbn [fst snd people_table].
  split; [eexists; split; reflexivity|]. split; [reflexivity|].
  rewrite (router_create_person_ok _ _ _ H2). cbn [fst].
  eexists. split; [reflexivity|].
  cbn [Person_of_row id row_id]. unfold Sql.new_rowid at 2.
  cbn [sqlite_sequence]. lia.
Qed.

Lemma deleted_id_is_not_reused_witness :
  PersonCreate_ok ann_lee /\ PersonCreate_ok raj_rao /\
  Sql.new_rowid example_db = 4 /\
  people_table
    (snd (people.delete_person 4
            (snd (people.create_person 500 ann_lee example_db))))
  = people_table example_db /\
  fst (people.create_person 600 raj_rao
         (snd (people.delete_person 4
                 (snd (people.create_person 500 ann_lee example_db)))))
  = Success HTTP_201_CREATED
      (mkPerson 5 "Raj Rao" "Designer" "Product" BENCH 600 600) /\
  exists person,
    fst (people.create_person 600 raj_rao
           (snd (people.delete_person 4
                   (snd (people.create_person 500 ann_lee example_db)))))
    = Success HTTP_201_CREATED person /\
    4 < id person.
Proof.
  split; [exact (proj1 example_PersonCreate_ok)|].
  split; [exact (proj2 example_PersonCreate_ok)|].
  split; [reflexivity|]. split; [reflexivity|]. split; [reflexivity|].
  exact (proj2 (proj2 (deleted_id_is_not_reused
                         500 600 ann_lee raj_rao example_db
                         (proj1 example_PersonCreate_ok)
                         (proj2 example_PersonCreate_ok)))).
Defined.

(** ** The primary key *)

Section PrimaryKey.

Lemma ids_after_update (sets : list Sql.Assignment) (i : Z) (db : Database) :
  map row_id (people_table (Sql.update_by_id sets i db))
  = map row_id (people_table db).
Proof.
  unfold Sql.update_by_id. cbn [people_table]. rewrite map_map.
  apply map_ext. intros r.
  destruct (row_id r =? i); [apply fold_assign_id | reflexivity].
Qed.

(** Selecting rows keeps their ids distinct. *)
Lemma distinct_ids_of_selection (keep : Row -> bool) (rows : list Row) :
  NoDup (map row_id rows) -> NoDup (map row_id (filter keep rows)).
Proof.
  induction rows as [|r rows IH]; simpl; intros Hnd; [constructor|].
  inversion Hnd as [|? ? Hr Hrows]; subst.
  destruct (keep r); simpl; [|auto].
  constructor; [|auto].
  intros Hin. apply Hr. apply in_map_iff in Hin as (y & Hy & Hin).
  apply filter_In in Hin as [Hin _]. apply in_map_iff. now exists y.
Qed.

Lemma ids_unique_after_insert (n r d : string) (s : StaffingStatus)
    (c u : IsoText) (db : Database) :
  ids_unique db -> ids_unique (snd (Sql.insert n r d s c u db)).
Proof.
  unfold ids_unique, Sql.insert. cbn [snd people_table]. intros H.
  rewrite map_app. cbn [map row_id].
  eapply Permutation_NoDup; [apply Permutation_cons_append|].
  constructor; [|exact H].
  intros Hin. apply in_map_iff in Hin as (x & Hx & Hin).
  pose proof (new_rowid_fresh db) as Hf. rewrite Forall_forall in Hf.
  specialize (Hf x Hin). lia.
Qed.

Lemma length_after_delete (i : Z) (rows : list Row) (row : Row) :
  NoDup (map row_id rows) -> In row rows -> row_id row = i ->
  S (List.length (filter (fun r => negb (row_id r =? i)) rows))
  = List.length rows.
Proof.
  induction rows as [|x rows IH]; simpl; intros Hnd Hin Hid; [contradiction|].
  inversion Hnd as [|? ? Hx Hrows]; subst.
  destruct (Z.eqb_spec (row_id x) (row_id row)) as [Heq|Hne]; simpl.
  - f_equal. f_equal. apply filter_all_true.
    apply Forall_forall. intros y Hy.
    destruct (Z.eqb_spec (row_id y) (row_id row)) as [Hy'|]; [|reflexivity].
    exfalso. apply Hx. rewrite Heq, <- Hy'. now apply in_map.
  - f_equal. destruct Hin as [->|Hin]; [contradiction|]. now apply IH.
Qed.

Lemma select_by_id_unique (i : Z) (rows : list Row) (row r : Row) :
  NoDup (map row_id rows) ->
  Sql.select_by_id i rows = Some row -> In r rows -> row_id r = i ->
  r = row.
Proof.
  unfold Sql.select_by_id.
  induction rows as [|x rows IH]; simpl; intros Hnd Hsel Hin Hid;
    [contradiction|].
  inversion Hnd as [|? ? Hx Hrows]; subst.
  destruct (Z.eqb_spec (row_id x) (row_id r)) as [Heq|Hne].
  - injection Hsel as <-. destruct Hin as [Hin|Hin]; [now symmetry|].
    exfalso. apply Hx. rewrite Heq. now apply in_map.
  - destruct Hin as [->|Hin]; [contradiction|]. now apply IH.
Qed.

End PrimaryKey.

Lemma example_ids_unique : ids_unique example_db.
Proof.
  unfold ids_unique. simpl.
  repeat (constructor; [simpl; intuition discriminate|]). constructor.
Qed.

(** X5.  No route makes two rows share an id: when the ids of the table
    are pairwise distinct they are so after [POST /people],
    [PUT /people/{id}] and [DELETE /people/{id}], whatever the request and
    its outcome.  On such a table the row that a lookup by id finds is the
    only row with that id, and a successful delete shortens the table by
    exactly one row. *)
Theorem routes_keep_ids_unique (db : Database) :
  ids_unique db ->
  (forall current_time body,
     ids_unique (snd (people.POST_people current_time body db))) /\
  (forall now person_id body,
     ids_unique (snd (people.PUT_people now person_id body db))) /\
  (forall person_id,
     ids_unique (snd (people.delete_person person_id db))) /\
  (forall person_id row,
     Sql.select_by_id person_id (people_table db) = Some row ->
     (forall r, In r (people_table db) -> row_id r = person_id -> r = row) /\
     (row_valid row ->
      S (List.length
           (people_table (snd (people.delete_person person_id db))))
      = List.length (people_table db))).
Proof.
  intros Hu. split; [|split; [|split]].
  - intros current_time body. unfold people.POST_people.
    destruct (PersonCreate_validate body) as [pd|] eqn:Hv; [|exact Hu].
    rewrite (router_create_person_ok _ _ _ (PersonCreate_validate_ok _ _ Hv)).
    exact (ids_unique_after_insert (pc_name pd) (pc_role pd)
             (pc_department pd) (pc_staffing_status pd)
             (isoformat current_time) (isoformat current_time) db Hu).
  - intros now person_id body. unfold people.PUT_people.
    destruct (PersonUpdate_validate body) as [pd|]; [|exact Hu].
    destruct (Sql.select_by_id person_id (people_table db)) as [row|] eqn:Hsel.
    + destruct (supplies_nothing_dec pd) as [Hno|Hsome].
      * now rewrite (router_update_person_rejected _ _ _ _ _ Hsel Hno).
      * rewrite (router_update_person_applied _ _ _ _ _ Hsel Hsome).
        cbn [snd]. unfold ids_unique. now rewrite ids_after_update.
    + unfold people.update_person. now rewrite Hsel.
  - intros person_id. unfold people.delete_person.
    destruct (Sql.select_by_id person_id (people_table db)); [|exact Hu].
    destruct (Person_from_row r); [|exact Hu].
    cbn [snd]. unfold ids_unique, Sql.delete_by_id. cbn [people_table].
    now apply distinct_ids_of_selection.
  - intros person_id row Hsel. split.
    + intros r Hin Hid. eapply select_by_id_unique; eassumption.
    + intros Hv. unfold people.delete_person.
      rewrite Hsel, (Person_from_row_valid _ Hv). cbn [snd].
      unfold Sql.delete_by_id. cbn [people_table].
      apply (length_after_delete person_id _ row Hu).
      * apply find_some in Hsel. apply Hsel.
      * eapply select_by_id_id; eassumption.
Qed.

Lemma routes_keep_ids_unique_witness :
  ids_unique example_db /\
  ids_unique (snd (people.POST_people 500 padded_body example_db)) /\
  ids_unique (snd (people.delete_person 2 example_db)) /\
  S (List.length (people_table (snd (people.delete_person 2 example_db))))
  = List.length (people_table example_db).
Proof.
  split; [exact example_ids_unique|].
  destruct (routes_keep_ids_unique example_db example_ids_unique)
    as (Hpost & _ & Hdel & Hone).
  split; [apply Hpost|]. split; [apply Hdel|].
  apply (proj2 (Hone 2 example_row_2 eq_refl)).
  repeat split.
Defined.

(** ** Update and delete, composed with the other routes *)

(** X6.  After an update of the router that supplies at least one field,
    on a valid row and with validated values, [GET /people/{id}] answers 200
    with the very person that the update answered, and [updated_at] of that
    person is the clock reading of the update. *)
Theorem update_then_get
    (now : datetime) (person_id : Z) (person_data : PersonUpdate)
    (db : Database) (row : Row) :
  Sql.select_by_id person_id (people_table db) = Some row ->
  row_valid row -> PersonUpdate_ok person_data ->
  ~ supplies_nothing person_data ->
  exists person db',
    people.update_person now person_id person_data db
    = (Success HTTP_200_OK person, db') /\
    people.get_person_by_id person_id db' = Success HTTP_200_OK person /\
    id person = person_id /\ updated_at person = now /\
    created_at person = fromisoformat (row_created_at row).
Proof.
  intros Hsel Hv Hok Hsome.
  rewrite (router_update_person_applied _ _ _ _ _ Hsel Hsome).
  pose proof (updated_row_valid (isoformat now) _ _ Hv Hok) as Hv'.
  rewrite (Person_from_row_valid _ Hv').
  eexists. eexists. split; [reflexivity|].
  split.
  - apply get_person_by_id_valid; [|exact Hv'].
    apply (select_updated _ _ _ _ Hsel).
  - rewrite assign_supplied_fields. cbn.
    split; [|split; reflexivity].
    eapply select_by_id_id; eassumption.
Qed.

Lemma example_update_ok :
  PersonUpdate_ok example_update /\ ~ supplies_nothing example_update /\
  PersonUpdate_ok staff_update /\ ~ supplies_nothing staff_update.
Proof.
  repeat split; try (intros v [= <-]; reflexivity); try discriminate;
    intros (? & ? & ? & ?); discriminate.
Qed.

Lemma example_row_2_valid : row_valid example_row_2.
Proof. repeat split. Qed.

Lemma update_then_get_witness :
  Sql.select_by_id 2 (people_table example_db) = Some example_row_2 /\
  row_valid example_row_2 /\ PersonUpdate_ok example_update /\
  fst (people.update_person 200 2 example_update example_db)
  = Success HTTP_200_OK
      (mkPerson 2 "Bob Chen" "Senior Frontend Developer" "Engineering"
                BENCH 100 200) /\
  exists person db',
    people.update_person 200 2 example_update example_db
    = (Success HTTP_200_OK person, db') /\
    people.get_person_by_id 2 db' = Success HTTP_200_OK person /\
    id person = 2 /\ updated_at person = 200 /\
    created_at person = fromisoformat (row_created_at example_row_2).
Proof.
  split; [reflexivity|]. split; [exact example_row_2_valid|].
  split; [exact (proj1 example_update_ok)|]. split; [reflexivity|].
  exact (update_then_get 200 2 example_update example_db example_row_2
           eq_refl example_row_2_valid (proj1 example_update_ok)
           (proj1 (proj2 example_update_ok))).
Defined.

Lemma assign_supplied_fields_twice (now_1 now_2 : IsoText)
    (pd : PersonUpdate) (r : Row) :
  fold_left Sql.assign
    (supplied_fields pd ++ [Sql.Set_updated_at now_2])%list
    (fold_left Sql.assign
       (supplied_fields pd ++ [Sql.Set_updated_at now_1])%list r)
  = fold_left Sql.assign
      (supplied_fields pd ++ [Sql.Set_updated_at now_2])%list r.
Proof.
  rewrite !assign_supplied_fields. cbn.
  destruct pd as [[n|] [ro|] [d|] [s|]]; reflexivity.
Qed.

(** X7.  Sending the same update twice is the same as sending it once at
    the later time: for an id that has a row and a request that supplies at
    least one field, the database after two calls of the router's
    [update_person], at clock readings [now_1] and then [now_2], is the
    database after the one call at [now_2], and the second call answers what
    that one call answers. *)
Theorem update_twice_is_update_once
    (now_1 now_2 : datetime) (person_id : Z) (person_data : PersonUpdate)
    (db : Database) (row : Row) :
  Sql.select_by_id person_id (people_table db) = Some row ->
  ~ supplies_nothing person_data ->
  people.update_person now_2 person_id person_data
    (snd (people.update_person now_1 person_id person_data db))
  = people.update_person now_2 person_id person_data db.
Proof.
  intros Hsel Hsome.
  rewrite (router_update_person_applied now_1 _ _ _ _ Hsel Hsome). cbn [snd].
  rewrite (router_update_person_applied now_2 _ _ _ _
             (select_updated _ _ _ _ Hsel) Hsome).
  rewrite (router_update_person_applied now_2 _ _ _ _ Hsel Hsome).
  rewrite assign_supplied_fields_twice. f_equal.
  unfold Sql.update_by_id. cbn [people_table sqlite_sequence]. f_equal.
  rewrite map_map. apply map_ext. intros r.
  destruct (Z.eqb_spec (row_id r) person_id) as [Hr|Hr].
  - rewrite fold_assign_id. apply Z.eqb_eq in Hr as ->.
    apply assign_supplied_fields_twice.
  - now apply Z.eqb_neq in Hr as ->.
Qed.

Lemma update_twice_is_update_once_witness :
  Sql.select_by_id 2 (people_table example_db) = Some example_row_2 /\
  people.update_person 300 2 example_update
    (snd (people.update_person 200 2 example_update example_db))
  = people.update_person 300 2 example_update example_db /\
  fst (people.update_person 300 2 example_update example_db)
  = Success HTTP_200_OK
      (mkPerson 2 "Bob Chen" "Senior Frontend Developer" "Engineering"
                BENCH 100 300).
Proof.
  split; [reflexivity|]. split; [|reflexivity].
  exact (update_twice_is_update_once 200 300 2 example_update example_db
           example_row_2 eq_refl (proj1 (proj2 example_update_ok))).
Defined.

(** X8.  A deleted person stays deleted.  After a successful
    [delete_person] of the router, [get_person_by_id], [update_person] and
    [delete_person] on the same id all answer 404, the latter two leave the
    database as the delete left it, and [PeopleService.get_person_by_id]
    returns [None]. *)
Theorem deleted_person_is_gone
    (person_id : Z) (db : Database) (deleted : Person) :
  fst (people.delete_person person_id db) = Success HTTP_200_OK deleted ->
  let db' := snd (people.delete_person person_id db) in
  people.get_person_by_id person_id db' = HTTPException HTTP_404_NOT_FOUND /\
  (forall now person_data,
     people.update_person now person_id person_data db'
     = (HTTPException HTTP_404_NOT_FOUND, db')) /\
  people.delete_person person_id db'
  = (HTTPException HTTP_404_NOT_FOUND, db') /\
  PeopleService.get_person_by_id person_id db' = Returns None.
Proof.
  unfold people.delete_person at 1 2.
  destruct (Sql.select_by_id person_id (people_table db)) as [row|] eqn:Hsel;
    [|discriminate].
  destruct (Person_from_row row) as [p|]; [|discriminate].
  cbn [fst snd]. intros _.
  set (db' := Sql.delete_by_id person_id db).
  assert (Hgone : Sql.select_by_id person_id (people_table db') = None).
  { subst db'. now rewrite select_after_delete, Z.eqb_refl. }
  unfold people.get_person_by_id, people.update_person,
    people.delete_person, PeopleService.get_person_by_id.
  rewrite Hgone. repeat split.
Qed.

Lemma deleted_person_is_gone_witness :
  fst (people.delete_person 2 example_db)
  = Success HTTP_200_OK (Person_of_row example_row_2) /\
  people.get_person_by_id 2 (snd (people.delete_person 2 example_db))
  = HTTPException HTTP_404_NOT_FOUND /\
  people.delete_person 2 (snd (people.delete_person 2 example_db))
  = (HTTPException HTTP_404_NOT_FOUND,
     snd (people.delete_person 2 example_db)).
Proof.
  split; [reflexivity|].
  destruct (deleted_person_is_gone 2 example_db (Person_of_row example_row_2)
              eq_refl) as (Hget & _ & Hdel & _).
  split; [exact Hget | exact Hdel].
Defined.

(** X9.  The body of [PUT /people/{id}] is validated before the row is
    looked up: when a supplied name, role or department is empty, white
    space only or longer than 100 characters, or a supplied status is none
    of the three values, the request is rejected by validation and the
    database is left as it was, whether or not a row has the id. *)
Theorem update_body_is_validated_before_lookup
    (now : datetime) (person_id : Z) (body : UpdateBody) (db : Database) :
  (exists v, (ubody_name body = Some v \/ ubody_role body = Some v \/
              ubody_department body = Some v) /\ invalid_text v) \/
  (exists v, ubody_staffing_status body = Some v /\ unsupported_status v) ->
  people.PUT_people now person_id body db = (RequestValidationError, db).
Proof.
  intros H. unfold people.PUT_people.
  assert (Hv : PersonUpdate_validate body = None).
  { unfold PersonUpdate_validate, optional_text_field, optional_status.
    destruct H as [(v & [H | [H | H]] & Hbad) | (v & H & Hbad)]; rewrite H.
    - now rewrite (text_field_invalid _ Hbad).
    - rewrite (text_field_invalid _ Hbad).
      destruct (ubody_name body) as [n|]; [destruct (text_field n)|];
        reflexivity.
    - rewrite (text_field_invalid _ Hbad).
      destruct (ubody_name body) as [n|]; [destruct (text_field n)|];
        (destruct (ubody_role body) as [r|]; [destruct (text_field r)|]);
        reflexivity.
    - rewrite (StaffingStatus_of_value_unsupported _ Hbad).
      destruct (ubody_name body) as [n|]; [destruct (text_field n)|];
        (destruct (ubody_role body) as [r|]; [destruct (text_field r)|]);
        (destruct (ubody_department body) as [d|];
         [destruct (text_field d)|]);
        reflexivity. }
  now rewrite Hv.
Qed.

Lemma update_body_is_validated_before_lookup_witness :
  Sql.select_by_id 9 (people_table example_db) = None /\
  invalid_text "   " /\
  people.PUT_people 200 9 (mkUpdateBody None (Some "   ") None None)
                    example_db
  = (RequestValidationError, example_db) /\
  unsupported_status "vacation" /\
  people.PUT_people 200 2 (mkUpdateBody None None None (Some "vacation"))
                    example_db
  = (RequestValidationError, example_db).
Proof.
  assert (H1 : invalid_text "   ") by (right; left; reflexivity).
  assert (H2 : unsupported_status "vacation")
    by (repeat split; discriminate).
  split; [reflexivity|]. split; [exact H1|]. split; [|split; [exact H2|]].
  - apply update_body_is_validated_before_lookup.
    left. exists "   ". split; [right; left; reflexivity | exact H1].
  - apply update_body_is_validated_before_lookup.
    right. exists "vacation". split; [reflexivity | exact H2].
Defined.

(** ** The list and the beach after a change *)

Section Lists.

Lemma created_at_of_rows (rows : list Row) :
  map created_at (map Person_of_row rows)
  = map (fun r => fromisoformat (row_created_at r)) rows.
Proof. rewrite map_map. now apply map_ext. Qed.

Lemma ordered_rows_valid (rows : list Row) :
  Forall row_valid rows ->
  Forall row_valid (Sql.order_by_created_at_desc rows).
Proof.
  intros H. apply Forall_forall. intros r Hr.
  apply (Permutation_in _ (order_by_perm _)) in Hr.
  rewrite Forall_forall in H. auto.
Qed.

Lemma router_get_all_people_valid (db : Database) :
  db_valid db ->
  people.get_all_people db
  = Success HTTP_200_OK
      (map Person_of_row (Sql.order_by_created_at_desc (people_table db)),
       Z.of_nat (List.length (people_table db))).
Proof.
  intros H. unfold people.get_all_people.
  rewrite (Persons_from_rows_valid _ (ordered_rows_valid _ H)).
  now rewrite length_map, order_by_length.
Qed.

(** A row whose text is greater than that of every row of the table comes
    first; a row written with [T] at an instant later than those of all
    rows is one. *)
Lemma order_by_newest (rows : list Row) (r : Row) :
  Forall (fun x => created_at_key x < created_at_key r) rows ->
  Sql.order_by_created_at_desc (rows ++ [r])
  = r :: Sql.order_by_created_at_desc rows.
Proof.
  induction 1 as [|x rows Hx _ IH]; simpl; [reflexivity|].
  rewrite IH. simpl. rewrite text_ltb_key.
  unfold created_at_key in Hx. now apply Z.ltb_lt in Hx as ->.
Qed.

Lemma written_with_T_one_separator (db : Database) :
  written_with_T db -> one_separator (people_table db).
Proof.
  unfold written_with_T, one_separator. rewrite Forall_forall.
  intros H r r' Hr Hr'. now rewrite (H r Hr), (H r' Hr').
Qed.

Lemma order_by_newest_T (rows : list Row) (r : Row) (now : datetime) :
  row_created_at r = isoformat now ->
  Forall (fun x => fromisoformat (row_created_at x) < now) rows ->
  Sql.order_by_created_at_desc (rows ++ [r])
  = r :: Sql.order_by_created_at_desc rows.
Proof.
  intros Hr H. apply order_by_newest.
  eapply Forall_impl; [|exact H]. intros x Hx.
  unfold created_at_key. rewrite Hr. now apply collation_key_later_T.
Qed.

End Lists.

(** X10.  On a table of valid rows [GET /people] answers 200 with one
    person for each row of the table and nothing else, and with the number
    of rows as [total_count].  The people are the rows read in descending
    order of their [created_at] texts; they are in descending order of
    [created_at] when all texts of the table have the same separator, as
    they have on a table in which every text was written with [T]. *)
Theorem list_route_returns_every_person (db : Database) :
  db_valid db ->
  exists people rows,
    people.get_all_people db
    = Success HTTP_200_OK (people, Z.of_nat (List.length (people_table db)))
    /\ Permutation people (map Person_of_row (people_table db))
    /\ List.length people = List.length (people_table db)
    /\ Permutation rows (people_table db)
    /\ people = map Person_of_row rows
    /\ descending_text (map row_created_at rows)
    /\ (one_separator (people_table db) -> descending (map created_at people))
    /\ (written_with_T db -> descending (map created_at people)).
Proof.
  intros H. eexists. eexists.
  split; [now apply router_get_all_people_valid|].
  split; [apply Permutation_map, order_by_perm|].
  split; [now rewrite length_map, order_by_length|].
  split; [apply order_by_perm|]. split; [reflexivity|].
  split; [apply order_by_sorted_text|].
  assert (Hdesc : one_separator (people_table db) ->
                  descending
                    (map created_at
                         (map Person_of_row
                              (Sql.order_by_created_at_desc
                                 (people_table db))))).
  { intros Hsep. rewrite created_at_of_rows.
    now apply order_by_sorted_instants. }
  split; [exact Hdesc|].
  intros HT. now apply Hdesc, written_with_T_one_separator.
Qed.

Lemma list_route_returns_every_person_witness :
  db_valid example_db /\
  written_with_T example_db /\
  people.get_all_people example_db
  = Success HTTP_200_OK
      ([mkPerson 3 "Carol Martinez" "DevOps Engineer" "Engineering"
                 AVAILABLE 120 120;
        mkPerson 1 "Alice Johnson" "Senior Software Engineer" "Engineering"
                 STAFFED 100 100;
        mkPerson 2 "Bob Chen" "Frontend Developer" "Engineering"
                 BENCH 100 140], 3) /\
  descending [120; 100; 100] /\
  db_valid two_writers_db /\
  people.get_all_people two_writers_db
  = Success HTTP_200_OK
      ([mkPerson 1 "Raj Rao" "Designer" "Product" BENCH 500 500;
        mkPerson 2 "Ann Lee" "Engineer" "Eng" AVAILABLE 1000 1001], 2) /\
  descending_text [isoformat 500; adapt_datetime 1000] /\
  exists people rows,
    people.get_all_people example_db
    = Success HTTP_200_OK
        (people, Z.of_nat (List.length (people_table example_db)))
    /\ Permutation people (map Person_of_row (people_table example_db))
    /\ List.length people = List.length (people_table example_db)
    /\ Permutation rows (people_table example_db)
    /\ people = map Person_of_row rows
    /\ descending_text (map row_created_at rows).
Proof.
  assert (HT : written_with_T example_db) by (repeat constructor).
  assert (Hv : db_valid two_writers_db) by (repeat constructor).
  split; [exact example_db_valid|]. split; [exact HT|].
  split; [reflexivity|].
  split.
  - destruct (list_route_returns_every_person example_db example_db_valid)
      as (people & rows & Hget & _ & _ & _ & _ & _ & _ & Hdesc).
    injection Hget as <-. exact (Hdesc HT).
  - split; [exact Hv|]. split; [reflexivity|].
    split; [repeat constructor|].
    destruct (list_route_returns_every_person example_db example_db_valid)
      as (people & rows & H1 & H2 & H3 & H4 & H5 & H6 & _).
    exists people, rows. auto 10.
Defined.

(** X11.  Newest first.  When a person is created through the router at a
    clock reading later than the [created_at] of every stored row, on a
    table of valid rows, [GET /people] afterwards answers the new person
    followed by the list it answered before, and [total_count] is one
    more. *)
Theorem new_person_heads_the_list
    (current_time : datetime) (person_data : PersonCreate) (db : Database) :
  db_valid db -> PersonCreate_ok person_data ->
  Forall (fun r => fromisoformat (row_created_at r) < current_time)
         (people_table db) ->
  exists person people,
    fst (people.create_person current_time person_data db)
    = Success HTTP_201_CREATED person /\
    people.get_all_people db
    = Success HTTP_200_OK (people, Z.of_nat (List.length people)) /\
    people.get_all_people
      (snd (people.create_person current_time person_data db))
    = Success HTTP_200_OK
        (person :: people, Z.of_nat (List.length people) + 1).
Proof.
  intros Hdb Hok Hnew.
  rewrite (router_create_person_ok _ _ _ Hok). cbn [fst snd].
  eexists. eexists. split; [reflexivity|]. split.
  - rewrite (router_get_all_people_valid _ Hdb).
    now rewrite length_map, order_by_length.
  - rewrite router_get_all_people_valid.
    + cbn [people_table].
      rewrite (order_by_newest_T _ _ current_time)
        by (reflexivity || exact Hnew).
      rewrite length_app, length_map, order_by_length. cbn [map List.length].
      f_equal. f_equal. lia.
    + unfold db_valid. cbn [people_table]. apply Forall_app.
      split; [exact Hdb|]. constructor; [exact Hok | constructor].
Qed.

Lemma new_person_heads_the_list_witness :
  db_valid example_db /\ PersonCreate_ok ann_lee /\
  Forall (fun r => fromisoformat (row_created_at r) < 500)
         (people_table example_db) /\
  people.get_all_people (snd (people.create_person 500 ann_lee example_db))
  = Success HTTP_200_OK
      ([mkPerson 4 "Ann Lee" "Engineer" "Eng" AVAILABLE 500 500;
        mkPerson 3 "Carol Martinez" "DevOps Engineer" "Engineering"
                 AVAILABLE 120 120;
        mkPerson 1 "Alice Johnson" "Senior Software Engineer" "Engineering"
                 STAFFED 100 100;
        mkPerson 2 "Bob Chen" "Frontend Developer" "Engineering"
                 BENCH 100 140], 4) /\
  exists person people,
    fst (people.create_person 500 ann_lee example_db)
    = Success HTTP_201_CREATED person /\
    people.get_all_people example_db
    = Success HTTP_200_OK (people, Z.of_nat (List.length people)) /\
    people.get_all_people (snd (people.create_person 500 ann_lee example_db))
    = Success HTTP_200_OK
        (person :: people, Z.of_nat (List.length people) + 1).
Proof.
  assert (H : Forall (fun r => fromisoformat (row_created_at r) < 500)
                     (people_table example_db))
    by (repeat constructor).
  split; [exact example_db_valid|].
  split; [exact (proj1 example_PersonCreate_ok)|].
  split; [exact H|]. split; [reflexivity|].
  exact (new_person_heads_the_list 500 ann_lee example_db example_db_valid
           (proj1 example_PersonCreate_ok) H).
Defined.

Lemma status_in_bench_available_iff (r : Row) :
  Sql.status_in_bench_available r = true <-> row_staffing_status r <> STAFFED.
Proof.
  unfold Sql.status_in_bench_available.
  destruct (row_staffing_status r); simpl; split; congruence.
Qed.

(** X12.  The beach follows the status.  After an update of the router
    that supplies a status, on a table of valid rows and for an id that has
    a row, the beach list holds a person with that id exactly when the new
    status is not [staffed]. *)
Theorem beach_follows_status_update
    (now : datetime) (person_id : Z) (person_data : PersonUpdate)
    (db : Database) (row : Row) (s : StaffingStatus) :
  db_valid db ->
  Sql.select_by_id person_id (people_table db) = Some row ->
  PersonUpdate_ok person_data ->
  pu_staffing_status person_data = Some s ->
  exists people_on_beach,
    BeachService.get_people_on_beach
      (snd (people.update_person now person_id person_data db))
    = Returns people_on_beach /\
    ((exists p, In p people_on_beach /\ id p = person_id) <-> s <> STAFFED).
Proof.
  intros Hdb Hsel Hok Hs.
  assert (Hsome : ~ supplies_nothing person_data)
    by (intros (_ & _ & _ & H); congruence).
  rewrite (router_update_person_applied _ _ _ _ _ Hsel Hsome). cbn [snd].
  set (sets := (supplied_fields person_data
                ++ [Sql.Set_updated_at (isoformat now)])%list).
  pose proof (update_by_id_keeps_valid (isoformat now) person_id _ _ Hok Hdb)
    as Hdb'.
  fold sets in Hdb'.
  rewrite (get_people_on_beach_valid _ Hdb'). eexists. split; [reflexivity|].
  assert (Hstatus : forall r,
             row_staffing_status (fold_left Sql.assign sets r) = s).
  { intros r. subst sets. rewrite assign_supplied_fields. cbn.
    now rewrite Hs. }
  split.
  - intros (p & Hin & Hid).
    apply in_map_iff in Hin as (r' & <- & Hin).
    apply (Permutation_in _ (order_by_perm _)) in Hin.
    apply filter_In in Hin as [Hin Hq].
    unfold Sql.update_by_id in Hin. cbn [people_table] in Hin.
    apply in_map_iff in Hin as (r & <- & Hin).
    cbn [Person_of_row id] in Hid.
    destruct (Z.eqb_spec (row_id r) person_id) as [Hr|Hr];
      [|contradiction].
    apply status_in_bench_available_iff in Hq. now rewrite Hstatus in Hq.
  - intros Hne. exists (Person_of_row (fold_left Sql.assign sets row)).
    pose proof (select_by_id_id _ _ _ Hsel) as Hid.
    split; [|cbn [Person_of_row id]; now rewrite fold_assign_id].
    apply in_map.
    apply (Permutation_in _ (Permutation_sym (order_by_perm _))).
    apply filter_In. split.
    + unfold Sql.update_by_id. cbn [people_table]. apply in_map_iff.
      exists row. split; [|apply find_some in Hsel; apply Hsel].
      now apply Z.eqb_eq in Hid as ->.
    + apply status_in_bench_available_iff. now rewrite Hstatus.
Qed.

Lemma beach_follows_status_update_witness :
  db_valid example_db /\
  Sql.select_by_id 2 (people_table example_db) = Some example_row_2 /\
  PersonUpdate_ok staff_update /\
  pu_staffing_status staff_update = Some STAFFED /\
  BeachService.get_people_on_beach
    (snd (people.update_person 200 2 staff_update example_db))
  = Returns [mkPerson 3 "Carol Martinez" "DevOps Engineer" "Engineering"
                      AVAILABLE 120 120] /\
  exists people_on_beach,
    BeachService.get_people_on_beach
      (snd (people.update_person 200 2 staff_update example_db))
    = Returns people_on_beach /\
    ((exists p, In p people_on_beach /\ id p = 2) <-> STAFFED <> STAFFED).
Proof.
  split; [exact example_db_valid|]. split; [reflexivity|].
  split; [exact (proj1 (proj2 (proj2 example_update_ok)))|].
  split; [reflexivity|]. split; [reflexivity|].
  exact (beach_follows_status_update 200 2 staff_update example_db
           example_row_2 STAFFED example_db_valid eq_refl
           (proj1 (proj2 (proj2 example_update_ok))) eq_refl).
Defined.

(** ** The service layer *)

(** X13.  [PeopleService.create_person], on a validated request, returns a
    person with the requested name, role, department and status, the first
    clock reading as [created_at] and the second as [updated_at], and
    [PeopleService.get_person_by_id] on its id returns the same person; so
    [created_at] is never later than [updated_at] when the clock does not
    go back between the two readings. *)
Theorem service_create_round_trip
    (utcnow_1 utcnow_2 : datetime) (person_data : PersonCreate)
    (db : Database) :
  PersonCreate_ok person_data ->
  exists person db',
    PeopleService.create_person utcnow_1 utcnow_2 person_data db
    = (Returns (Some person), db') /\
    PeopleService.get_person_by_id (id person) db' = Returns (Some person) /\
    name person = pc_name person_data /\
    role person = pc_role person_data /\
    department person = pc_department person_data /\
    staffing_status person = pc_staffing_status person_data /\
    created_at person = utcnow_1 /\ updated_at person = utcnow_2 /\
    (utcnow_1 <= utcnow_2 -> created_at person <= updated_at person).
Proof.
  intros Hok. rewrite (service_create_person_ok _ _ _ _ Hok).
  eexists. eexists. split; [reflexivity|].
  cbn [Person_of_row id name role department staffing_status created_at
       updated_at row_id row_name row_role row_department
       row_staffing_status row_created_at row_updated_at].
  split; [|repeat split; auto].
  unfold PeopleService.get_person_by_id. cbn [people_table].
  rewrite select_by_id_app, select_new_rowid.
  unfold Sql.select_by_id. cbn [find row_id]. rewrite Z.eqb_refl.
  rewrite Person_from_row_valid; [reflexivity | exact Hok].
Qed.

Lemma service_create_round_trip_witness :
  PersonCreate_ok raj_rao /\
  PeopleService.create_person 700 703 raj_rao example_db
  = (Returns (Some (mkPerson 4 "Raj Rao" "Designer" "Product" BENCH 700 703)),
     mkDatabase
       (example_rows ++ [mkRow 4 "Raj Rao" "Designer" "Product" BENCH
                               (adapt_datetime 700) 703])
       4) /\
  exists person db',
    PeopleService.create_person 700 703 raj_rao example_db
    = (Returns (Some person), db') /\
    PeopleService.get_person_by_id (id person) db' = Returns (Some person) /\
    name person = pc_name raj_rao /\
    role person = pc_role raj_rao /\
    department person = pc_department raj_rao /\
    staffing_status person = pc_staffing_status raj_rao /\
    created_at person = 700 /\ updated_at person = 703 /\
    (700 <= 703 -> created_at person <= updated_at person).
Proof.
  split; [exact (proj2 example_PersonCreate_ok)|]. split; [reflexivity|].
  exact (service_create_round_trip 700 703 raj_rao example_db
           (proj2 example_PersonCreate_ok)).
Defined.

Section ServiceDelete.



End ServiceDelete.


Section ByStatus.

(** The row predicate of [WHERE staffing_status = ?]. *)
Lemma Persons_from_rows_select (q : Row -> bool) (q' : Person -> bool)
    (rows : list Row) (ps : list Person) :
  (forall r p, Person_from_row r = Some p -> q r = q' p) ->
  Persons_from_rows rows = Some ps ->
  Persons_from_rows (filter q rows) = Some (filter q' ps).
Proof.
  intros Hq. revert ps. induction rows as [|r rows IH]; intros ps H.
  - injection H as <-. reflexivity.
  - apply Persons_from_rows_cons in H as (p & ps' & -> & Hp & H).
    simpl. rewrite (Hq r p Hp).
    destruct (q' p); simpl; rewrite ?Hp, (IH ps' H); reflexivity.
Qed.

Lemma get_people_by_staffing_status_valid (status : string) (db : Database) :
  db_valid db ->
  PeopleService.get_people_by_staffing_status status db
  = Returns
      (map Person_of_row
         (Sql.order_by_created_at_desc
            (filter (fun r => String.eqb (StaffingStatus_value
                                            (row_staffing_status r)) status)
                    (people_table db)))).
Proof.
  intros H. unfold PeopleService.get_people_by_staffing_status.
  rewrite Persons_from_rows_valid; [reflexivity|].
  apply ordered_rows_valid. apply Forall_forall. intros r Hr.
  apply filter_In in Hr as [Hr _].
  unfold db_valid in H. rewrite Forall_forall in H. auto.
Qed.

Lemma count_by_status (rows : list Row) :
  List.length rows
  = (List.length
       (filter (fun r => String.eqb (StaffingStatus_value
                                       (row_staffing_status r)) "staffed")
               rows)
     + List.length
         (filter (fun r => String.eqb (StaffingStatus_value
                                         (row_staffing_status r)) "bench")
                 rows)
     + List.length
         (filter (fun r => String.eqb (StaffingStatus_value
                                         (row_staffing_status r)) "available")
                 rows))%nat /\
  List.length (filter Sql.status_in_bench_available rows)
  = (List.length
       (filter (fun r => String.eqb (StaffingStatus_value
                                       (row_staffing_status r)) "bench")
               rows)
     + List.length
         (filter (fun r => String.eqb (StaffingStatus_value
                                         (row_staffing_status r)) "available")
                 rows))%nat.
Proof.
  induction rows as [|r rows [IH1 IH2]]; [now split|].
  cbn [filter].
  set (staffed :=
         filter (fun r => String.eqb (StaffingStatus_value
                                        (row_staffing_status r)) "staffed")
                rows) in *.
  set (bench :=
         filter (fun r => String.eqb (StaffingStatus_value
                                        (row_staffing_status r)) "bench")
                rows) in *.
  set (available :=
         filter (fun r => String.eqb (StaffingStatus_value
                                        (row_staffing_status r)) "available")
                rows) in *.
  set (beach := filter Sql.status_in_bench_available rows) in *.
  clearbody staffed bench available beach.
  unfold Sql.status_in_bench_available.
  destruct (row_staffing_status r); simpl; split; lia.
Qed.

End ByStatus.

(** X15.  The counts add up.  On a table of valid rows
    [get_people_by_staffing_status] returns a list for each of the three
    status values; [get_people_count] is the sum of the three lengths,
    [BeachService.get_beach_count] is the sum of the lengths for [bench] and
    [available], and so the beach count never exceeds the people count. *)
Theorem people_counts_add_up (db : Database) :
  db_valid db ->
  exists staffed bench available,
    PeopleService.get_people_by_staffing_status "staffed" db
    = Returns staffed /\
    PeopleService.get_people_by_staffing_status "bench" db = Returns bench /\
    PeopleService.get_people_by_staffing_status "available" db
    = Returns available /\
    PeopleService.get_people_count db
    = Z.of_nat (List.length staffed) + Z.of_nat (List.length bench)
      + Z.of_nat (List.length available) /\
    BeachService.get_beach_count db
    = Z.of_nat (List.length bench) + Z.of_nat (List.length available) /\
    BeachService.get_beach_count db <= PeopleService.get_people_count db.
Proof.
  intros H.
  rewrite !(get_people_by_staffing_status_valid _ _ H).
  eexists. eexists. eexists.
  split; [reflexivity|]. split; [reflexivity|]. split; [reflexivity|].
  rewrite !length_map, !order_by_length.
  unfold PeopleService.get_people_count, BeachService.get_beach_count,
    Sql.count_where.
  destruct (count_by_status (people_table db)) as [H1 H2].
  rewrite (filter_all_true (fun _ : Row => true))
    by (apply Forall_forall; reflexivity).
  rewrite H2. rewrite H1 at 1 2. lia.
Qed.

Lemma people_counts_add_up_witness :
  db_valid example_db /\
  PeopleService.get_people_count example_db = 3 /\
  BeachService.get_beach_count example_db = 2 /\
  exists staffed bench available,
    PeopleService.get_people_by_staffing_status "staffed" example_db
    = Returns staffed /\
    PeopleService.get_people_by_staffing_status "bench" example_db
    = Returns bench /\
    PeopleService.get_people_by_staffing_status "available" example_db
    = Returns available /\
    PeopleService.get_people_count example_db
    = Z.of_nat (List.length staffed) + Z.of_nat (List.length bench)
      + Z.of_nat (List.length available) /\
    BeachService.get_beach_count example_db
    = Z.of_nat (List.length bench) + Z.of_nat (List.length available) /\
    BeachService.get_beach_count example_db
    <= PeopleService.get_people_count example_db.
Proof.
  split; [exact example_db_valid|]. split; [reflexivity|].
  split; [reflexivity|].
  exact (people_counts_add_up example_db example_db_valid).
Defined.

(** The person predicate that goes with [WHERE staffing_status = ?]. *)
Lemma status_test_agrees (status : string) (r : Row) (p : Person) :
  Person_from_row r = Some p ->
  String.eqb (StaffingStatus_value (row_staffing_status r)) status
  = String.eqb (StaffingStatus_value (staffing_status p)) status.
Proof.
  intros H. apply Person_from_row_fields in H as (_ & -> & _). reflexivity.
Qed.

(** X16.  Whenever [PeopleService.get_all_people] returns a list,
    [get_people_by_staffing_status] returns, for every text, the members of
    that list whose status value is the text, each as often as the full
    list holds it.  They are the rows of that status read in descending
    order of their [created_at] texts, and they are in descending order of
    [created_at] when all texts of the table have the same separator.  For
    a text that is none of [staffed], [bench], [available] the empty list is
    returned, whatever the table holds. *)
Theorem people_by_status_selects (status : string) (db : Database) :
  (forall people,
     PeopleService.get_all_people db = Returns people ->
     exists selected rows,
       PeopleService.get_people_by_staffing_status status db
       = Returns selected /\
       Permutation selected
         (filter (fun p => String.eqb (StaffingStatus_value
                                         (staffing_status p)) status)
                 people) /\
       Permutation rows
         (filter (fun r => String.eqb (StaffingStatus_value
                                         (row_staffing_status r)) status)
                 (people_table db)) /\
       Persons_from_rows rows = Some selected /\
       descending_text (map row_created_at rows) /\
       (one_separator (people_table db) ->
        descending (map created_at selected))) /\
  (unsupported_status status ->
   PeopleService.get_people_by_staffing_status status db = Returns []).
Proof.
  split.
  - intros people H. unfold PeopleService.get_all_people in H.
    destruct (Persons_from_rows _) as [ps|] eqn:Hps; [|discriminate].
    injection H as <-.
    pose proof (Persons_from_rows_select _ _ _ _
                  (status_test_agrees status) Hps) as Hf.
    rewrite filter_order_by in Hf.
    unfold PeopleService.get_people_by_staffing_status. rewrite Hf.
    eexists. eexists. split; [reflexivity|]. split; [reflexivity|].
    split; [apply order_by_perm|]. split; [exact Hf|].
    split; [apply order_by_sorted_text|].
    intros Hsep. rewrite (Persons_from_rows_created_at _ _ Hf).
    apply order_by_sorted_instants.
    intros x y Hx Hy. apply filter_In in Hx as [Hx _].
    apply filter_In in Hy as [Hy _]. now apply Hsep.
  - intros (H1 & H2 & H3).
    unfold PeopleService.get_people_by_staffing_status.
    replace (filter _ (people_table db)) with (@nil Row); [reflexivity|].
    symmetry. induction (people_table db) as [|r rows IH]; [reflexivity|].
    cbn [filter]. rewrite IH.
    destruct (row_staffing_status r); cbn [StaffingStatus_value].
    + destruct (String.eqb_spec "staffed" status); congruence.
    + destruct (String.eqb_spec "bench" status); congruence.
    + destruct (String.eqb_spec "available" status); congruence.
Qed.

Lemma people_by_status_selects_witness :
  PeopleService.get_all_people example_db
  = Returns [mkPerson 3 "Carol Martinez" "DevOps Engineer" "Engineering"
                      AVAILABLE 120 120;
             mkPerson 1 "Alice Johnson" "Senior Software Engineer"
                      "Engineering" STAFFED 100 100;
             mkPerson 2 "Bob Chen" "Frontend Developer" "Engineering"
                      BENCH 100 140] /\
  PeopleService.get_people_by_staffing_status "bench" example_db
  = Returns [mkPerson 2 "Bob Chen" "Frontend Developer" "Engineering"
                      BENCH 100 140] /\
  (exists selected rows,
     PeopleService.get_people_by_staffing_status "bench" example_db
     = Returns selected /\
     Persons_from_rows rows = Some selected /\
     descending_text (map row_created_at rows) /\
     descending (map created_at selected)) /\
  unsupported_status "Bench" /\
  PeopleService.get_people_by_staffing_status "Bench" example_db = Returns [].
Proof.
  assert (H : unsupported_status "Bench") by (repeat split; discriminate).
  assert (HT : written_with_T example_db) by (repeat constructor).
  split; [reflexivity|]. split; [reflexivity|]. split.
  - destruct (proj1 (people_by_status_selects "bench" example_db) _ eq_refl)
      as (selected & rows & Hsel & _ & _ & Hrows & Htext & Hdesc).
    exists selected, rows.
    split; [exact Hsel|]. split; [exact Hrows|]. split; [exact Htext|].
    apply Hdesc. now apply written_with_T_one_separator.
  - split; [exact H|].
    exact (proj2 (people_by_status_selects "Bench" example_db) H).
Defined.

(** Of the text bound for [updated_at] the table keeps the instant: two
    texts of the same instant leave the same row and the same table. *)
Lemma assign_same_instant (text text' : IsoText)
    (sets : list Sql.Assignment) (r : Row) :
  fromisoformat text = fromisoformat text' ->
  fold_left Sql.assign (sets ++ [Sql.Set_updated_at text])%list r
  = fold_left Sql.assign (sets ++ [Sql.Set_updated_at text'])%list r.
Proof.
  intros H. rewrite !fold_left_app. cbn [fold_left Sql.assign].
  now rewrite H.
Qed.

Lemma update_by_id_same_instant (text text' : IsoText)
    (sets : list Sql.Assignment) (person_id : Z) (db : Database) :
  fromisoformat text = fromisoformat text' ->
  Sql.update_by_id (sets ++ [Sql.Set_updated_at text])%list person_id db
  = Sql.update_by_id (sets ++ [Sql.Set_updated_at text'])%list person_id db.
Proof.
  intros H. unfold Sql.update_by_id. f_equal. apply map_ext. intros r.
  now rewrite (assign_same_instant text text' sets r H).
Qed.

(** X17.  The two update paths.  For an id whose row is valid and a
    validated request, at the same clock reading: when at least one field
    is supplied, [update_person] of the router and
    [PeopleService.update_person] leave the same database and answer the
    same person; when no field is supplied the router answers 400 and
    changes nothing, while the service rewrites [updated_at] and returns the
    person with the new [updated_at]. *)
Theorem update_paths_compared
    (now : datetime) (person_id : Z) (person_data : PersonUpdate)
    (db : Database) (row : Row) :
  Sql.select_by_id person_id (people_table db) = Some row ->
  row_valid row -> PersonUpdate_ok person_data ->
  (~ supplies_nothing person_data ->
   exists person db',
     people.update_person now person_id person_data db
     = (Success HTTP_200_OK person, db') /\
     PeopleService.update_person now person_id person_data db
     = (Returns (Some person), db')) /\
  (supplies_nothing person_data ->
   people.update_person now person_id person_data db
   = (HTTPException HTTP_400_BAD_REQUEST, db) /\
   PeopleService.update_person now person_id person_data db
   = (Returns (Some (mkPerson (row_id row) (row_name row) (row_role row)
                              (row_department row) (row_staffing_status row)
                              (fromisoformat (row_created_at row)) now)),
      Sql.update_by_id [Sql.Set_updated_at (adapt_datetime now)]
                       person_id db)).
Proof.
  intros Hsel Hv Hok.
  pose proof (updated_row_valid (adapt_datetime now) _ _ Hv Hok) as Hv'.
  pose proof (service_update_person_applied now _ person_data _ _ _ Hsel
                (Person_from_row_valid _ Hv)) as Hservice.
  cbv zeta in Hservice. rewrite (Person_from_row_valid _ Hv') in Hservice.
  assert (Hsame : fromisoformat (isoformat now)
                  = fromisoformat (adapt_datetime now)) by reflexivity.
  split.
  - intros Hsome.
    rewrite (router_update_person_applied _ _ _ _ _ Hsel Hsome).
    rewrite (assign_same_instant _ _ _ _ Hsame).
    rewrite (update_by_id_same_instant _ _ _ _ _ Hsame).
    rewrite (Person_from_row_valid _ Hv'), Hservice.
    eexists. eexists. split; reflexivity.
  - intros Hno.
    rewrite (router_update_person_rejected _ _ _ _ _ Hsel Hno).
    split; [reflexivity|]. rewrite Hservice.
    rewrite assign_supplied_fields.
    pose proof (proj2 (supplied_fields_nil person_data) Hno) as Hnil.
    destruct Hno as (Hn & Hr & Hd & Hs).
    rewrite Hnil, Hn, Hr, Hd, Hs. reflexivity.
Qed.

Lemma update_paths_compared_witness :
  Sql.select_by_id 2 (people_table example_db) = Some example_row_2 /\
  row_valid example_row_2 /\
  (PersonUpdate_ok example_update /\
   exists person db',
     people.update_person 200 2 example_update example_db
     = (Success HTTP_200_OK person, db') /\
     PeopleService.update_person 200 2 example_update example_db
     = (Returns (Some person), db')) /\
  (supplies_nothing empty_update /\
   people.update_person 200 2 empty_update example_db
   = (HTTPException HTTP_400_BAD_REQUEST, example_db) /\
   PeopleService.update_person 200 2 empty_update example_db
   = (Returns (Some (mkPerson 2 "Bob Chen" "Frontend Developer"
                              "Engineering" BENCH 100 200)),
      Sql.update_by_id [Sql.Set_updated_at (adapt_datetime 200)] 2
                       example_db)).
Proof.
  assert (Hempty : PersonUpdate_ok empty_update)
    by (repeat split; intros v [=]).
  assert (Hno : supplies_nothing empty_update) by (repeat split).
  split; [reflexivity|]. split; [exact example_row_2_valid|]. split.
  - split; [exact (proj1 example_update_ok)|].
    exact (proj1 (update_paths_compared 200 2 example_update example_db
                    example_row_2 eq_refl example_row_2_valid
                    (proj1 example_update_ok))
                 (proj1 (proj2 example_update_ok))).
  - split; [exact Hno|].
    exact (proj2 (update_paths_compared 200 2 empty_update example_db
                    example_row_2 eq_refl example_row_2_valid Hempty) Hno).
Defined.

(** ** Serving and listing documents *)

(** X18.  [get_document] answers 200 exactly for an allow-listed name whose
    path exists, is a regular file and resolves under the policies
    directory; the file served is then the one asked for and its media
    type is [text/markdown].  The only other answers are 400, 403 and
    404. *)
Theorem get_document_serves_allow_listed_markdown
    (fs : documents.FileSystem) (filename : string) :
  (forall response,
     fst (documents.get_document fs filename) = Success HTTP_200_OK response
     <->
     (documents.dict_mem filename documents.AVAILABLE_DOCUMENTS = true /\
      documents.path_exists fs filename = true /\
      documents.path_is_file fs filename = true /\
      documents.resolves_under_policies_dir fs filename = true /\
      response = documents.mkFileResponse filename "text/markdown")) /\
  In (status_code_of (fst (documents.get_document fs filename)))
     [HTTP_200_OK; HTTP_400_BAD_REQUEST; HTTP_403_FORBIDDEN;
      HTTP_404_NOT_FOUND].
Proof.
  unfold documents.get_document.
  destruct (documents.dict_mem filename documents.AVAILABLE_DOCUMENTS)
    eqn:Hd.
  - destruct (AVAILABLE_DOCUMENTS_pass_checks _ Hd) as [Ht He].
    rewrite Ht, He. cbn [negb].
    assert (Hm : Py.lower (documents.suffix filename) = ".md").
    { apply dict_mem_AVAILABLE_DOCUMENTS in Hd as [-> | [-> | ->]];
        reflexivity. }
    rewrite Hm.
    destruct (documents.path_exists fs filename),
             (documents.path_is_file fs filename),
             (documents.resolves_under_policies_dir fs filename);
      cbn [negb fst];
      (split; [|simpl; auto 10]); intros response;
      (split; [first [discriminate | intros [= <-]; repeat split]
              | intros (_ & H1 & H2 & H3 & ->);
                first [discriminate | reflexivity]]).
  - destruct (documents.path_traversal filename);
      [|destruct (Py.mem (Py.lower (documents.suffix filename))
                         documents.ALLOWED_EXTENSIONS)];
      cbn [negb fst];
      (split; [|simpl; auto 10]); intros response;
      (split; [discriminate | intros ([=] & _)]).
Qed.

Lemma get_document_serves_allow_listed_markdown_witness :
  documents.get_document plain_files "code-of-conduct.md"
  = (Success HTTP_200_OK
       (documents.mkFileResponse "code-of-conduct.md" "text/markdown"),
     [documents.Call_exists "code-of-conduct.md";
      documents.Call_is_file "code-of-conduct.md";
      documents.Call_resolve "code-of-conduct.md"]) /\
  documents.dict_mem "code-of-conduct.md" documents.AVAILABLE_DOCUMENTS
  = true /\
  documents.path_exists plain_files "code-of-conduct.md" = true /\
  documents.path_is_file plain_files "code-of-conduct.md" = true /\
  documents.resolves_under_policies_dir plain_files "code-of-conduct.md"
  = true /\
  documents.mkFileResponse "code-of-conduct.md" "text/markdown"
  = documents.mkFileResponse "code-of-conduct.md" "text/markdown".
Proof.
  split; [reflexivity|].
  exact (proj1 (proj1 (get_document_serves_allow_listed_markdown
                         plain_files "code-of-conduct.md") _) eq_refl).
Defined.

(** X19.  Neither [get_document] nor [get_document_info] touches the file
    system for a name that is not a key of the allow-list: every
    file-system call they make is about the requested file, and that file
    is allow-listed.  For a name off the allow-list their answers are the
    same on every file system. *)
Theorem documents_touch_only_allow_listed_files
    (fs : documents.FileSystem) (filename : string) :
  (forall c,
     In c (snd (documents.get_document fs filename)) \/
     In c (snd (documents.get_document_info fs filename)) ->
     call_filename c = filename /\
     documents.dict_mem filename documents.AVAILABLE_DOCUMENTS = true) /\
  (documents.dict_mem filename documents.AVAILABLE_DOCUMENTS = false ->
   forall fs',
     documents.get_document fs' filename
     = documents.get_document fs filename /\
     documents.get_document_info fs' filename
     = documents.get_document_info fs filename).
Proof.
  unfold documents.get_document, documents.get_document_info,
    documents.dict_mem.
  destruct (documents.path_traversal filename);
    [split; [intros c [[]|[]] | intros _ fs'; now split]|].
  destruct (documents.dict_get filename documents.AVAILABLE_DOCUMENTS)
    as [description|].
  - split; [|discriminate]. intros c Hc. split; [|reflexivity].
    destruct (Py.mem _ documents.ALLOWED_EXTENSIONS),
             (documents.path_exists fs filename),
             (documents.path_is_file fs filename),
             (documents.resolves_under_policies_dir fs filename),
             (documents.path_stat fs filename);
      cbn in Hc;
      repeat match goal with
        | H : _ \/ _ |- _ => destruct H
        | H : False |- _ => destruct H
        end; subst c; reflexivity.
  - split.
    + intros c Hc.
      destruct (Py.mem _ documents.ALLOWED_EXTENSIONS); cbn in Hc;
        destruct Hc as [[]|[]].
    + intros _ fs'. now destruct (Py.mem _ documents.ALLOWED_EXTENSIONS).
Qed.

Lemma documents_touch_only_allow_listed_files_witness :
  (In (documents.Call_is_file "security-policy.md")
      (snd (documents.get_document plain_files "security-policy.md")) /\
   call_filename (documents.Call_is_file "security-policy.md")
   = "security-policy.md" /\
   documents.dict_mem "security-policy.md" documents.AVAILABLE_DOCUMENTS
   = true) /\
  (documents.dict_mem "passwd.md" documents.AVAILABLE_DOCUMENTS = false /\
   documents.get_document links_to_outside "passwd.md"
   = documents.get_document plain_files "passwd.md" /\
   documents.get_document_info links_to_outside "passwd.md"
   = documents.get_document_info plain_files "passwd.md" /\
   snd (documents.get_document plain_files "passwd.md") = []).
Proof.
  split.
  - assert (H : In (documents.Call_is_file "security-policy.md")
                   (snd (documents.get_document plain_files
                                                "security-policy.md")))
      by (right; left; reflexivity).
    split; [exact H|].
    exact (proj1 (documents_touch_only_allow_listed_files
                    plain_files "security-policy.md") _ (or_introl H)).
  - split; [reflexivity|].
    destruct (proj2 (documents_touch_only_allow_listed_files
                       plain_files "passwd.md") eq_refl links_to_outside)
      as [Hget Hinfo].
    split; [exact Hget|]. split; [exact Hinfo | reflexivity].
Defined.

Lemma mem_In (x : string) (xs : list string) :
  Py.mem x xs = true <-> In x xs.
Proof.
  unfold Py.mem. rewrite existsb_exists. split.
  - intros (y & Hin & Heq). apply String.eqb_eq in Heq. now subst.
  - intros H. exists x. split; [exact H | apply String.eqb_refl].
Qed.

(** X20.  [list_available_documents] answers 500 when the policies
    directory does not exist.  Otherwise it answers 200 with exactly the
    entries of the allow-list whose name is an entry of the directory and a
    regular file there, each with its description: at most three, and never
    a name off the allow-list.  Each listed document whose path exists is
    answered 200 by [get_document_info]. *)
Theorem list_available_documents_lists_allow_listed_files
    (policies_dir : option (list string)) (fs : documents.FileSystem) :
  (policies_dir = None ->
   documents.list_available_documents policies_dir fs
   = HTTPException HTTP_500_INTERNAL_SERVER_ERROR) /\
  (forall entries,
     policies_dir = Some entries ->
     exists available_docs,
       documents.list_available_documents policies_dir fs
       = Success HTTP_200_OK available_docs /\
       (forall filename description,
          In (filename, description) available_docs <->
          In (filename, description) documents.AVAILABLE_DOCUMENTS /\
          In filename entries /\
          documents.path_is_file fs filename = true) /\
       (List.length available_docs <= 3)%nat /\
       (forall filename description,
          In (filename, description) available_docs ->
          documents.path_exists fs filename = true ->
          status_code_of (fst (documents.get_document_info fs filename))
          = HTTP_200_OK)).
Proof.
  split; [now intros ->|]. intros entries ->.
  unfold documents.list_available_documents.
  eexists. split; [reflexivity|].
  assert (Hlisted : forall filename description,
             In (filename, description)
                (filter
                   (fun kv =>
                      Py.mem (fst kv)
                        (filter
                           (fun name =>
                              documents.path_is_file fs name
                              && negb (String.eqb name ".gitkeep"))
                           entries))
                   documents.AVAILABLE_DOCUMENTS) <->
             In (filename, description) documents.AVAILABLE_DOCUMENTS /\
             In filename entries /\
             documents.path_is_file fs filename = true).
  { intros filename description.
    rewrite filter_In. cbn [fst]. rewrite mem_In, filter_In, andb_true_iff.
    split; [tauto|]. intros (Hin & He & Hf).
    repeat split; try assumption.
    destruct (String.eqb_spec filename ".gitkeep") as [->|]; [|reflexivity].
    exfalso. cbn in Hin.
    repeat destruct Hin as [[=]|Hin]. contradiction. }
  split; [exact Hlisted|]. split; [apply filter_length_le|].
  intros filename description Hin Hx.
  apply Hlisted in Hin as (Hin & _).
  assert (Hd : documents.dict_mem filename documents.AVAILABLE_DOCUMENTS
               = true).
  { apply dict_mem_AVAILABLE_DOCUMENTS. cbn in Hin.
    destruct Hin as [[= <- _]|[[= <- _]|[[= <- _]|[]]]]; auto. }
  unfold documents.get_document_info.
  destruct (AVAILABLE_DOCUMENTS_pass_checks _ Hd) as [-> _].
  unfold documents.dict_mem in Hd.
  destruct (documents.dict_get filename documents.AVAILABLE_DOCUMENTS);
    [|discriminate].
  rewrite Hx. cbn [negb]. now destruct (documents.path_stat fs filename).
Qed.

Lemma list_available_documents_lists_allow_listed_files_witness :
  documents.list_available_documents None example_dir
  = HTTPException HTTP_500_INTERNAL_SERVER_ERROR /\
  documents.list_available_documents (Some example_entries) example_dir
  = Success HTTP_200_OK
      [("employee-handbook.md",
        "Employee Handbook - Company policies and procedures");
       ("security-policy.md",
        "Security Policy - Information security guidelines and requirements")]
  /\
  exists available_docs,
    documents.list_available_documents (Some example_entries) example_dir
    = Success HTTP_200_OK available_docs /\
    (List.length available_docs <= 3)%nat.
Proof.
  split.
  - exact (proj1 (list_available_documents_lists_allow_listed_files
                    None example_dir) eq_refl).
  - split; [reflexivity|].
    destruct (proj2 (list_available_documents_lists_allow_listed_files
                       (Some example_entries) example_dir)
                    example_entries eq_refl)
      as (docs & Hdocs & _ & Hlen & _).
    exists docs. auto.
Defined.

(** ** Allowed origins *)

Section Origins.

Lemma contains_comma_cons (c : ascii) (s : string) :
  Py.contains "," (String c s) = false ->
  Ascii.eqb c ","%char = false /\ Py.contains "," s = false.
Proof.
  cbn [Py.contains]. intros H. apply orb_false_iff in H as [Hp Hs].
  split; [|exact Hs].
  destruct (Ascii.eqb_spec c ","%char) as [->|]; [|reflexivity].
  simpl in Hp. now destruct s.
Qed.

Lemma split_no_comma (s : string) :
  Py.contains "," s = false -> Py.split ","%char s = [s].
Proof.
  induction s as [|c s IH]; [reflexivity|]. intros H.
  apply contains_comma_cons in H as [Hc Hs].
  cbn [Py.split]. now rewrite Hc, (IH Hs).
Qed.

Lemma split_piece (s rest : string) :
  Py.contains "," s = false ->
  Py.split ","%char (s ++ "," ++ rest) = s :: Py.split ","%char rest.
Proof.
  induction s as [|c s IH]; [reflexivity|]. intros H.
  apply contains_comma_cons in H as [Hc Hs].
  cbn [append Py.split]. rewrite Hc.
  change (s ++ String "," rest)%string with (s ++ "," ++ rest)%string.
  now rewrite (IH Hs).
Qed.

Lemma split_join_comma (piece : string) (pieces : list string) :
  Forall (fun p => Py.contains "," p = false) (piece :: pieces) ->
  Py.split ","%char (join_comma (piece :: pieces)) = piece :: pieces.
Proof.
  revert piece. induction pieces as [|q pieces IH]; intros piece H.
  - inversion H; subst. now apply split_no_comma.
  - inversion H as [|? ? Hp Hrest]; subst.
    change (join_comma (piece :: q :: pieces))
      with (piece ++ "," ++ join_comma (q :: pieces))%string.
    rewrite (split_piece _ _ Hp). f_equal. now apply IH.
Qed.

End Origins.

(** X21.  The origins that the application allows always begin with the
    three local development origins.  With [ALLOWED_ORIGINS] unset or empty
    these are all.  When the variable holds pieces separated by commas, the
    first of them not empty, every piece is added, stripped of the white
    space at its ends, in order.  When the variable begins with a comma
    nothing is added, whatever follows the comma. *)
Theorem allowed_origins_from_environment :
  main.allowed_origins None
  = ["http://localhost:3000"; "http://127.0.0.1:3000";
     "http://localhost:3001"] /\
  main.allowed_origins (Some "") = main.allowed_origins None /\
  (forall rest,
     main.allowed_origins (Some ("," ++ rest)%string)
     = main.allowed_origins None) /\
  (forall piece pieces,
     Forall (fun p => Py.contains "," p = false) (piece :: pieces) ->
     piece <> "" ->
     main.allowed_origins (Some (join_comma (piece :: pieces)))
     = (main.allowed_origins None ++ map Py.strip (piece :: pieces))%list) /\
  (forall ALLOWED_ORIGINS,
     exists added,
       main.allowed_origins ALLOWED_ORIGINS
       = (main.allowed_origins None ++ added)%list /\
       Forall (fun origin => Py.strip origin = origin) added).
Proof.
  split; [reflexivity|]. split; [reflexivity|]. split; [reflexivity|].
  split.
  - intros piece pieces Hp Hne. unfold main.allowed_origins.
    rewrite (split_join_comma _ _ Hp).
    now destruct (String.eqb_spec piece "").
  - intros env. unfold main.allowed_origins.
    destruct (Py.split _ _) as [|first rest].
    + exists []. split; [reflexivity | constructor].
    + destruct (String.eqb first "").
      * exists []. split; [reflexivity | constructor].
      * eexists. split; [reflexivity|].
        apply Forall_forall. intros o Ho.
        apply in_map_iff in Ho as (x & <- & _). apply strip_idempotent.
Qed.

Lemma allowed_origins_from_environment_witness :
  Forall (fun p => Py.contains "," p = false)
         ["https://staffing.example.com"; " https://beach.example.com "] /\
  "https://staffing.example.com" <> "" /\
  main.allowed_origins
    (Some "https://staffing.example.com, https://beach.example.com ")
  = ["http://localhost:3000"; "http://127.0.0.1:3000";
     "http://localhost:3001"; "https://staffing.example.com";
     "https://beach.example.com"] /\
  main.allowed_origins (Some ",https://staffing.example.com")
  = ["http://localhost:3000"; "http://127.0.0.1:3000";
     "http://localhost:3001"].
Proof.
  assert (H : Forall (fun p => Py.contains "," p = false)
                ["https://staffing.example.com";
                 " https://beach.example.com "])
    by (repeat constructor).
  split; [exact H|]. split; [discriminate|]. split.
  - exact (proj1 (proj2 (proj2 (proj2 allowed_origins_from_environment)))
                 _ _ H ltac:(discriminate)).
  - exact (proj1 (proj2 (proj2 allowed_origins_from_environment))
                 "https://staffing.example.com").
Defined.

(** ** Seeding *)

Section Seeding.

Lemma fold_max_bounded (b : Z) (rows : list Row) :
  Forall (fun r => row_id r <= b) rows ->
  fold_right (fun r' m => Z.max (row_id r') m) b rows = b.
Proof.
  induction 1 as [|r rows Hr _ IH]; simpl; [reflexivity|].
  rewrite IH. lia.
Qed.

Lemma fold_max_app (a : Z) (rows : list Row) (x : Row) :
  fold_right (fun r' m => Z.max (row_id r') m) a (rows ++ [x])
  = fold_right (fun r' m => Z.max (row_id r') m) (Z.max (row_id x) a) rows.
Proof. now rewrite fold_right_app. Qed.

(** After an INSERT the next row id is the next integer. *)
Lemma new_rowid_after_insert (n r d : string) (s : StaffingStatus)
    (c u : IsoText) (db : Database) :
  Sql.new_rowid (snd (Sql.insert n r d s c u db)) = Sql.new_rowid db + 1.
Proof.
  pose proof (new_rowid_fresh db) as Hfresh.
  unfold Sql.insert. cbn [snd].
  set (i := Sql.new_rowid db) in *.
  unfold Sql.new_rowid at 1. cbn [people_table sqlite_sequence].
  destruct (people_table db) as [|x rows]; cbn [app].
  - cbn [fold_right row_id]. lia.
  - inversion Hfresh as [|? ? Hx Hrows]; subst.
    rewrite fold_max_app. cbn [row_id].
    rewrite fold_max_bounded; [lia|].
    eapply Forall_impl; [|exact Hrows]. cbn beta. intros; lia.
Qed.

Lemma seed_fold (t : datetime)
    (samples : list (string * string * string * StaffingStatus))
    (db : Database) :
  let db' := fold_left (seed_data.insert_sample (isoformat t)) samples db in
  people_table db'
  = (people_table db ++ numbered_rows (Sql.new_rowid db) t samples)%list /\
  (samples <> [] ->
   sqlite_sequence db'
   = Sql.new_rowid db + Z.of_nat (List.length samples) - 1).
Proof.
  revert db. induction samples as [|[[[n r] d] s] rest IH]; intros db.
  - cbn. rewrite app_nil_r. split; [reflexivity | congruence].
  - cbn [fold_left seed_data.insert_sample numbered_rows].
    destruct (IH (snd (Sql.insert n r d s (isoformat t) (isoformat t) db)))
      as [Hrows Hseq].
    cbv zeta in Hrows, Hseq.
    rewrite new_rowid_after_insert in Hrows, Hseq.
    split.
    + rewrite Hrows. unfold Sql.insert. cbn [snd people_table].
      now rewrite <- app_assoc.
    + intros _. destruct rest as [|p rest'].
      * cbn. lia.
      * rewrite Hseq by discriminate. cbn [List.length]. lia.
Qed.

Lemma numbered_rows_ids (first_id : Z) (t : datetime)
    (samples : list (string * string * string * StaffingStatus)) :
  Forall (fun r => first_id <= row_id r /\
                   row_created_at r = isoformat t /\ row_updated_at r = t)
         (numbered_rows first_id t samples) /\
  NoDup (map row_id (numbered_rows first_id t samples)) /\
  List.length (numbered_rows first_id t samples) = List.length samples.
Proof.
  revert first_id. induction samples as [|[[[n r] d] s] rest IH];
    intros first_id; cbn [numbered_rows].
  - repeat constructor.
  - destruct (IH (first_id + 1)) as (Hall & Hnd & Hlen).
    split; [|split].
    + constructor; [cbn; repeat split; lia|].
      eapply Forall_impl; [|exact Hall]. cbn beta.
      intros x (Hx & Hc & Hu). repeat split; [lia | assumption ..].
    + cbn [map row_id]. constructor; [|exact Hnd].
      intros Hin. apply in_map_iff in Hin as (x & Hx & Hin).
      rewrite Forall_forall in Hall. destruct (Hall x Hin) as (Hge & _). lia.
    + cbn [List.length]. now rewrite Hlen.
Qed.

Lemma SAMPLE_PEOPLE_valid (first_id : Z) (t : datetime) :
  Forall row_valid (numbered_rows first_id t seed_data.SAMPLE_PEOPLE).
Proof.
  unfold seed_data.SAMPLE_PEOPLE. cbn [numbered_rows].
  repeat (constructor; [repeat split|]). constructor.
Qed.

End Seeding.

(** X22.  [seed_people_data] appends the twenty sample people to the table,
    in their order, with consecutive ids from the next row id on and the
    one clock reading as [created_at] and [updated_at] of each; the rows
    that were there stay as they were.  It keeps the rows valid and the ids
    pairwise distinct. *)
Theorem seeding_appends_the_samples (current_time : datetime) (db : Database) :
  let db' := seed_data.seed_people_data current_time db in
  people_table db'
  = (people_table db
     ++ numbered_rows (Sql.new_rowid db) current_time
                      seed_data.SAMPLE_PEOPLE)%list /\
  List.length (people_table db') = (List.length (people_table db) + 20)%nat /\
  sqlite_sequence db' = Sql.new_rowid db + 19 /\
  (forall person_id row,
     Sql.select_by_id person_id (people_table db) = Some row ->
     Sql.select_by_id person_id (people_table db') = Some row) /\
  (db_valid db -> db_valid db') /\
  (ids_unique db -> ids_unique db').
Proof.
  intros db'. subst db'. unfold seed_data.seed_people_data.
  destruct (seed_fold current_time seed_data.SAMPLE_PEOPLE db)
    as [Hrows Hseq].
  cbv zeta in Hrows, Hseq.
  destruct (numbered_rows_ids (Sql.new_rowid db) current_time
              seed_data.SAMPLE_PEOPLE) as (Hall & Hnd & Hlen).
  split; [exact Hrows|]. rewrite Hrows.
  split; [rewrite length_app, Hlen; reflexivity|].
  split; [rewrite Hseq by discriminate; cbn; lia|].
  split; [|split].
  - intros person_id row Hsel. now rewrite select_by_id_app, Hsel.
  - intros Hdb. unfold db_valid. rewrite Hrows. apply Forall_app.
    split; [exact Hdb | apply SAMPLE_PEOPLE_valid].
  - unfold ids_unique. rewrite Hrows. intros Hu. rewrite map_app.
    apply NoDup_app; [exact Hu | exact Hnd|].
    intros i Hold Hnew.
    apply in_map_iff in Hold as (x & <- & Hx).
    apply in_map_iff in Hnew as (y & Hy & Hin).
    pose proof (new_rowid_fresh db) as Hf. rewrite Forall_forall in Hf, Hall.
    specialize (Hf x Hx). specialize (Hall y Hin). lia.
Qed.

Lemma seeding_appends_the_samples_witness :
  db_valid example_db /\ ids_unique example_db /\
  Sql.new_rowid example_db = 4 /\
  List.length (people_table (seed_data.seed_people_data 900 example_db))
  = 23%nat /\
  sqlite_sequence (seed_data.seed_people_data 900 example_db) = 23 /\
  db_valid (seed_data.seed_people_data 900 example_db) /\
  ids_unique (seed_data.seed_people_data 900 example_db).
Proof.
  split; [exact example_db_valid|]. split; [exact example_ids_unique|].
  split; [reflexivity|].
  destruct (seeding_appends_the_samples 900 example_db)
    as (_ & Hlen & Hseq & _ & Hvalid & Hunique).
  split; [exact Hlen|]. split; [exact Hseq|].
  split; [exact (Hvalid example_db_valid) | exact (Hunique example_ids_unique)].
Defined.

(** X23.  [seed_database] with [clear_existing] replaces the table,
    whatever it held: afterwards the rows are the twenty sample people, all
    valid and with the one clock reading as [created_at] and [updated_at],
    the people count is 20 and the beach count 11, and [GET /people] answers
    200 with twenty people.  The ids do not start again at 1: they continue
    after the AUTOINCREMENT counter, so every id handed out before the seed
    is answered 404. *)
Theorem reseeding_replaces_the_table (current_time : datetime) (db : Database) :
  let db' := seed_data.seed_database true current_time db in
  people_table db'
  = numbered_rows (Z.max 1 (sqlite_sequence db + 1)) current_time
                  seed_data.SAMPLE_PEOPLE /\
  db_valid db' /\ ids_unique db' /\
  PeopleService.get_people_count db' = 20 /\
  BeachService.get_beach_count db' = 11 /\
  (exists people,
     people.get_all_people db' = Success HTTP_200_OK (people, 20) /\
     List.length people = 20%nat /\
     Forall (fun p => created_at p = current_time /\
                      updated_at p = current_time) people) /\
  (forall person_id,
     person_id <= sqlite_sequence db ->
     people.get_person_by_id person_id db'
     = HTTPException HTTP_404_NOT_FOUND).
Proof.
  intros db'. subst db'.
  unfold seed_data.seed_database, seed_data.seed_people_data.
  set (cleared := seed_data.clear_existing_data db).
  destruct (seed_fold current_time seed_data.SAMPLE_PEOPLE cleared)
    as [Hrows _].
  cbv zeta in Hrows.
  assert (Hfirst : Sql.new_rowid cleared = Z.max 1 (sqlite_sequence db + 1))
    by reflexivity.
  rewrite Hfirst in Hrows. cbn [cleared seed_data.clear_existing_data
                                people_table app] in Hrows.
  set (db' := fold_left (seed_data.insert_sample (isoformat current_time))
                        seed_data.SAMPLE_PEOPLE cleared) in *.
  set (first_id := Z.max 1 (sqlite_sequence db + 1)) in *.
  destruct (numbered_rows_ids first_id current_time seed_data.SAMPLE_PEOPLE)
    as (Hall & Hnd & Hlen).
  assert (Hdb' : db_valid db').
  { unfold db_valid. rewrite Hrows. apply SAMPLE_PEOPLE_valid. }
  assert (Hunique : ids_unique db').
  { unfold ids_unique. rewrite Hrows. exact Hnd. }
  split; [exact Hrows|]. split; [exact Hdb'|].
  split; [exact Hunique|].
  split; [unfold PeopleService.get_people_count; rewrite Hrows;
          reflexivity|].
  split; [unfold BeachService.get_beach_count; rewrite Hrows;
          reflexivity|].
  split.
  - rewrite (router_get_all_people_valid _ Hdb'). rewrite Hrows.
    eexists. split; [now rewrite Hlen|].
    split; [now rewrite length_map, order_by_length, Hlen|].
    apply Forall_forall. intros p Hp.
    apply in_map_iff in Hp as (r & <- & Hr).
    apply (Permutation_in _ (order_by_perm _)) in Hr.
    rewrite Forall_forall in Hall. destruct (Hall r Hr) as (_ & Hc & Hu).
    cbn [Person_of_row created_at updated_at]. rewrite Hc.
    split; [reflexivity | assumption].
  - intros person_id Hold. unfold people.get_person_by_id. rewrite Hrows.
    destruct (Sql.select_by_id person_id _) as [r|] eqn:Hsel; [|reflexivity].
    pose proof (select_by_id_id _ _ _ Hsel) as Hid.
    apply find_some in Hsel as [Hin _].
    rewrite Forall_forall in Hall. destruct (Hall r Hin) as (Hge & _).
    unfold first_id in Hge. lia.
Qed.

Lemma reseeding_replaces_the_table_witness :
  sqlite_sequence example_db = 3 /\
  PeopleService.get_people_count
    (seed_data.seed_database true 900 example_db) = 20 /\
  BeachService.get_beach_count
    (seed_data.seed_database true 900 example_db) = 11 /\
  people.get_person_by_id 2 (seed_data.seed_database true 900 example_db)
  = HTTPException HTTP_404_NOT_FOUND /\
  people.get_person_by_id 4 (seed_data.seed_database true 900 example_db)
  = Success HTTP_200_OK
      (mkPerson 4 "Alice Johnson" "Senior Software Engineer" "Engineering"
                STAFFED 900 900).
Proof.
  split; [reflexivity|].
  destruct (reseeding_replaces_the_table 900 example_db)
    as (_ & _ & _ & Hcount & Hbeach & _ & Hold).
  split; [exact Hcount|]. split; [exact Hbeach|].
  split; [apply Hold; simpl; lia | reflexivity].
Defined.

(** ** The beach route, and the beach after a create *)

(** X24.  On a table of valid rows [GET /beach] answers 200 with the list
    of [BeachService.get_people_on_beach], the value of
    [BeachService.get_beach_count] as [total_count], and the clock reading
    as [last_updated]; every person of the list is on the beach. *)
Theorem beach_route_reports_list_and_count
    (utcnow : datetime) (db : Database) :
  db_valid db ->
  exists people_on_beach,
    beach.get_people_on_beach utcnow db
    = Success HTTP_200_OK
        (people_on_beach, BeachService.get_beach_count db, utcnow) /\
    BeachService.get_people_on_beach db = Returns people_on_beach /\
    Forall (fun p => on_beach p = true) people_on_beach.
Proof.
  intros Hdb. unfold beach.get_people_on_beach.
  rewrite (get_people_on_beach_valid _ Hdb).
  eexists. split; [|split; [reflexivity|]].
  - rewrite length_map, order_by_length. reflexivity.
  - apply Forall_forall. intros p Hp.
    apply in_map_iff in Hp as (r & <- & Hr).
    apply (Permutation_in _ (order_by_perm _)) in Hr.
    apply filter_In in Hr as [_ Hr].
    unfold Sql.status_in_bench_available in Hr. unfold on_beach.
    cbn [Person_of_row staffing_status].
    now destruct (row_staffing_status r).
Qed.

Lemma beach_route_reports_list_and_count_witness :
  db_valid example_db /\
  beach.get_people_on_beach 950 example_db
  = Success HTTP_200_OK
      ([mkPerson 3 "Carol Martinez" "DevOps Engineer" "Engineering"
                 AVAILABLE 120 120;
        mkPerson 2 "Bob Chen" "Frontend Developer" "Engineering"
                 BENCH 100 140], 2, 950) /\
  exists people_on_beach,
    beach.get_people_on_beach 950 example_db
    = Success HTTP_200_OK
        (people_on_beach, BeachService.get_beach_count example_db, 950) /\
    BeachService.get_people_on_beach example_db = Returns people_on_beach /\
    Forall (fun p => on_beach p = true) people_on_beach.
Proof.
  split; [exact example_db_valid|]. split; [reflexivity|].
  exact (beach_route_reports_list_and_count 950 example_db example_db_valid).
Defined.

(** X25.  A person created through the router, on a table of valid rows,
    is on the beach list afterwards exactly when the requested status is
    not [staffed]; the people who were on the list before are still on
    it. *)
Theorem created_person_on_beach_unless_staffed
    (current_time : datetime) (person_data : PersonCreate) (db : Database) :
  db_valid db -> PersonCreate_ok person_data ->
  exists person before after,
    fst (people.create_person current_time person_data db)
    = Success HTTP_201_CREATED person /\
    BeachService.get_people_on_beach db = Returns before /\
    BeachService.get_people_on_beach
      (snd (people.create_person current_time person_data db))
    = Returns after /\
    (In person after <-> pc_staffing_status person_data <> STAFFED) /\
    (forall p, In p before -> In p after).
Proof.
  intros Hdb Hok.
  rewrite (router_create_person_ok _ _ _ Hok). cbn [fst snd].
  set (row := mkRow (Sql.new_rowid db) (pc_name person_data)
                    (pc_role person_data) (pc_department person_data)
                    (pc_staffing_status person_data)
                    (isoformat current_time) current_time).
  assert (Hdb' : db_valid (mkDatabase (people_table db ++ [row])
                                      (Sql.new_rowid db))).
  { unfold db_valid. cbn [people_table]. apply Forall_app.
    split; [exact Hdb|]. constructor; [exact Hok | constructor]. }
  rewrite (get_people_on_beach_valid _ Hdb),
    (get_people_on_beach_valid _ Hdb').
  cbn [people_table]. rewrite filter_app.
  eexists. eexists. eexists.
  split; [reflexivity|]. split; [reflexivity|]. split; [reflexivity|].
  split.
  - split.
    + intros Hin. apply in_map_iff in Hin as (r & Hr & Hin).
      apply (Permutation_in _ (order_by_perm _)) in Hin.
      apply in_app_iff in Hin as [Hin|Hin].
      * exfalso. apply filter_In in Hin as [Hin _].
        pose proof (new_rowid_fresh db) as Hf. rewrite Forall_forall in Hf.
        specialize (Hf r Hin).
        apply (f_equal id) in Hr. cbn [Person_of_row id row row_id] in Hr.
        lia.
      * apply filter_In in Hin as [[<-|[]] Hq].
        now apply status_in_bench_available_iff in Hq.
    + intros Hne. apply in_map.
      apply (Permutation_in _ (Permutation_sym (order_by_perm _))).
      apply in_app_iff. right. apply filter_In.
      split; [now left|]. now apply status_in_bench_available_iff.
  - intros p Hp. apply in_map_iff in Hp as (r & <- & Hr). apply in_map.
    apply (Permutation_in _ (order_by_perm _)) in Hr.
    apply (Permutation_in _ (Permutation_sym (order_by_perm _))).
    apply in_app_iff. now left.
Qed.

Lemma created_person_on_beach_unless_staffed_witness :
  db_valid example_db /\ PersonCreate_ok ann_lee /\
  BeachService.get_people_on_beach
    (snd (people.create_person 500 ann_lee example_db))
  = Returns [mkPerson 4 "Ann Lee" "Engineer" "Eng" AVAILABLE 500 500;
             mkPerson 3 "Carol Martinez" "DevOps Engineer" "Engineering"
                      AVAILABLE 120 120;
             mkPerson 2 "Bob Chen" "Frontend Developer" "Engineering"
                      BENCH 100 140] /\
  exists person before after,
    fst (people.create_person 500 ann_lee example_db)
    = Success HTTP_201_CREATED person /\
    BeachService.get_people_on_beach example_db = Returns before /\
    BeachService.get_people_on_beach
      (snd (people.create_person 500 ann_lee example_db))
    = Returns after /\
    (In person after <-> pc_staffing_status ann_lee <> STAFFED) /\
    (forall p, In p before -> In p after).
Proof.
  split; [exact example_db_valid|].
  split; [exact (proj1 example_PersonCreate_ok)|]. split; [reflexivity|].
  exact (created_person_on_beach_unless_staffed 500 ann_lee example_db
           example_db_valid (proj1 example_PersonCreate_ok)).
Defined.

(** ** A stored row that the response model rejects *)

Lemma Persons_from_rows_None (rows : list Row) (row : Row) :
  In row rows -> Person_from_row row = None -> Persons_from_rows rows = None.
Proof.
  induction rows as [|r rows IH]; simpl; [contradiction|].
  intros [->|Hin] Hbad.
  - now rewrite Hbad.
  - destruct (Person_from_row r); [|reflexivity]. now rewrite IH.
Qed.

Lemma Person_from_row_text_only (row row' : Row) :
  row_name row' = row_name row -> row_role row' = row_role row ->
  row_department row' = row_department row ->
  Person_from_row row = None -> Person_from_row row' = None.
Proof.
  unfold Person_from_row. intros -> -> ->.
  destruct (text_field (row_name row)); [|reflexivity].
  destruct (text_field (row_role row)); [|reflexivity].
  destruct (text_field (row_department row)); [|reflexivity].
  discriminate.
Qed.

(** X26.  When the stored row of an id holds a text value that the
    [Person] model rejects, the routes that build a [Person] from it answer
    500: [get_person_by_id], [get_all_people], and [delete_person], which
    then deletes nothing.  [update_person] with a request that supplies the
    status only also answers 500, but after the commit: the new status and
    [updated_at] are stored. *)
Theorem rejected_stored_row_answers_500
    (now : datetime) (person_id : Z) (db : Database) (row : Row)
    (s : StaffingStatus) :
  Sql.select_by_id person_id (people_table db) = Some row ->
  Person_from_row row = None ->
  people.get_person_by_id person_id db
  = HTTPException HTTP_500_INTERNAL_SERVER_ERROR /\
  people.get_all_people db = HTTPException HTTP_500_INTERNAL_SERVER_ERROR /\
  people.delete_person person_id db
  = (HTTPException HTTP_500_INTERNAL_SERVER_ERROR, db) /\
  fst (people.update_person now person_id
         (mkPersonUpdate None None None (Some s)) db)
  = HTTPException HTTP_500_INTERNAL_SERVER_ERROR /\
  Sql.select_by_id person_id
    (people_table
       (snd (people.update_person now person_id
               (mkPersonUpdate None None None (Some s)) db)))
  = Some (mkRow (row_id row) (row_name row) (row_role row)
                (row_department row) s (row_created_at row) now).
Proof.
  intros Hsel Hbad.
  split; [unfold people.get_person_by_id; now rewrite Hsel, Hbad|].
  split.
  { unfold people.get_all_people.
    rewrite (Persons_from_rows_None _ row); [reflexivity| |exact Hbad].
    apply (Permutation_in _ (Permutation_sym (order_by_perm _))).
    apply find_some in Hsel. apply Hsel. }
  split; [unfold people.delete_person; now rewrite Hsel, Hbad|].
  assert (Hsome : ~ supplies_nothing (mkPersonUpdate None None None (Some s)))
    by (intros (_ & _ & _ & H); discriminate).
  rewrite (router_update_person_applied _ _ _ _ _ Hsel Hsome).
  cbn [fst snd]. rewrite (select_updated _ _ _ _ Hsel).
  rewrite assign_supplied_fields.
  cbn [pu_name pu_role pu_department pu_staffing_status].
  split; [|reflexivity].
  rewrite (Person_from_row_text_only row); auto.
Qed.

Lemma rejected_stored_row_answers_500_witness :
  Sql.select_by_id 2 (people_table blank_name_db) = Some blank_name_row /\
  Person_from_row blank_name_row = None /\
  people.get_person_by_id 2 blank_name_db
  = HTTPException HTTP_500_INTERNAL_SERVER_ERROR /\
  people.get_all_people blank_name_db
  = HTTPException HTTP_500_INTERNAL_SERVER_ERROR /\
  people.delete_person 2 blank_name_db
  = (HTTPException HTTP_500_INTERNAL_SERVER_ERROR, blank_name_db) /\
  people.update_person 200 2 staff_update blank_name_db
  = (HTTPException HTTP_500_INTERNAL_SERVER_ERROR,
     mkDatabase
       [mkRow 1 "Alice Johnson" "Senior Software Engineer" "Engineering"
              STAFFED (isoformat 100) 100;
        mkRow 2 "   " "Frontend Developer" "Engineering" STAFFED
              (isoformat 100) 200] 2).
Proof.
  split; [reflexivity|]. split; [reflexivity|].
  destruct (rejected_stored_row_answers_500 200 2 blank_name_db
              blank_name_row STAFFED eq_refl eq_refl)
    as (Hget & Hall & Hdel & _).
  split; [exact Hget|]. split; [exact Hall|]. split; [exact Hdel|].
  reflexivity.
Defined.

(** X27.  [get_document_info] answers 200 exactly for an allow-listed name
    whose path exists, and then with the requested name, the description of
    the allow-list, the size and modification time that [stat] reports, and
    the extension [.md].  The only other answers are 400 and 404. *)
Theorem get_document_info_describes_allow_listed_file
    (fs : documents.FileSystem) (filename : string) :
  (forall info,
     fst (documents.get_document_info fs filename) = Success HTTP_200_OK info
     <->
     exists description,
       In (filename, description) documents.AVAILABLE_DOCUMENTS /\
       documents.path_exists fs filename = true /\
       info = documents.mkDocumentInfo filename description
                (fst (documents.path_stat fs filename))
                (snd (documents.path_stat fs filename)) ".md") /\
  In (status_code_of (fst (documents.get_document_info fs filename)))
     [HTTP_200_OK; HTTP_400_BAD_REQUEST; HTTP_404_NOT_FOUND].
Proof.
  assert (Hkey : forall description,
             In (filename, description) documents.AVAILABLE_DOCUMENTS <->
             documents.dict_get filename documents.AVAILABLE_DOCUMENTS
             = Some description).
  { intros description.
    unfold documents.dict_get, documents.AVAILABLE_DOCUMENTS.
    cbn [find fst snd In].
    destruct (String.eqb_spec "employee-handbook.md" filename) as [<-|H1];
      [split; [intros [[= <-]|[[=]|[[=]|[]]]]; reflexivity
              | intros [= <-]; auto]|].
    destruct (String.eqb_spec "code-of-conduct.md" filename) as [<-|H2];
      [split; [intros [[=]|[[= <-]|[[=]|[]]]]; reflexivity
              | intros [= <-]; auto]|].
    destruct (String.eqb_spec "security-policy.md" filename) as [<-|H3];
      [split; [intros [[=]|[[=]|[[= <-]|[]]]]; reflexivity
              | intros [= <-]; auto]|].
    split; [|discriminate].
    intros [[= ? _]|[[= ? _]|[[= ? _]|[]]]]; congruence. }
  unfold documents.get_document_info.
  destruct (documents.dict_get filename documents.AVAILABLE_DOCUMENTS)
    as [description|] eqn:Hd.
  - assert (Hmem : documents.dict_mem filename documents.AVAILABLE_DOCUMENTS
                   = true)
      by (unfold documents.dict_mem; now rewrite Hd).
    destruct (AVAILABLE_DOCUMENTS_pass_checks _ Hmem) as [-> _].
    assert (Hext : documents.suffix filename = ".md").
    { apply dict_mem_AVAILABLE_DOCUMENTS in Hmem as [-> | [-> | ->]];
        reflexivity. }
    rewrite Hext.
    destruct (documents.path_exists fs filename); cbn [negb].
    + destruct (documents.path_stat fs filename) as [size mtime].
      cbn [fst snd]. split; [|simpl; auto].
      intros info. split.
      * intros [= <-]. exists description.
        split; [now apply Hkey|]. split; reflexivity.
      * intros (d & Hin & _ & ->). apply Hkey in Hin.
        now injection Hin as <-.
    + cbn [fst]. split; [|simpl; auto]. intros info.
      split; [discriminate | intros (_ & _ & [=] & _)].
  - destruct (documents.path_traversal filename); cbn [fst];
      (split; [|simpl; auto]); intros info;
      (split; [discriminate|]); intros (d & Hin & _);
      apply Hkey in Hin; discriminate.
Qed.

Lemma get_document_info_describes_allow_listed_file_witness :
  documents.get_document_info example_dir "security-policy.md"
  = (Success HTTP_200_OK
       (documents.mkDocumentInfo
          "security-policy.md"
          "Security Policy - Information security guidelines and requirements"
          2048 1700000000 ".md"),
     [documents.Call_exists "security-policy.md";
      documents.Call_stat "security-policy.md"]) /\
  exists description,
    In ("security-policy.md", description) documents.AVAILABLE_DOCUMENTS /\
    documents.path_exists example_dir "security-policy.md" = true /\
    documents.mkDocumentInfo
      "security-policy.md"
      "Security Policy - Information security guidelines and requirements"
      2048 1700000000 ".md"
    = documents.mkDocumentInfo "security-policy.md" description
        (fst (documents.path_stat example_dir "security-policy.md"))
        (snd (documents.path_stat example_dir "security-policy.md")) ".md".
Proof.
  split; [reflexivity|].
  exact (proj1 (proj1 (get_document_info_describes_allow_listed_file
                         example_dir "security-policy.md") _) eq_refl).
Defined.
